(** * SSC (Super Secure Chat): the encrypted session layer

    A shallow embedding of [lib/signal.ts] ([SignalStore], [SignalProtocol]),
    of [services/CryptoService.ts] and of the [sendMessage],
    [initializeCrypto] and [formatDuration] functions of the chat thread
    screen, together with the properties of the specification that concern
    them and further properties of the same code.  The files are embedded
    as they stand.

    The TypeScript code is a wrapper around three collaborators that are
    not part of the repository: the libsignal package (reached through
    untyped handles), the device key store (expo-secure-store) and the
    hosted backend (supabase).  The key store and the backend are modelled
    as finite maps inside the [World]; libsignal is a record of operations,
    [SignalLib], over which every definition is parameterised. *)

From Stdlib Require Import ZArith NArith List Lia Bool Ascii String.
From Stdlib Require Import Strings.Byte.
From stdpp Require Import base option list gmap strings pretty.

Local Open Scope Z_scope.
Local Open Scope list_scope.

(** ** JavaScript strings

    A JavaScript string is a sequence of UTF-16 code units; [length],
    [substring] and the regular expressions of the source all work on code
    units. *)

Abbreviation jsstring := (list N).

Definition js (s : string) : jsstring :=
  map N_of_ascii (list_ascii_of_string s).

(** A [Buffer] (or [Uint8Array]) is a sequence of bytes. *)
Abbreviation bytes := (list byte).

#[export] Instance byte_eq_decision : EqDecision byte := Byte.byte_eq_dec.

(** ** JavaScript numbers as far as the source uses them: integers and NaN *)

Inductive jsnumber :=
| JNum (z : Z)
| JNaN.

Definition jsnumber_toString (n : jsnumber) : jsstring :=
  match n with
  | JNum z => js (pretty z)
  | JNaN => js "NaN"
  end.

(** [a % b] (the sign follows the dividend) and [a + b]. *)
Definition js_rem (a : jsnumber) (b : Z) : jsnumber :=
  match a with
  | JNum z => if Z.eqb b 0 then JNaN else JNum (Z.rem z b)
  | JNaN => JNaN
  end.

Definition js_add (a : jsnumber) (b : Z) : jsnumber :=
  match a with
  | JNum z => JNum (z + b)
  | JNaN => JNaN
  end.

(** *** [parseInt(s, radix)]

    Leading white space, an optional sign, an optional [0x] for radix 16,
    then the longest run of digits; [NaN] when there is no digit.  The
    value is exact (no rounding to a double: the source parses at most
    eight hexadecimal digits, or an id it stored itself). *)

Definition is_js_whitespace (c : N) : bool :=
  (N.leb 9 c && N.leb c 13) || N.eqb c 32 || N.eqb c 160 || N.eqb c 5760
  || (N.leb 8192 c && N.leb c 8202) || N.eqb c 8232 || N.eqb c 8233
  || N.eqb c 8239 || N.eqb c 8287 || N.eqb c 12288 || N.eqb c 65279.

Definition digit_value (c : N) : option Z :=
  if N.leb 48 c && N.leb c 57 then Some (Z.of_N c - 48)
  else if N.leb 97 c && N.leb c 122 then Some (Z.of_N c - 97 + 10)
  else if N.leb 65 c && N.leb c 90 then Some (Z.of_N c - 65 + 10)
  else None.

Definition radix_digit (radix : Z) (c : N) : option Z :=
  match digit_value c with
  | Some d => if Z.ltb d radix then Some d else None
  | None => None
  end.

(** The longest prefix of digits, accumulated from the left; [None] when
    the prefix is empty. *)
Fixpoint parse_digits (radix : Z) (acc : option Z) (s : jsstring) : option Z :=
  match s with
  | [] => acc
  | c :: rest =>
      match radix_digit radix c with
      | Some d => parse_digits radix (Some (default 0 acc * radix + d)) rest
      | None => acc
      end
  end.

Fixpoint drop_whitespace (s : jsstring) : jsstring :=
  match s with
  | c :: rest => if is_js_whitespace c then drop_whitespace rest else s
  | [] => []
  end.

Definition strip_hex_prefix (radix : Z) (s : jsstring) : jsstring :=
  match s with
  | 48%N :: x :: rest =>
      if Z.eqb radix 16 && (N.eqb x 120 || N.eqb x 88) then rest else s
  | _ => s
  end.

Definition parseInt (s : jsstring) (radix : Z) : jsnumber :=
  let s1 := drop_whitespace s in
  let '(sign, s2) :=
    match s1 with
    | 45%N :: rest => (-1, rest)
    | 43%N :: rest => (1, rest)
    | _ => (1, s1)
    end in
  match parse_digits radix None (strip_hex_prefix radix s2) with
  | Some v => JNum (sign * v)
  | None => JNaN
  end.

(** [s.replace(/-/g, '')] and [s.substring(0, n)]. *)
Definition remove_dashes (s : jsstring) : jsstring :=
  filter (fun c => c <> 45%N) s.

Definition substring0 (n : nat) (s : jsstring) : jsstring := take n s.

(** [s.trim()] *)
Definition trim (s : jsstring) : jsstring :=
  rev (drop_whitespace (rev (drop_whitespace s))).

(** [hay.includes(needle)] *)
Fixpoint is_prefix (p s : jsstring) : bool :=
  match p, s with
  | [], _ => true
  | a :: p', b :: s' => N.eqb a b && is_prefix p' s'
  | _ :: _, [] => false
  end.

Fixpoint includes (hay needle : jsstring) : bool :=
  is_prefix needle hay ||
  match hay with
  | [] => false
  | _ :: rest => includes rest needle
  end.

(** ** [Buffer]: base64

    [buf.toString('base64')] is the RFC 4648 encoding with padding.
    [Buffer.from(s, 'base64')] is lenient: it stops at the first ['='],
    skips every character outside the two base64 alphabets, and decodes a
    trailing group of two or three characters to one or two bytes. *)

Definition byte_of_N (n : N) : byte :=
  default "000"%byte (Byte.of_N (n mod 256)%N).

Definition b64_char (v : N) : N :=
  (if v <? 26 then 65 + v
   else if v <? 52 then 97 + (v - 26)
   else if v <? 62 then 48 + (v - 52)
   else if v =? 62 then 43
   else 47)%N.

Definition unbase64 (c : N) : option N :=
  (if (65 <=? c) && (c <=? 90) then Some (c - 65)
   else if (97 <=? c) && (c <=? 122) then Some (c - 97 + 26)
   else if (48 <=? c) && (c <=? 57) then Some (c - 48 + 52)
   else if (c =? 43) || (c =? 45) then Some 62
   else if (c =? 47) || (c =? 95) then Some 63
   else None)%N.

Fixpoint sextets_of_bytes (bs : bytes) : list N :=
  match bs with
  | b1 :: b2 :: b3 :: rest =>
      let n1 := Byte.to_N b1 in
      let n2 := Byte.to_N b2 in
      let n3 := Byte.to_N b3 in
      (n1 / 4 :: (n1 mod 4) * 16 + n2 / 16
          :: (n2 mod 16) * 4 + n3 / 64 :: n3 mod 64
          :: sextets_of_bytes rest)%N
  | [b1; b2] =>
      let n1 := Byte.to_N b1 in
      let n2 := Byte.to_N b2 in
      [n1 / 4; (n1 mod 4) * 16 + n2 / 16; (n2 mod 16) * 4]%N
  | [b1] =>
      let n1 := Byte.to_N b1 in
      [n1 / 4; (n1 mod 4) * 16]%N
  | [] => []
  end.

Definition b64_padding (len : nat) : jsstring :=
  match (len mod 3)%nat with
  | 1%nat => [61; 61]%N
  | 2%nat => [61]%N
  | _ => []
  end.

Definition base64_encode (bs : bytes) : jsstring :=
  map b64_char (sextets_of_bytes bs) ++ b64_padding (length bs).

Fixpoint bytes_of_sextets (vs : list N) : bytes :=
  match vs with
  | v1 :: v2 :: v3 :: v4 :: rest =>
      (byte_of_N (v1 * 4 + v2 / 16)
         :: byte_of_N ((v2 mod 16) * 16 + v3 / 4)
         :: byte_of_N ((v3 mod 4) * 64 + v4)
         :: bytes_of_sextets rest)%N
  | [v1; v2; v3] =>
      [byte_of_N (v1 * 4 + v2 / 16); byte_of_N ((v2 mod 16) * 16 + v3 / 4)]%N
  | [v1; v2] => [byte_of_N (v1 * 4 + v2 / 16)]%N
  | _ => []
  end.

Fixpoint until_padding (s : jsstring) : jsstring :=
  match s with
  | c :: rest => if (c =? 61)%N then [] else c :: until_padding rest
  | [] => []
  end.

Definition base64_decode (s : jsstring) : bytes :=
  bytes_of_sextets (omap unbase64 (until_padding s)).

(** ** [Buffer]: UTF-8

    [Buffer.from(s, 'utf8')] reads the code units of [s] as UTF-16 (an
    unpaired surrogate becomes U+FFFD) and writes each scalar value in
    UTF-8.  [buf.toString('utf8')] is the replacing decoder: each maximal
    invalid subpart becomes U+FFFD. *)

Definition is_high_surrogate (c : N) : bool := ((55296 <=? c) && (c <=? 56319))%N.
Definition is_low_surrogate (c : N) : bool := ((56320 <=? c) && (c <=? 57343))%N.

Fixpoint utf16_scalars (s : jsstring) : list N :=
  match s with
  | [] => []
  | c :: rest =>
      if is_high_surrogate c then
        match rest with
        | d :: rest' =>
            if is_low_surrogate d
            then (65536 + (c - 55296) * 1024 + (d - 56320))%N :: utf16_scalars rest'
            else 65533%N :: utf16_scalars rest
        | [] => [65533%N]
        end
      else if is_low_surrogate c then 65533%N :: utf16_scalars rest
      else if (65536 <=? c)%N then 65533%N :: utf16_scalars rest
      else c :: utf16_scalars rest
  end.

Definition utf8_of_scalar (cp : N) : list N :=
  (if cp <? 128 then [cp]
   else if cp <? 2048 then [192 + cp / 64; 128 + cp mod 64]
   else if cp <? 65536 then
     [224 + cp / 4096; 128 + (cp / 64) mod 64; 128 + cp mod 64]
   else
     [240 + cp / 262144; 128 + (cp / 4096) mod 64;
      128 + (cp / 64) mod 64; 128 + cp mod 64])%N.

Definition utf8_encode (s : jsstring) : bytes :=
  map byte_of_N (flat_map utf8_of_scalar (utf16_scalars s)).

Definition is_continuation (b : N) : bool := ((128 <=? b) && (b <=? 191))%N.

(** The second byte of a three or four byte sequence has a range that
    depends on the lead byte (no overlong forms, no surrogates, nothing
    above U+10FFFF). *)
Definition second_byte_ok (b1 b2 : N) : bool :=
  (if b1 =? 224 then (160 <=? b2) && (b2 <=? 191)
   else if b1 =? 237 then (128 <=? b2) && (b2 <=? 159)
   else if b1 =? 240 then (144 <=? b2) && (b2 <=? 191)
   else if b1 =? 244 then (128 <=? b2) && (b2 <=? 143)
   else is_continuation b2)%N.

Fixpoint utf8_scalars (bs : list N) : list N :=
  match bs with
  | [] => []
  | b1 :: r1 =>
      if (b1 <? 128)%N then b1 :: utf8_scalars r1
      else if ((194 <=? b1) && (b1 <=? 223))%N then
        match r1 with
        | b2 :: r2 =>
            if is_continuation b2
            then ((b1 - 192) * 64 + (b2 - 128))%N :: utf8_scalars r2
            else 65533%N :: utf8_scalars r1
        | [] => [65533%N]
        end
      else if ((224 <=? b1) && (b1 <=? 239))%N then
        match r1 with
        | b2 :: r2 =>
            if second_byte_ok b1 b2 then
              match r2 with
              | b3 :: r3 =>
                  if is_continuation b3
                  then ((b1 - 224) * 4096 + (b2 - 128) * 64 + (b3 - 128))%N
                         :: utf8_scalars r3
                  else 65533%N :: utf8_scalars r2
              | [] => [65533%N]
              end
            else 65533%N :: utf8_scalars r1
        | [] => [65533%N]
        end
      else if ((240 <=? b1) && (b1 <=? 244))%N then
        match r1 with
        | b2 :: r2 =>
            if second_byte_ok b1 b2 then
              match r2 with
              | b3 :: r3 =>
                  if is_continuation b3 then
                    match r3 with
                    | b4 :: r4 =>
                        if is_continuation b4
                        then ((b1 - 240) * 262144 + (b2 - 128) * 4096
                              + (b3 - 128) * 64 + (b4 - 128))%N
                               :: utf8_scalars r4
                        else 65533%N :: utf8_scalars r3
                    | [] => [65533%N]
                    end
                  else 65533%N :: utf8_scalars r2
              | [] => [65533%N]
              end
            else 65533%N :: utf8_scalars r1
        | [] => [65533%N]
        end
      else 65533%N :: utf8_scalars r1
  end.

Definition utf16_of_scalar (cp : N) : jsstring :=
  (if cp <? 65536 then [cp]
   else [55296 + (cp - 65536) / 1024; 56320 + (cp - 65536) mod 1024])%N.

Definition utf8_decode (bs : bytes) : jsstring :=
  flat_map utf16_of_scalar (utf8_scalars (map Byte.to_N bs)).

(** ** SHA-256 (FIPS 180-4), as [createHash('sha256')] computes it

    Words are 32-bit values kept in [N]; additions wrap around modulo
    2^32. *)

Module SHA256.

Local Open Scope N_scope.

Definition add32 (a b : N) : N := (a + b) mod 4294967296.

Definition rotr (n x : N) : N :=
  N.lor (N.shiftr x n) (N.shiftl x (32 - n) mod 4294967296).

Definition Ch (x y z : N) : N :=
  N.lxor (N.land x y) (N.land (N.lxor x 4294967295) z).

Definition Maj (x y z : N) : N :=
  N.lxor (N.lxor (N.land x y) (N.land x z)) (N.land y z).

Definition Sigma0 (x : N) : N := N.lxor (N.lxor (rotr 2 x) (rotr 13 x)) (rotr 22 x).
Definition Sigma1 (x : N) : N := N.lxor (N.lxor (rotr 6 x) (rotr 11 x)) (rotr 25 x).
Definition sigma0 (x : N) : N := N.lxor (N.lxor (rotr 7 x) (rotr 18 x)) (N.shiftr x 3).
Definition sigma1 (x : N) : N := N.lxor (N.lxor (rotr 17 x) (rotr 19 x)) (N.shiftr x 10).

Definition K : list N :=
  [
     1116352408; 1899447441; 3049323471; 3921009573; 961987163; 1508970993;
     2453635748; 2870763221; 3624381080; 310598401; 607225278; 1426881987;
     1925078388; 2162078206; 2614888103; 3248222580; 3835390401; 4022224774;
     264347078; 604807628; 770255983; 1249150122; 1555081692; 1996064986;
     2554220882; 2821834349; 2952996808; 3210313671; 3336571891; 3584528711;
     113926993; 338241895; 666307205; 773529912; 1294757372; 1396182291;
     1695183700; 1986661051; 2177026350; 2456956037; 2730485921; 2820302411;
     3259730800; 3345764771; 3516065817; 3600352804; 4094571909; 275423344;
     430227734; 506948616; 659060556; 883997877; 958139571; 1322822218;
     1537002063; 1747873779; 1955562222; 2024104815; 2227730452; 2361852424;
     2428436474; 2756734187; 3204031479; 3329325298
  ].

Definition H0 : list N :=
  [
     1779033703; 3144134277; 1013904242; 2773480762; 1359893119; 2600822924;
     528734635; 1541459225
  ].

(** Padding: a 1 bit, zeros up to 56 modulo 64 bytes, then the length in
    bits as a 64-bit big-endian integer. *)
Fixpoint be_bytes (n : nat) (x : N) : list N :=
  match n with
  | O => []
  | S n' => (x / 256 ^ N.of_nat n') mod 256 :: be_bytes n' x
  end.

Definition pad (msg : list N) : list N :=
  let len := length msg in
  let zeros := ((119 - len mod 64) mod 64)%nat in
  msg ++ [128] ++ repeat 0 zeros ++ be_bytes 8 (8 * N.of_nat len).

Fixpoint words_of_bytes (bs : list N) : list N :=
  match bs with
  | b0 :: b1 :: b2 :: b3 :: rest =>
      (b0 * 16777216 + b1 * 65536 + b2 * 256 + b3) :: words_of_bytes rest
  | _ => []
  end.

(** The message schedule, newest word first: [W t] is computed from the
    words 2, 7, 15 and 16 places before it. *)
Fixpoint schedule (n : nat) (wrev : list N) : list N :=
  match n with
  | O => wrev
  | S n' =>
      let w := add32 (add32 (sigma1 (nth 1 wrev 0)) (nth 6 wrev 0))
                     (add32 (sigma0 (nth 14 wrev 0)) (nth 15 wrev 0)) in
      schedule n' (w :: wrev)
  end.

Record regs := Regs { ra : N; rb : N; rc : N; rd : N; re : N; rf : N; rg : N; rh : N }.

Definition round (s : regs) (kw : N * N) : regs :=
  let '(k, w) := kw in
  let t1 := add32 (add32 (add32 (rh s) (Sigma1 (re s)))
                         (add32 (Ch (re s) (rf s) (rg s)) k)) w in
  let t2 := add32 (Sigma0 (ra s)) (Maj (ra s) (rb s) (rc s)) in
  Regs (add32 t1 t2) (ra s) (rb s) (rc s) (add32 (rd s) t1) (re s) (rf s) (rg s).

Definition regs_of_list (h : list N) : regs :=
  Regs (nth 0 h 0) (nth 1 h 0) (nth 2 h 0) (nth 3 h 0)
       (nth 4 h 0) (nth 5 h 0) (nth 6 h 0) (nth 7 h 0).

Definition list_of_regs (s : regs) : list N :=
  [ra s; rb s; rc s; rd s; re s; rf s; rg s; rh s].

Definition compress (h : list N) (block : list N) : list N :=
  let w := rev (schedule 48 (rev block)) in
  let s := fold_left round (combine K w) (regs_of_list h) in
  map (fun p => add32 (fst p) (snd p)) (combine h (list_of_regs s)).

Fixpoint blocks (n : nat) (ws : list N) : list (list N) :=
  match n with
  | O => []
  | S n' => take 16 ws :: blocks n' (drop 16 ws)
  end.

Definition digest_words (msg : list N) : list N :=
  let ws := words_of_bytes (pad msg) in
  fold_left compress (blocks (length ws / 16) ws) H0.

Definition hex_digit (v : N) : N := if v <? 10 then 48 + v else 97 + (v - 10).

Fixpoint hex_of_word (n : nat) (x : N) : list N :=
  match n with
  | O => []
  | S n' => hex_digit ((x / 16 ^ N.of_nat n') mod 16) :: hex_of_word n' x
  end.

(** [createHash('sha256').update(data).digest('hex')] *)
Definition digest_hex (data : list byte) : list N :=
  flat_map (hex_of_word 8) (digest_words (map Byte.to_N data)).

End SHA256.

(** ** Exceptions, results and the console *)

Record exn := Exn { exn_name : jsstring; exn_message : jsstring }.

Definition Error (msg : string) : exn := Exn (js "Error") (js msg).
Definition TypeError (msg : string) : exn := Exn (js "TypeError") (js msg).
Definition ReferenceError (msg : string) : exn :=
  Exn (js "ReferenceError") (js msg).
Definition RangeError (msg : string) : exn := Exn (js "RangeError") (js msg).

Inductive result (A : Type) :=
| Ok (a : A)
| Throw (e : exn).
Arguments Ok {A} a.
Arguments Throw {A} e.

Inductive LogLevel := LogError | LogWarn | LogInfo.

Record LogEntry := Log {
  log_level : LogLevel;
  log_label : jsstring;
  log_error : option exn
}.

(** ** The backend tables the encrypted layer touches *)

Record SignedPreKeyPublic := {
  spk_keyId : Z;
  spk_publicKey : jsstring;
  spk_signature : jsstring
}.

Record PreKeyPublic := {
  pk_keyId : Z;
  pk_publicKey : jsstring
}.

(** [interface UserBundle].  The two nested objects are declared mandatory,
    but bundles are assembled from untyped rows of the [profiles] table, so
    at run time either may be [null]. *)
Record UserBundle := {
  identityKey : jsstring;
  signedPreKey : option SignedPreKeyPublic;
  preKey : option PreKeyPublic;
  registrationId : jsnumber
}.

(** A row of [profiles], restricted to the selected columns. *)
Record Profile := {
  identity_key_public : option jsstring;
  signed_prekey : option SignedPreKeyPublic;
  one_time_prekeys : option (list (option PreKeyPublic))
}.

(** A row of [messages].  [expires_at] is kept as the instant in
    milliseconds since the epoch instead of its ISO rendering, and [id] as
    the number of the row instead of a random UUID. *)
Record Message := {
  msg_id : N;
  sender_id : jsstring;
  recipient_id : jsstring;
  ciphertext : jsstring;
  message_type : jsstring;
  expires_at : option Z;
  expire_duration : option Z
}.

(** ** The world: device key store, console, entropy, clock, backend

    One [World] is one device together with the backend it talks to.
    Random draws, the clock and the time zone of the device are inputs:
    [entropy] lists the values the draws return, in order, and [zone] is
    the offset of local time, in milliseconds, as ECMA-262 defines
    [LocalTZA(t, isUTC)]: for a UTC instant when the flag is set, for a
    local time otherwise. *)

Record World := {
  secure : gmap jsstring jsstring;   (* expo-secure-store *)
  console : list LogEntry;           (* oldest entry first *)
  entropy : nat -> N;                (* the values future random draws return *)
  drawn : nat;                       (* number of draws made so far *)
  now : N;                           (* Date.now() *)
  zone : Z -> bool -> Z;             (* LocalTZA(t, isUTC) *)
  profiles : gmap jsstring Profile;  (* supabase: profiles by id *)
  messages : list Message;           (* supabase: messages, oldest first *)
  insert_error : option exn          (* what the client reports on the next
                                        insert for a reason outside the
                                        schema: network, session, policy *)
}.

Definition set_secure (f : gmap jsstring jsstring -> gmap jsstring jsstring)
    (w : World) : World :=
  {| secure := f (secure w); console := console w; entropy := entropy w;
     drawn := drawn w; now := now w; zone := zone w;
     profiles := profiles w;
     messages := messages w; insert_error := insert_error w |}.

Definition set_console (f : list LogEntry -> list LogEntry) (w : World) : World :=
  {| secure := secure w; console := f (console w); entropy := entropy w;
     drawn := drawn w; now := now w; zone := zone w;
     profiles := profiles w;
     messages := messages w; insert_error := insert_error w |}.

Definition set_drawn (f : nat -> nat) (w : World) : World :=
  {| secure := secure w; console := console w; entropy := entropy w;
     drawn := f (drawn w); now := now w; zone := zone w;
     profiles := profiles w;
     messages := messages w; insert_error := insert_error w |}.

Definition set_messages (f : list Message -> list Message) (w : World) : World :=
  {| secure := secure w; console := console w; entropy := entropy w;
     drawn := drawn w; now := now w; zone := zone w;
     profiles := profiles w;
     messages := f (messages w); insert_error := insert_error w |}.

(** ** Asynchronous computations

    An [async] function is run to completion against the world: it
    returns or throws (a rejected promise), and leaves a new world. *)

Definition Async (A : Type) : Type := World -> result A * World.

#[export] Instance Async_ret : MRet Async := fun A a w => (Ok a, w).

#[export] Instance Async_bind : MBind Async := fun A B f m w =>
  match m w with
  | (Ok a, w') => f a w'
  | (Throw e, w') => (Throw e, w')
  end.

Definition throw {A} (e : exn) : Async A := fun w => (Throw e, w).

Definition lift_result {A} (r : result A) : Async A := fun w => (r, w).

Definition try_catch {A} (body : Async A) (handler : exn -> Async A) : Async A :=
  fun w =>
    match body w with
    | (Ok a, w') => (Ok a, w')
    | (Throw e, w') => handler e w'
    end.

Definition console_log (lvl : LogLevel) (label : string) (e : option exn)
    : Async unit :=
  fun w => (Ok tt, set_console (fun c => c ++ [Log lvl (js label) e]) w).

Definition console_error (label : string) (e : exn) : Async unit :=
  console_log LogError label (Some e).

Definition console_warn (label : jsstring) : Async unit :=
  fun w => (Ok tt, set_console (fun c => c ++ [Log LogWarn label None]) w).

(** [Math.random()] is a multiple of 2^-53 in [0, 1); the draw is its
    numerator.  [Math.floor(Math.random() * n)] is exact for the powers of
    two the source uses. *)
Definition draw : Async N :=
  fun w => (Ok (entropy w (drawn w)), set_drawn S w).

Definition floor_random_times (n : Z) : Async Z :=
  r ← draw; mret ((Z.of_N (r mod 2 ^ 53)%N * n) / 2 ^ 53).

Definition Date_now : Async N := fun w => (Ok (now w), w).

(** *** expo-secure-store

    The device store is taken to be reliable: a read or a write does not
    throw.  The [catch] blocks of [SignalStore] are kept; they are reached
    when a deserialiser of the library throws. *)

Definition getItemAsync (key : jsstring) : Async (option jsstring) :=
  fun w => (Ok (secure w !! key), w).

Definition setItemAsync (key value : jsstring) : Async unit :=
  fun w => (Ok tt, set_secure (insert key value) w).

(** A stored value counts only when it is truthy: present and not [""]. *)
Definition truthy (o : option jsstring) : option jsstring :=
  match o with
  | Some (c :: s) => Some (c :: s)
  | _ => None
  end.

(** ** libsignal, as the source uses it

    Everything the source reaches through [Signal.*]. Deserialisers may
    throw; the session operations read and write the store they are
    given (named here by the user id that owns it) and may throw.  Key
    generation, signing, the serialisers and the record constructors are
    taken to return on the values the wrapper hands them, and so is the
    device store: the statements below that speak of a successful
    [generateIdentity] or of a successful save have that as their premise,
    and none of them is a statement that these calls succeed. *)

Record ProtocolAddress := {
  addr_name : jsstring;
  addr_deviceId : Z
}.

Record IdentityKeyPair (PublicKey PrivateKey : Type) := {
  kp_publicKey : PublicKey;
  kp_privateKey : PrivateKey
}.
Arguments Build_IdentityKeyPair {PublicKey PrivateKey} _ _.
Arguments kp_publicKey {PublicKey PrivateKey} _.
Arguments kp_privateKey {PublicKey PrivateKey} _.

(** The arguments of [Signal.PreKeyBundle.new], in order. *)
Record PreKeyBundle (PublicKey : Type) := {
  pkb_registrationId : jsnumber;
  pkb_deviceId : Z;
  pkb_preKeyId : Z;
  pkb_preKey : PublicKey;
  pkb_signedPreKeyId : Z;
  pkb_signedPreKey : PublicKey;
  pkb_signature : bytes;
  pkb_identityKey : PublicKey
}.
Arguments Build_PreKeyBundle {PublicKey} _ _ _ _ _ _ _ _.
Arguments pkb_registrationId {PublicKey} _.
Arguments pkb_deviceId {PublicKey} _.
Arguments pkb_preKeyId {PublicKey} _.
Arguments pkb_preKey {PublicKey} _.
Arguments pkb_signedPreKeyId {PublicKey} _.
Arguments pkb_signedPreKey {PublicKey} _.
Arguments pkb_signature {PublicKey} _.
Arguments pkb_identityKey {PublicKey} _.

Record SignalLib := {
  load_error : option exn;            (* what the second import throws when
                                         neither package can be loaded *)
  PublicKey : Type;
  PrivateKey : Type;
  SignedPreKeyRecord : Type;
  PreKeyRecord : Type;
  CiphertextMessage : Type;
  PreKeySignalMessage : Type;
  SignalMessage : Type;
  PublicKey_deserialize : bytes -> result PublicKey;
  PublicKey_serialize : PublicKey -> bytes;
  PrivateKey_deserialize : bytes -> result PrivateKey;
  PrivateKey_serialize : PrivateKey -> bytes;
  PrivateKey_sign : PrivateKey -> bytes -> bytes;
  IdentityKeyPair_generate : N -> IdentityKeyPair PublicKey PrivateKey;
  SignedPreKeyRecord_new :
    Z -> N -> IdentityKeyPair PublicKey PrivateKey -> bytes -> SignedPreKeyRecord;
  SignedPreKeyRecord_serialize : SignedPreKeyRecord -> bytes;
  SignedPreKeyRecord_deserialize : bytes -> result SignedPreKeyRecord;
  SignedPreKeyRecord_publicKey : SignedPreKeyRecord -> PublicKey;
  SignedPreKeyRecord_signature : SignedPreKeyRecord -> bytes;
  PreKeyRecord_new : Z -> IdentityKeyPair PublicKey PrivateKey -> PreKeyRecord;
  PreKeyRecord_serialize : PreKeyRecord -> bytes;
  PreKeyRecord_deserialize : bytes -> result PreKeyRecord;
  PreKeyRecord_publicKey : PreKeyRecord -> PublicKey;
  CiphertextMessage_serialize : CiphertextMessage -> bytes;
  PreKeySignalMessage_deserialize : bytes -> result PreKeySignalMessage;
  SignalMessage_deserialize : bytes -> result SignalMessage;
  (* new SessionBuilder(store, address).processPreKeyBundle(bundle) *)
  processPreKeyBundle :
    jsstring -> ProtocolAddress -> PreKeyBundle PublicKey -> Async unit;
  (* new SessionCipher(store, address).encrypt(buffer) *)
  encrypt : jsstring -> ProtocolAddress -> bytes -> Async CiphertextMessage;
  decryptPreKeySignalMessage :
    jsstring -> ProtocolAddress -> PreKeySignalMessage -> Async bytes;
  decryptSignalMessage :
    jsstring -> ProtocolAddress -> SignalMessage -> Async bytes
}.

Section Model.

Variable L : SignalLib.

Abbreviation KeyPair := (IdentityKeyPair (PublicKey L) (PrivateKey L)).

(** [loadSignal].  With [load_error L = None] the package is loaded: [L]
    is the module that [Signal] holds, and the call returns it with no
    further effect.  (The one call that loads the fallback package after
    the native import failed also logs the warning below; that first call
    is not among the runs described.)  With [load_error L = Some e]
    neither import succeeds: every call logs the warning and rejects with
    the error of the second import. *)
Definition fallback_warning : jsstring :=
  [9888; 65039]%N ++ js " Falling back to JS libsignal for Expo Go".

Definition loadSignal : Async unit :=
  match load_error L with
  | Some e => console_warn fallback_warning;; throw e
  | None => mret tt
  end.

(** ** [class SignalStore] *)

Definition getKey (userId key : jsstring) : jsstring :=
  js "signal_" ++ userId ++ js "_" ++ key.

Definition getIdentityKeyPair (userId : jsstring) : Async (option KeyPair) :=
  try_catch
    (privateKeyData ← getItemAsync (getKey userId (js "identity_private"));
     publicKeyData ← getItemAsync (getKey userId (js "identity_public"));
     match truthy privateKeyData, truthy publicKeyData with
     | Some privateKeyData, Some publicKeyData =>
         privateKey ← lift_result
           (PrivateKey_deserialize L (base64_decode privateKeyData));
         publicKey ← lift_result
           (PublicKey_deserialize L (base64_decode publicKeyData));
         mret (Some (Build_IdentityKeyPair publicKey privateKey))
     | _, _ => mret None
     end)
    (fun error =>
       console_error "Error getting identity key pair:" error;; mret None).

Definition saveIdentityKeyPair (userId : jsstring) (keyPair : KeyPair)
    : Async unit :=
  try_catch
    (let privateKeyData := PrivateKey_serialize L (kp_privateKey keyPair) in
     let publicKeyData := PublicKey_serialize L (kp_publicKey keyPair) in
     setItemAsync (getKey userId (js "identity_private"))
                  (base64_encode privateKeyData);;
     setItemAsync (getKey userId (js "identity_public"))
                  (base64_encode publicKeyData))
    (fun error =>
       console_error "Error saving identity key pair:" error;; throw error).

Definition random_registrationId : Async jsnumber :=
  r ← floor_random_times 16384; mret (JNum (r + 1)).

Definition getLocalRegistrationId (userId : jsstring) : Async jsnumber :=
  try_catch
    (regId ← getItemAsync (getKey userId (js "registration_id"));
     match truthy regId with
     | Some regId => mret (parseInt regId 10)
     | None => random_registrationId
     end)
    (fun _ => random_registrationId).

Definition saveRegistrationId (userId : jsstring) (registrationId : jsnumber)
    : Async unit :=
  setItemAsync (getKey userId (js "registration_id"))
               (jsnumber_toString registrationId).

Definition signed_prekey_key (signedPreKeyId : Z) : jsstring :=
  js "signed_prekey_" ++ js (pretty signedPreKeyId).

Definition prekey_key (preKeyId : Z) : jsstring :=
  js "prekey_" ++ js (pretty preKeyId).

Definition getSignedPreKey (userId : jsstring) (signedPreKeyId : Z)
    : Async (option (SignedPreKeyRecord L)) :=
  try_catch
    (data ← getItemAsync (getKey userId (signed_prekey_key signedPreKeyId));
     match truthy data with
     | None => mret None
     | Some data =>
         r ← lift_result (SignedPreKeyRecord_deserialize L (base64_decode data));
         mret (Some r)
     end)
    (fun error => console_error "Error getting signed prekey:" error;; mret None).

Definition saveSignedPreKey (userId : jsstring) (signedPreKeyId : Z)
    (record : SignedPreKeyRecord L) : Async unit :=
  try_catch
    (let data := SignedPreKeyRecord_serialize L record in
     setItemAsync (getKey userId (signed_prekey_key signedPreKeyId))
                  (base64_encode data))
    (fun error => console_error "Error saving signed prekey:" error;; throw error).

Definition getPreKey (userId : jsstring) (preKeyId : Z)
    : Async (option (PreKeyRecord L)) :=
  try_catch
    (data ← getItemAsync (getKey userId (prekey_key preKeyId));
     match truthy data with
     | None => mret None
     | Some data =>
         r ← lift_result (PreKeyRecord_deserialize L (base64_decode data));
         mret (Some r)
     end)
    (fun error => console_error "Error getting prekey:" error;; mret None).

Definition savePreKey (userId : jsstring) (preKeyId : Z)
    (record : PreKeyRecord L) : Async unit :=
  try_catch
    (let data := PreKeyRecord_serialize L record in
     setItemAsync (getKey userId (prekey_key preKeyId)) (base64_encode data))
    (fun error => console_error "Error saving prekey:" error;; throw error).

Definition session_key (address : ProtocolAddress) : jsstring :=
  js "session_" ++ addr_name address ++ js "_"
     ++ js (pretty (addr_deviceId address)).

Definition loadSession (userId : jsstring) (address : ProtocolAddress)
    : Async (option bytes) :=
  try_catch
    (data ← getItemAsync (getKey userId (session_key address));
     match truthy data with
     | None => mret None
     | Some data => mret (Some (base64_decode data))
     end)
    (fun error => console_error "Error loading session:" error;; mret None).

Definition storeSession (userId : jsstring) (address : ProtocolAddress)
    (record : bytes) : Async unit :=
  try_catch
    (setItemAsync (getKey userId (session_key address)) (base64_encode record))
    (fun error => console_error "Error storing session:" error;; throw error).

Definition identity_key (address : ProtocolAddress) : jsstring :=
  js "identity_" ++ addr_name address.

(** "For demo purposes, always trust new identities". *)
Definition isTrustedIdentity (userId : jsstring) (address : ProtocolAddress)
    (identityKey : PublicKey L) : Async bool :=
  mret true.

Definition saveIdentity (userId : jsstring) (address : ProtocolAddress)
    (identityKey : PublicKey L) : Async bool :=
  try_catch
    (let keyData := PublicKey_serialize L identityKey in
     setItemAsync (getKey userId (identity_key address)) (base64_encode keyData);;
     mret false)
    (fun error => console_error "Error saving identity:" error;; mret false).

Definition getIdentity (userId : jsstring) (address : ProtocolAddress)
    : Async (option (PublicKey L)) :=
  try_catch
    (data ← getItemAsync (getKey userId (identity_key address));
     match truthy data with
     | None => mret None
     | Some data =>
         k ← lift_result (PublicKey_deserialize L (base64_decode data));
         mret (Some k)
     end)
    (fun error => console_error "Error getting identity:" error;; mret None).

(** ** [class SignalProtocol] *)

Definition ensureSignalLoaded : Async unit := loadSignal.

Definition generateIdentity (userId : jsstring) : Async UserBundle :=
  try_catch
    (ensureSignalLoaded;;
     (* identity key pair *)
     seed ← draw;
     let identityKeyPair := IdentityKeyPair_generate L seed in
     saveIdentityKeyPair userId identityKeyPair;;
     (* registration id *)
     registrationId ← random_registrationId;
     saveRegistrationId userId registrationId;;
     (* signed prekey *)
     signedPreKeyId ← floor_random_times 16777216;
     seed ← draw;
     let signedPreKeyPair := IdentityKeyPair_generate L seed in
     let signedPreKeySignature :=
       PrivateKey_sign L (kp_privateKey identityKeyPair)
         (PublicKey_serialize L (kp_publicKey signedPreKeyPair)) in
     timestamp ← Date_now;
     let signedPreKeyRecord :=
       SignedPreKeyRecord_new L signedPreKeyId timestamp signedPreKeyPair
         signedPreKeySignature in
     saveSignedPreKey userId signedPreKeyId signedPreKeyRecord;;
     (* one-time prekey *)
     preKeyId ← floor_random_times 16777216;
     seed ← draw;
     let preKeyPair := IdentityKeyPair_generate L seed in
     let preKeyRecord := PreKeyRecord_new L preKeyId preKeyPair in
     savePreKey userId preKeyId preKeyRecord;;
     mret {|
       identityKey :=
         base64_encode (PublicKey_serialize L (kp_publicKey identityKeyPair));
       signedPreKey := Some {|
         spk_keyId := signedPreKeyId;
         spk_publicKey :=
           base64_encode (PublicKey_serialize L (kp_publicKey signedPreKeyPair));
         spk_signature := base64_encode signedPreKeySignature |};
       preKey := Some {|
         pk_keyId := preKeyId;
         pk_publicKey :=
           base64_encode (PublicKey_serialize L (kp_publicKey preKeyPair)) |};
       registrationId := registrationId |})
    (fun error => console_error "Error generating identity:" error;; throw error).

Definition registerPrekeys (userId : jsstring) : Async unit :=
  ensureSignalLoaded;;
  identityKeyPair ← getIdentityKeyPair userId;
  match identityKeyPair with
  | None => _ ← generateIdentity userId; mret tt
  | Some _ => mret tt
  end.

Definition createSession (userId : jsstring) (recipientBundle : UserBundle)
    : Async ProtocolAddress :=
  try_catch
    (ensureSignalLoaded;;
     let recipientAddress :=
       {| addr_name := jsnumber_toString (registrationId recipientBundle);
          addr_deviceId := 1 |} in
     identityKey ← lift_result
       (PublicKey_deserialize L (base64_decode (identityKey recipientBundle)));
     match signedPreKey recipientBundle with
     | None => throw (TypeError "Cannot read properties of null (reading 'publicKey')")
     | Some bundleSignedPreKey =>
         signedPreKey ← lift_result
           (PublicKey_deserialize L
              (base64_decode (spk_publicKey bundleSignedPreKey)));
         match preKey recipientBundle with
         | None => throw (TypeError "Cannot read properties of undefined (reading 'publicKey')")
         | Some bundlePreKey =>
             preKey ← lift_result
               (PublicKey_deserialize L
                  (base64_decode (pk_publicKey bundlePreKey)));
             let signature := base64_decode (spk_signature bundleSignedPreKey) in
             let preKeyBundle :=
               Build_PreKeyBundle
                 (registrationId recipientBundle)
                 1 (* device ID *)
                 (pk_keyId bundlePreKey)
                 preKey
                 (spk_keyId bundleSignedPreKey)
                 signedPreKey
                 signature
                 identityKey in
             processPreKeyBundle L userId recipientAddress preKeyBundle;;
             mret recipientAddress
         end
     end)
    (fun error => console_error "Error creating session:" error;; throw error).

Definition encryptMessage (userId : jsstring) (recipientAddress : ProtocolAddress)
    (plaintext : jsstring) : Async jsstring :=
  try_catch
    (ensureSignalLoaded;;
     ciphertext ← encrypt L userId recipientAddress (utf8_encode plaintext);
     mret (base64_encode (CiphertextMessage_serialize L ciphertext)))
    (fun error => console_error "Error encrypting message:" error;; throw error).

Definition decryptMessage (userId : jsstring) (senderAddress : ProtocolAddress)
    (ciphertext : jsstring) : Async jsstring :=
  try_catch
    (ensureSignalLoaded;;
     let ciphertextBuffer := base64_decode ciphertext in
     (* try as PreKeySignalMessage first, then as SignalMessage *)
     decryptedBuffer ←
       try_catch
         (preKeyMessage ← lift_result
            (PreKeySignalMessage_deserialize L ciphertextBuffer);
          decryptPreKeySignalMessage L userId senderAddress preKeyMessage)
         (fun _ =>
            signalMessage ← lift_result
              (SignalMessage_deserialize L ciphertextBuffer);
            decryptSignalMessage L userId senderAddress signalMessage);
     mret (utf8_decode decryptedBuffer))
    (fun error => console_error "Error decrypting message:" error;; throw error).

Definition getUserBundle (userId : jsstring) : Async (option UserBundle) :=
  try_catch
    (ensureSignalLoaded;;
     identityKeyPair ← getIdentityKeyPair userId;
     registrationId ← getLocalRegistrationId userId;
     match identityKeyPair with
     | None => mret None
     | Some identityKeyPair =>
         (* "Get the first available signed prekey and prekey" *)
         let signedPreKeyId := 1 in
         let preKeyId := 1 in
         signedPreKey ← getSignedPreKey userId signedPreKeyId;
         preKey ← getPreKey userId preKeyId;
         match signedPreKey, preKey with
         | Some signedPreKey, Some preKey =>
             mret (Some {|
               identityKey :=
                 base64_encode
                   (PublicKey_serialize L (kp_publicKey identityKeyPair));
               signedPreKey := Some {|
                 spk_keyId := signedPreKeyId;
                 spk_publicKey :=
                   base64_encode
                     (PublicKey_serialize L
                        (SignedPreKeyRecord_publicKey L signedPreKey));
                 spk_signature :=
                   base64_encode (SignedPreKeyRecord_signature L signedPreKey) |};
               preKey := Some {|
                 pk_keyId := preKeyId;
                 pk_publicKey :=
                   base64_encode
                     (PublicKey_serialize L (PreKeyRecord_publicKey L preKey)) |};
               registrationId := registrationId |})
         | _, _ => mret None
         end
     end)
    (fun error => console_error "Error getting user bundle:" error;; mret None).

(** [s.match(/.{1,5}/g)]: the pieces of five characters, the last one
    possibly shorter ([fuel] bounds the number of pieces). *)
Fixpoint groups_of_5 (fuel : nat) (s : jsstring) : list jsstring :=
  match fuel, s with
  | S fuel', _ :: _ => take 5 s :: groups_of_5 fuel' (drop 5 s)
  | _, _ => []
  end.

Fixpoint join_with_space (parts : list jsstring) : jsstring :=
  match parts with
  | [] => []
  | [p] => p
  | p :: rest => p ++ js " " ++ join_with_space rest
  end.

(** The formatting of the digest: its first 60 hex digits in groups. *)
Definition format_safety_number (hash : jsstring) : jsstring :=
  let prefix := take 60 hash in
  match groups_of_5 (length prefix) prefix with
  | [] => prefix
  | parts =>
      match join_with_space parts with
      | [] => prefix
      | joined => joined
      end
  end.

Definition getSafetyNumber (userId : jsstring) (otherUserBundle : UserBundle)
    : Async jsstring :=
  try_catch
    (ensureSignalLoaded;;
     identityKeyPair ← getIdentityKeyPair userId;
     match identityKeyPair with
     | None => throw (Error "No identity key pair")
     | Some identityKeyPair =>
         let ourKey := PublicKey_serialize L (kp_publicKey identityKeyPair) in
         let theirKey := base64_decode (identityKey otherUserBundle) in
         (* "Create a simple hash of both keys for safety number" *)
         let combined := ourKey ++ theirKey in
         let hash := SHA256.digest_hex combined in
         mret (format_safety_number hash)
     end)
    (fun error =>
       console_error "Error generating safety number:" error;;
       mret (js "Error generating safety number")).

(** ** [class CryptoService] *)

Record CryptoService := {
  cs_userId : jsstring;
  cs_userBundle : option UserBundle
}.

(** [parseInt(id.replace(/-/g, '').substring(0, 8), 16) % 16384 + 1] *)
Definition registrationId_of_userId (id : jsstring) : jsnumber :=
  js_add (js_rem (parseInt (substring0 8 (remove_dashes id)) 16) 16384) 1.

(** The backend client as [CryptoService] calls it:
    [from('profiles').select(...).eq('id', id).maybeSingle()], of which the
    code keeps [data], and [from('profiles').update(row).eq('id', id)],
    whose result the code discards. *)
Record SupabaseClient := {
  select_profile : jsstring -> Async (option Profile);
  update_profile : jsstring -> Profile -> Async unit
}.

(** The identifier [supabase] inside [services/CryptoService.ts].  The file
    imports [SignalProtocol] and [UserBundle] from [@/lib/signal] and
    nothing else, and declares no [supabase] of its own: the identifier is
    unbound, and evaluating it throws. *)
Definition CryptoService_supabase : Async SupabaseClient :=
  throw (ReferenceError "supabase is not defined").

Definition savePublicBundle (this : CryptoService) : Async unit :=
  match cs_userBundle this with
  | None => mret tt
  | Some userBundle =>
      try_catch
        (supabase ← CryptoService_supabase;
         match signedPreKey userBundle with
         | None => throw (TypeError "Cannot read properties of null (reading 'keyId')")
         | Some spk =>
             update_profile supabase (cs_userId this)
               {| identity_key_public := Some (identityKey userBundle);
                  signed_prekey := Some spk;
                  one_time_prekeys := Some [preKey userBundle] |}
         end)
        (fun error => console_error "Error saving public bundle:" error;; throw error)
  end.

Definition CryptoService_initialize (this : CryptoService) : Async CryptoService :=
  try_catch
    ((* "Try to get existing bundle" *)
     existing ← getUserBundle (cs_userId this);
     userBundle ←
       match existing with
       | Some b => mret b
       | None =>
           (* "Generate new identity and keys" *)
           b ← generateIdentity (cs_userId this);
           registerPrekeys (cs_userId this);;
           mret b
       end;
     let this' := {| cs_userId := cs_userId this;
                     cs_userBundle := Some userBundle |} in
     savePublicBundle this';;
     mret this')
    (fun error => console_error "Error initializing crypto:" error;; throw error).

(** The bundle [encryptMessage] and [getSafetyNumber] assemble from a
    profile row whose identity key is [identity_key]. *)
Definition bundle_of_profile (id : jsstring) (identity_key : jsstring)
    (profile : Profile) : UserBundle :=
  {| identityKey := identity_key;
     signedPreKey := signed_prekey profile;
     preKey :=
       Some (match one_time_prekeys profile with
             | Some (Some first :: _) => first
             | _ => {| pk_keyId := 1; pk_publicKey := identity_key (* Fallback *) |}
             end);
     registrationId := registrationId_of_userId id |}.

Definition CryptoService_encryptMessage (this : CryptoService)
    (recipientId message : jsstring) : Async jsstring :=
  try_catch
    (supabase ← CryptoService_supabase;
     recipientProfile ← select_profile supabase recipientId;
     match recipientProfile with
     | None => throw (Error "Recipient public key not found")
     | Some recipientProfile =>
         match truthy (identity_key_public recipientProfile) with
         | None => throw (Error "Recipient public key not found")
         | Some identity_key =>
             let recipientBundle :=
               bundle_of_profile recipientId identity_key recipientProfile in
             recipientAddress ← createSession (cs_userId this) recipientBundle;
             encryptMessage (cs_userId this) recipientAddress message
         end
     end)
    (fun error => console_error "Encryption error:" error;; throw error).

(** [/^[A-Za-z0-9+/=]+$/] *)
Definition base64_class (c : N) : bool :=
  ((65 <=? c) && (c <=? 90) || (97 <=? c) && (c <=? 122)
   || (48 <=? c) && (c <=? 57) || (c =? 43) || (c =? 47) || (c =? 61))%N.

Definition base64Regex_test (str : jsstring) : bool :=
  match str with
  | [] => false
  | _ => forallb base64_class str
  end.

Definition looksEncrypted (str : jsstring) : bool :=
  if (length str <? 10)%nat then false
  else base64Regex_test str && (length str mod 4 =? 0)%nat.

Definition CryptoService_decryptMessage (this : CryptoService)
    (encryptedMessage senderId : jsstring) : Async jsstring :=
  try_catch
    (match encryptedMessage with
     | [] => mret (js "[Empty message]")
     | _ =>
         if negb (looksEncrypted encryptedMessage) then mret encryptedMessage
         else
           let senderRegistrationId := registrationId_of_userId senderId in
           loadSignal;;
           let senderAddress :=
             {| addr_name := jsnumber_toString senderRegistrationId;
                addr_deviceId := 1 |} in
           decryptMessage (cs_userId this) senderAddress encryptedMessage
     end)
    (fun error =>
       console_error "Decryption error:" error;;
       (* "If decryption fails, return the original message as fallback" *)
       mret encryptedMessage).

Definition CryptoService_getSafetyNumber (this : CryptoService)
    (otherUserId : jsstring) : Async jsstring :=
  try_catch
    (supabase ← CryptoService_supabase;
     otherProfile ← select_profile supabase otherUserId;
     match otherProfile with
     | None => throw (Error "Other user public key not found")
     | Some otherProfile =>
         match truthy (identity_key_public otherProfile) with
         | None => throw (Error "Other user public key not found")
         | Some identity_key =>
             getSafetyNumber (cs_userId this)
               (bundle_of_profile otherUserId identity_key otherProfile)
         end
     end)
    (fun error =>
       console_error "Error getting safety number:" error;;
       mret (js "Error generating safety number")).

(** ** The chat thread screen: [sendMessage]

    The screen imports [supabase] from [@/services/supabase]; its inserts
    go to the hosted backend, whose [messages] table is declared in the
    migrations. *)

Record MessageItem := {
  item_row : Message;
  decryptedText : option jsstring;
  isOutgoing : bool
}.

Record ChatState := {
  inputText : jsstring;
  sending : bool;
  error : option jsstring;
  chat_messages : list MessageItem;
  user : option jsstring;            (* user.id *)
  recipientId : jsstring;            (* "" when the route has none *)
  cryptoServiceRef : option CryptoService;
  defaultExpireDuration : Z;
  timers : list (N * Z)              (* setTimeout(delete id, ms) *)
}.

Definition with_input (s : ChatState) (text : jsstring) (busy : bool)
    (err : option jsstring) : ChatState :=
  {| inputText := text; sending := busy; error := err;
     chat_messages := chat_messages s; user := user s;
     recipientId := recipientId s; cryptoServiceRef := cryptoServiceRef s;
     defaultExpireDuration := defaultExpireDuration s; timers := timers s |}.

Definition with_sent (s : ChatState) (item : MessageItem)
    (timer : list (N * Z)) : ChatState :=
  {| inputText := inputText s; sending := sending s; error := error s;
     chat_messages := chat_messages s ++ [item]; user := user s;
     recipientId := recipientId s; cryptoServiceRef := cryptoServiceRef s;
     defaultExpireDuration := defaultExpireDuration s;
     timers := timers s ++ timer |}.

(** The error object of the client for a row the schema refuses: it
    carries the message of the database and has no [name]. *)
Definition quoted (s : string) : jsstring := [34%N] ++ js s ++ [34%N].

Definition check_violation (constraint : string) : exn :=
  Exn [] (js "new row for relation " ++ quoted "messages"
            ++ js " violates check constraint " ++ quoted constraint).

Definition foreign_key_violation (constraint : string) : exn :=
  Exn [] (js "insert or update on table " ++ quoted "messages"
            ++ js " violates foreign key constraint " ++ quoted constraint).

(** [CHECK (expire_duration IS NULL OR
           (expire_duration >= 5 AND expire_duration <= 604800))] *)
Definition valid_expire_duration (d : option Z) : bool :=
  match d with
  | None => true
  | Some d => (5 <=? d) && (d <=? 604800)
  end.

(** [supabase.from('messages').insert(row).select().single()] followed by
    [if (insertError) throw insertError].  The row is stored when the
    schema admits it: the check on [expire_duration], and the references of
    [sender_id] and of [recipient_id] to [profiles(id)].  Ids are the
    texts of the UUIDs of the backend, as [user.id] and the list of
    profiles give them; [profiles] is keyed by them. *)
Definition insert_message (sender recipient text type : jsstring)
    (expiry : option (Z * Z)) : Async Message :=
  fun w =>
    match insert_error w with
    | Some e => (Throw e, w)
    | None =>
        if negb (valid_expire_duration (snd <$> expiry))
        then (Throw (check_violation "valid_expire_duration"), w)
        else
          match profiles w !! sender, profiles w !! recipient with
          | None, _ =>
              (Throw (foreign_key_violation "messages_sender_id_fkey"), w)
          | Some _, None =>
              (Throw (foreign_key_violation "messages_recipient_id_fkey"), w)
          | Some _, Some _ =>
              let row := {| msg_id := N.of_nat (S (length (messages w)));
                            sender_id := sender; recipient_id := recipient;
                            ciphertext := text; message_type := type;
                            expires_at := fst <$> expiry;
                            expire_duration := snd <$> expiry |} in
              (Ok row, set_messages (fun ms => ms ++ [row]) w)
          end
    end.

(** The literal of the source holds the three characters U+00E2, U+2020,
    U+2019 between [Settings] and [Initialize]. *)
Definition needs_setup_text : jsstring :=
  js "Recipient needs to set up Signal protocol. Ask them to open the app and go to Settings "
    ++ [226; 8224; 8217]%N ++ js " Initialize Signal Protocol.".

(** [const expiresAt = new Date();
     expiresAt.setSeconds(expiresAt.getSeconds() + n);
     expiresAt.toISOString()]
    [setSeconds] works on local time: the instant is moved to local time,
    the seconds are added there, and the result is read back as UTC with
    the offset that holds at that local time.  A result beyond the range
    of [Date] is an invalid date, on which [toISOString] throws a
    [RangeError] (the wording of its message is the engine's). *)
Definition expiry_instant (t : N) (n : Z) : Async Z :=
  fun w =>
    let local := Z.of_N t + zone w (Z.of_N t) true in
    let moved := local + 1000 * n in
    let utc := moved - zone w moved false in
    if Z.abs utc <=? 8640000000000000 then (Ok utc, w)
    else (Throw (RangeError "Invalid time value"), w).

Definition sendMessage (s : ChatState) : World -> ChatState * World :=
  fun w =>
    let messageText := trim (inputText s) in
    let recipient := recipientId s in
    match messageText, user s, recipient, sending s with
    | _ :: _, Some userId, _ :: _, false =>
        let s1 := with_input s [] true None in
        let body : Async ChatState :=
          try_catch
            (encryptedMessage ←
               match cryptoServiceRef s with
               | Some cryptoService =>
                   try_catch
                     (CryptoService_encryptMessage cryptoService recipient
                        messageText)
                     (fun encryptError =>
                        console_log LogInfo "Encryption failed, sending plain:"
                          (Some encryptError);;
                        mret messageText)
               | None => mret messageText
               end;
             (* disappearing message settings, if enabled *)
             expiry ←
               (if 0 <? defaultExpireDuration s
                then
                  t ← Date_now;
                  expiresAt ← expiry_instant t (defaultExpireDuration s);
                  mret (Some (expiresAt, defaultExpireDuration s))
                else mret None);
             data ← insert_message userId recipient encryptedMessage
                      (js "whisper") expiry;
             console_log LogInfo "Message sent successfully" None;;
             let item := {| item_row := data;
                            decryptedText := Some messageText;
                            isOutgoing := true |} in
             (* auto-delete after expiration *)
             let timer :=
               if (0 <? defaultExpireDuration s)
                  && negb (msg_id data =? 0)%N
               then [(msg_id data, defaultExpireDuration s * 1000)]
               else [] in
             mret (with_sent s1 item timer))
            (fun error =>
               console_error "Error sending message:" error;;
               let errorMsg :=
                 match exn_message error with
                 | [] => js "Failed to send message"
                 | m => m
                 end in
               let shown :=
                 if includes errorMsg (js "encryption keys")
                 then needs_setup_text
                 else errorMsg in
               mret (with_input s1 messageText true (Some shown))) in
        match body w with
        | (Ok s2, w') => (with_input s2 (inputText s2) false (error s2), w')
        | (Throw _, w') => (with_input s1 (inputText s1) false (error s1), w')
        end
    | _, _, _, _ => (s, w)
    end.

End Model.

(** ** The chat thread screen: [initializeCrypto] and [formatDuration] *)

Section ChatScreen.

Variable L : SignalLib.

Definition with_cryptoService (s : ChatState) (service : CryptoService)
    : ChatState :=
  {| inputText := inputText s; sending := sending s; error := error s;
     chat_messages := chat_messages s; user := user s;
     recipientId := recipientId s; cryptoServiceRef := Some service;
     defaultExpireDuration := defaultExpireDuration s; timers := timers s |}.

(** [new CryptoService(user.id)], [initialize()], and the assignment to
    [cryptoServiceRef.current]; a failure is logged and goes no further. *)
Definition initializeCrypto (s : ChatState) : World -> ChatState * World :=
  fun w =>
    let body : Async ChatState :=
      try_catch
        (match user s with
         | None => mret s
         | Some userId =>
             let cryptoService :=
               {| cs_userId := userId; cs_userBundle := None |} in
             cryptoService ← CryptoService_initialize L cryptoService;
             mret (with_cryptoService s cryptoService)
         end)
        (fun error =>
           console_error "Crypto initialization error:" error;; mret s) in
    match body w with
    | (Ok s', w') => (s', w')
    | (Throw _, w') => (s, w')
    end.

End ChatScreen.

(** [a < b], and [Math.floor(a / b)] for a positive [b]. *)
Definition js_lt (a : jsnumber) (b : Z) : bool :=
  match a with
  | JNum z => z <? b
  | JNaN => false
  end.

Definition js_floor_div (a : jsnumber) (b : Z) : jsnumber :=
  match a with
  | JNum z => JNum (z / b)
  | JNaN => JNaN
  end.

Definition formatDuration (seconds : jsnumber) : jsstring :=
  if js_lt seconds 60 then jsnumber_toString seconds ++ js "s"
  else if js_lt seconds 3600 then
    jsnumber_toString (js_floor_div seconds 60) ++ js "m"
  else if js_lt seconds 86400 then
    jsnumber_toString (js_floor_div seconds 3600) ++ js "h"
  else jsnumber_toString (js_floor_div seconds 86400) ++ js "d".

(** ** A transparent instance of the library interface

    [Demo.lib] implements [SignalLib] with no cryptographic strength: keys
    are their own seeds, a signature is a fixed function of key and
    message, and a ciphertext carries its plaintext behind a kind byte and
    a counter.  It keeps what the protocol states: the signed pre-key is
    checked on establishment, sessions live in the store of the wrapper
    (through [loadSession] and [storeSession]), and a counter is accepted
    only once.  It serves to run the wrapper on concrete inputs. *)

Module Demo.

Definition InvalidSignedPreKeySignature : exn :=
  Exn (js "InvalidSignedPreKeySignature") (js "invalid signature").
Definition NoSession : exn := Exn (js "NoSession") (js "no session").
Definition DuplicateMessage : exn :=
  Exn (js "DuplicateMessage") (js "message already decrypted").
Definition InvalidMessage : exn :=
  Exn (js "InvalidMessage") (js "unrecognised message").
Definition InvalidKey : exn := Exn (js "InvalidKey") (js "bad key").

Definition generate (seed : N) : IdentityKeyPair bytes bytes :=
  let k := [byte_of_N seed; byte_of_N (seed / 256)] in
  {| kp_publicKey := "005"%byte :: k; kp_privateKey := k |}.

Definition deserialize_public (bs : bytes) : result bytes :=
  match bs with
  | t :: _ :: _ => if bool_decide (t = "005"%byte) then Ok bs else Throw InvalidKey
  | _ => Throw InvalidKey
  end.

Definition sign (priv msg : bytes) : bytes := rev msg ++ priv.

Definition verify (pub msg sig : bytes) : bool :=
  bool_decide (sig = sign (tail pub) msg).

(** A signed pre-key record: public key and signature. *)
Definition serialize_signed (r : bytes * bytes) : bytes :=
  byte_of_N (N.of_nat (length (fst r))) :: fst r ++ snd r.

Definition deserialize_signed (bs : bytes) : result (bytes * bytes) :=
  match bs with
  | n :: rest =>
      let k := N.to_nat (Byte.to_N n) in
      Ok (take k rest, drop k rest)
  | [] => Throw InvalidKey
  end.

(** A message: its kind (3 for a pre-key message, 2 for a normal one),
    its counter and its body. *)
Definition serialize_message (m : bool * byte * bytes) : bytes :=
  let '(prekey, n, body) := m in
  (if prekey then "003"%byte else "002"%byte) :: n :: body.

Definition deserialize_as (kind : byte) (bs : bytes) : result (byte * bytes) :=
  match bs with
  | k :: n :: body =>
      if bool_decide (k = kind) then Ok (n, body) else Throw InvalidMessage
  | _ => Throw InvalidMessage
  end.

(** A session record: messages sent, and the next counter to accept. *)
Definition process (userId : jsstring) (address : ProtocolAddress)
    (bundle : PreKeyBundle bytes) : Async unit :=
  if verify (pkb_identityKey bundle) (pkb_signedPreKey bundle)
            (pkb_signature bundle)
  then storeSession userId address ["000"; "000"]%byte
  else throw InvalidSignedPreKeySignature.

Definition encrypt_next (userId : jsstring) (address : ProtocolAddress)
    (plaintext : bytes) : Async (bool * byte * bytes) :=
  session ← loadSession userId address;
  match session with
  | Some [sent; next] =>
      if (Byte.to_N sent <? 255)%N then
        storeSession userId address [byte_of_N (Byte.to_N sent + 1); next];;
        mret (true, sent, plaintext)
      else throw NoSession
  | _ => throw NoSession
  end.

Definition accept (userId : jsstring) (address : ProtocolAddress)
    (sent next : byte) (m : byte * bytes) : Async bytes :=
  let '(n, body) := m in
  if (Byte.to_N n <? Byte.to_N next)%N || (Byte.to_N n =? 255)%N
  then throw DuplicateMessage
  else
    storeSession userId address [sent; byte_of_N (Byte.to_N n + 1)];;
    mret body.

Definition decrypt_prekey (userId : jsstring) (address : ProtocolAddress)
    (m : byte * bytes) : Async bytes :=
  session ← loadSession userId address;
  match session with
  | Some [sent; next] => accept userId address sent next m
  | _ => accept userId address "000"%byte "000"%byte m
  end.

Definition decrypt_normal (userId : jsstring) (address : ProtocolAddress)
    (m : byte * bytes) : Async bytes :=
  session ← loadSession userId address;
  match session with
  | Some [sent; next] => accept userId address sent next m
  | _ => throw NoSession
  end.

Definition lib : SignalLib := {|
  load_error := None;
  PublicKey := bytes;
  PrivateKey := bytes;
  SignedPreKeyRecord := bytes * bytes;
  PreKeyRecord := bytes;
  CiphertextMessage := bool * byte * bytes;
  PreKeySignalMessage := byte * bytes;
  SignalMessage := byte * bytes;
  PublicKey_deserialize := deserialize_public;
  PublicKey_serialize := id;
  PrivateKey_deserialize := Ok;
  PrivateKey_serialize := id;
  PrivateKey_sign := sign;
  IdentityKeyPair_generate := generate;
  SignedPreKeyRecord_new := fun _ _ kp sig => (kp_publicKey kp, sig);
  SignedPreKeyRecord_serialize := serialize_signed;
  SignedPreKeyRecord_deserialize := deserialize_signed;
  SignedPreKeyRecord_publicKey := fst;
  SignedPreKeyRecord_signature := snd;
  PreKeyRecord_new := fun _ kp => kp_publicKey kp;
  PreKeyRecord_serialize := id;
  PreKeyRecord_deserialize := Ok;
  PreKeyRecord_publicKey := id;
  CiphertextMessage_serialize := serialize_message;
  PreKeySignalMessage_deserialize := deserialize_as "003"%byte;
  SignalMessage_deserialize := deserialize_as "002"%byte;
  processPreKeyBundle := process;
  encrypt := encrypt_next;
  decryptPreKeySignalMessage := decrypt_prekey;
  decryptSignalMessage := decrypt_normal
|}.

(** A fresh device: empty key store, empty backend. *)
Definition fresh (seed : nat -> N) (time : N) : World :=
  {| secure := ∅; console := []; entropy := seed; drawn := 0; now := time;
     zone := fun _ _ => 0;
     profiles := ∅; messages := []; insert_error := None |}.

End Demo.

(** ** Vocabulary of the statements

    Definitions that the statements below use to name parts of a run;
    none of them is part of the program. *)

(** The address [CryptoService.decryptMessage] derives for a sender. *)
Definition sender_address (senderId : jsstring) : ProtocolAddress :=
  {| addr_name := jsnumber_toString (registrationId_of_userId senderId);
     addr_deviceId := 1 |}.

(** What [decryptMessage] asks of the library for an envelope: the
    decoded buffer is tried as a pre-key message and, when that throws,
    as a normal message. *)
Definition library_decrypt (L : SignalLib) (userId : jsstring)
    (senderAddress : ProtocolAddress) (envelope : jsstring) : Async bytes :=
  try_catch
    (preKeyMessage ← lift_result
       (PreKeySignalMessage_deserialize L (base64_decode envelope));
     decryptPreKeySignalMessage L userId senderAddress preKeyMessage)
    (fun _ =>
       signalMessage ← lift_result
         (SignalMessage_deserialize L (base64_decode envelope));
       decryptSignalMessage L userId senderAddress signalMessage).

(** The address [createSession] derives from a bundle. *)
Definition recipient_address (bundle : UserBundle) : ProtocolAddress :=
  {| addr_name := jsnumber_toString (registrationId bundle);
     addr_deviceId := 1 |}.

Definition logged (label : string) (e : exn) (w : World) : World :=
  set_console (fun c => c ++ [Log LogError (js label) (Some e)]) w.

(** The instant [n] seconds of local time after the clock of [w], as
    [expiry_instant] computes it. *)
Definition local_seconds_later (w : World) (n : Z) : Z :=
  let local := Z.of_N (now w) + zone w (Z.of_N (now w)) true in
  local + 1000 * n - zone w (local + 1000 * n) false.

(** The row [sendMessage] inserts for [text]. *)
Definition sent_row (s : ChatState) (userId text : jsstring) (w : World) : Message :=
  {| msg_id := N.of_nat (S (length (messages w)));
     sender_id := userId; recipient_id := recipientId s;
     ciphertext := text; message_type := js "whisper";
     expires_at :=
       if 0 <? defaultExpireDuration s
       then Some (local_seconds_later w (defaultExpireDuration s)) else None;
     expire_duration :=
       if 0 <? defaultExpireDuration s
       then Some (defaultExpireDuration s) else None |}.

(** What a read of the store can do to the world: it may log and draw
    random numbers, but the stored items stay as they are. *)
Definition reads_only {A} (m : Async A) : Prop :=
  forall w, exists r w', m w = (Ok r, w') /\ secure w' = secure w.

Definition with_signature (bundle : UserBundle) (signature : jsstring)
    : UserBundle :=
  {| identityKey := identityKey bundle;
     signedPreKey :=
       (fun spk => {| spk_keyId := spk_keyId spk;
                      spk_publicKey := spk_publicKey spk;
                      spk_signature := signature |}) <$> signedPreKey bundle;
     preKey := preKey bundle;
     registrationId := registrationId bundle |}.

(** A Unicode scalar value: a code point that is not a surrogate. *)
Definition is_scalar (cp : N) : Prop :=
  (cp < 55296 \/ (57344 <= cp /\ cp < 1114112))%N.

(** No unpaired surrogate, and every element is a code unit. *)
Fixpoint well_formed_utf16 (s : jsstring) : bool :=
  match s with
  | [] => true
  | c :: rest =>
      if is_high_surrogate c then
        match rest with
        | d :: rest' => is_low_surrogate d && well_formed_utf16 rest'
        | [] => false
        end
      else negb (is_low_surrogate c) && (c <? 65536)%N && well_formed_utf16 rest
  end.

(** *** Concrete devices and inputs *)

(** A device on which Bob has generated his identity; the draws make
    14336 the signed pre-key id and 18432 the one-time pre-key id. *)
Definition bob_fresh : World :=
  Demo.fresh (fun n => 2 ^ 40 * (5 + N.of_nat n) + 3 * N.of_nat n + 1)%N
    1700000000000.

Definition bob_device : World :=
  snd (generateIdentity Demo.lib (js "0b0b0b0b-1111-4111-8111-11111111111b") bob_fresh).

Definition bob_bundle : UserBundle :=
  {| identityKey := js "BQEA";
     signedPreKey := Some {| spk_keyId := 14336;
                             spk_publicKey := js "BQoA";
                             spk_signature := js "AAoFAQA=" |};
     preKey := Some {| pk_keyId := 18432; pk_publicKey := js "BRAA" |};
     registrationId := JNum 13 |}.

(** A backend in which [userId] has a profile row with no keys yet. *)
Definition with_profile_row (userId : jsstring) (w : World) : World :=
  {| secure := secure w; console := console w; entropy := entropy w;
     drawn := drawn w; now := now w; zone := zone w;
     profiles :=
       <[userId := {| identity_key_public := None; signed_prekey := None;
                      one_time_prekeys := Some [] |}]> (profiles w);
     messages := messages w; insert_error := insert_error w |}.

(** The offset of a zone that is an hour ahead of UTC until the instant
    [switch] and on UTC from then on.  A local time that occurs twice is
    read with the offset before the switch. *)
Definition summer_time_until (switch : Z) (t : Z) (isUTC : bool) : Z :=
  if isUTC then (if t <? switch then 3600000 else 0)
  else (if t <? switch + 3600000 then 3600000 else 0).

Definition with_zone (offset : Z -> bool -> Z) (w : World) : World :=
  {| secure := secure w; console := console w; entropy := entropy w;
     drawn := drawn w; now := now w; zone := offset;
     profiles := profiles w; messages := messages w;
     insert_error := insert_error w |}.

(** Alice's device, in UTC, and a backend on which she and Bob are
    registered. *)
Definition alice_fresh : World :=
  with_profile_row (js "a1b2c3d4-0000-4000-8000-00000000000a")
    (with_profile_row (js "0b0b0b0b-1111-4111-8111-11111111111b")
       (Demo.fresh (fun n => 2 ^ 41 * (3 + N.of_nat n) + 5 * N.of_nat n + 2)%N
          1700000000000)).

(** Her chat with Bob as the screen creates it, and once the screen has
    run [initializeCrypto]. *)
Definition alice_screen : ChatState :=
  {| inputText := []; sending := false; error := None;
     chat_messages := []; user := Some (js "a1b2c3d4-0000-4000-8000-00000000000a");
     recipientId := js "0b0b0b0b-1111-4111-8111-11111111111b";
     cryptoServiceRef := None;
     defaultExpireDuration := 0; timers := [] |}.

Definition alice_opened : ChatState * World :=
  initializeCrypto Demo.lib alice_screen alice_fresh.

Definition alice_device : World := snd alice_opened.

(** The chat with [text] typed in. *)
Definition alice_chat (text : jsstring) : ChatState :=
  with_input (fst alice_opened) text false None.

(** [new CryptoService(user.id)] for Alice. *)
Definition alice_service : CryptoService :=
  {| cs_userId := js "a1b2c3d4-0000-4000-8000-00000000000a";
     cs_userBundle := None |}.

(** What evaluating the unbound [supabase] throws. *)
Definition unbound_supabase : exn :=
  ReferenceError "supabase is not defined".

(** Bob's crypto service. *)
Definition bob_service : CryptoService :=
  {| cs_userId := js "0b0b0b0b-1111-4111-8111-11111111111b";
     cs_userBundle := Some bob_bundle |}.

(** Two devices that hold the identities [A] and [B]. *)
Definition key_A : bytes := "005"%byte :: repeat "001"%byte 32.
Definition key_B : bytes := "005"%byte :: repeat "002"%byte 32.

Definition device_of (userId : jsstring) (public : bytes) : World :=
  snd (saveIdentityKeyPair Demo.lib userId
         {| kp_publicKey := public; kp_privateKey := tail public |}
         (Demo.fresh (fun _ => 0%N) 0)).

Definition bundle_with_identity (public : bytes) : UserBundle :=
  {| identityKey := base64_encode public; signedPreKey := None;
     preKey := None; registrationId := JNum 1 |}.

(** What Alice's device produces for "hello" after establishing a session
    from Bob's bundle. *)
Definition hello_envelope : jsstring := js "AwBoZWxsbw==".

(** A computation that leaves the backend tables as they are, whatever
    its outcome. *)
Definition keeps_backend {A} (m : Async A) : Prop :=
  forall w,
    profiles (snd (m w)) = profiles w /\ messages (snd (m w)) = messages w.

(** [L] when importing the package throws [e]. *)
Definition unavailable (e : exn) (L : SignalLib) : SignalLib := {|
  load_error := Some e;
  PublicKey := PublicKey L;
  PrivateKey := PrivateKey L;
  SignedPreKeyRecord := SignedPreKeyRecord L;
  PreKeyRecord := PreKeyRecord L;
  CiphertextMessage := CiphertextMessage L;
  PreKeySignalMessage := PreKeySignalMessage L;
  SignalMessage := SignalMessage L;
  PublicKey_deserialize := PublicKey_deserialize L;
  PublicKey_serialize := PublicKey_serialize L;
  PrivateKey_deserialize := PrivateKey_deserialize L;
  PrivateKey_serialize := PrivateKey_serialize L;
  PrivateKey_sign := PrivateKey_sign L;
  IdentityKeyPair_generate := IdentityKeyPair_generate L;
  SignedPreKeyRecord_new := SignedPreKeyRecord_new L;
  SignedPreKeyRecord_serialize := SignedPreKeyRecord_serialize L;
  SignedPreKeyRecord_deserialize := SignedPreKeyRecord_deserialize L;
  SignedPreKeyRecord_publicKey := SignedPreKeyRecord_publicKey L;
  SignedPreKeyRecord_signature := SignedPreKeyRecord_signature L;
  PreKeyRecord_new := PreKeyRecord_new L;
  PreKeyRecord_serialize := PreKeyRecord_serialize L;
  PreKeyRecord_deserialize := PreKeyRecord_deserialize L;
  PreKeyRecord_publicKey := PreKeyRecord_publicKey L;
  CiphertextMessage_serialize := CiphertextMessage_serialize L;
  PreKeySignalMessage_deserialize := PreKeySignalMessage_deserialize L;
  SignalMessage_deserialize := SignalMessage_deserialize L;
  processPreKeyBundle := processPreKeyBundle L;
  encrypt := encrypt L;
  decryptPreKeySignalMessage := decryptPreKeySignalMessage L;
  decryptSignalMessage := decryptSignalMessage L
|}.

(** * Properties *)

(** ** The codecs and the digest on known values *)

Example base64_encode_Man : base64_encode ["M"; "a"; "n"]%byte = js "TWFu".
Proof. reflexivity. Qed.
Example base64_encode_Ma : base64_encode ["M"; "a"]%byte = js "TWE=".
Proof. reflexivity. Qed.
Example base64_decode_Ma : base64_decode (js "TWE=") = ["M"; "a"]%byte.
Proof. reflexivity. Qed.

(** The decoder is lenient: the four unused bits of a final two-character
    group do not matter, and nothing after the first ['='] is read. *)
Example base64_decode_unused_bits :
  base64_decode (js "QQ==") = base64_decode (js "QR==")
  /\ base64_decode (js "QQ==") = base64_decode (js "QQ=x").
Proof. split; reflexivity. Qed.

Example utf8_encode_euro : utf8_encode [8364%N] = ["226"; "130"; "172"]%byte.
Proof. reflexivity. Qed.
Example utf8_decode_euro : utf8_decode ["226"; "130"; "172"]%byte = [8364%N].
Proof. reflexivity. Qed.
Example utf8_encode_emoji :
  utf8_decode (utf8_encode [55357; 56832]%N) = [55357; 56832]%N.
Proof. reflexivity. Qed.
Example utf8_lone_surrogate :
  utf8_decode (utf8_encode [55357]%N) = [65533%N].
Proof. reflexivity. Qed.

Example sha256_abc :
  SHA256.digest_hex ["a"; "b"; "c"]%byte
  = js "ba7816bf8f01cfea414140de5dae2223b00361a396177a9cb410ff61f20015ad".
Proof. vm_compute. reflexivity. Qed.

Example sha256_two_blocks :
  SHA256.digest_hex (repeat "a"%byte 70)
  = js "6bd5e5034855a11241f0dee8fc72850ffd9955b28347a86428b5fa19119f6ad0".
Proof. vm_compute. reflexivity. Qed.

(** Unfolds the plumbing of [Async] so that a run can be followed by
    case analysis on the results of its steps. *)
Ltac async_unfold :=
  unfold try_catch, mbind, Async_bind, mret, Async_ret, throw, lift_result,
    console_error, console_warn, console_log in *.

(** ** base64 round trip *)

Section Base64.

Local Open Scope N_scope.

Lemma list_ind3 {A} (P : list A -> Prop) :
  P [] -> (forall a, P [a]) -> (forall a b, P [a; b]) ->
  (forall a b c l, P l -> P (a :: b :: c :: l)) ->
  forall l, P l.
Proof.
  intros H0 H1 H2 H3 l.
  assert (H : P l /\ (forall a, P (a :: l)) /\ (forall a b, P (a :: b :: l))).
  { induction l as [|x l (IH0 & IH1 & IH2)]; [auto|].
    split; [apply IH1|]. split; [intros a; apply IH2|].
    intros a b. apply H3, IH0. }
  apply H.
Qed.

Lemma byte_of_to_N (b : byte) : byte_of_N (Byte.to_N b) = b.
Proof.
  unfold byte_of_N. pose proof (Byte.to_N_bounded b) as Hb.
  rewrite N.mod_small by lia. now rewrite Byte.of_to_N.
Qed.

Lemma to_N_byte_of_N (n : N) : n < 256 -> Byte.to_N (byte_of_N n) = n.
Proof.
  intros Hn. unfold byte_of_N. rewrite N.mod_small by lia.
  destruct (Byte.of_N n) as [b|] eqn:Hof.
  - simpl. now apply Byte.to_of_N.
  - apply Byte.of_N_None_iff in Hof. lia.
Qed.

Lemma b64_char_not_padding (v : N) : b64_char v <> 61.
Proof.
  unfold b64_char.
  repeat match goal with
         | |- context [if ?b then _ else _] => destruct b eqn:?
         end;
  repeat match goal with
         | H : (_ <? _) = true |- _ => apply N.ltb_lt in H
         | H : (_ <? _) = false |- _ => apply N.ltb_ge in H
         end; lia.
Qed.

Lemma unbase64_b64_char (v : N) : v < 64 -> unbase64 (b64_char v) = Some v.
Proof.
  intros Hv. unfold b64_char.
  destruct (N.ltb_spec v 26); [|destruct (N.ltb_spec v 52);
    [|destruct (N.ltb_spec v 62); [|destruct (N.eqb_spec v 62)]]].
  - unfold unbase64.
    replace (65 <=? 65 + v) with true by (symmetry; apply N.leb_le; lia).
    replace (65 + v <=? 90) with true by (symmetry; apply N.leb_le; lia).
    simpl. f_equal. lia.
  - unfold unbase64.
    replace (65 <=? 97 + (v - 26)) with true by (symmetry; apply N.leb_le; lia).
    replace (97 + (v - 26) <=? 90) with false by (symmetry; apply N.leb_gt; lia).
    replace (97 <=? 97 + (v - 26)) with true by (symmetry; apply N.leb_le; lia).
    replace (97 + (v - 26) <=? 122) with true by (symmetry; apply N.leb_le; lia).
    simpl. f_equal. lia.
  - unfold unbase64.
    replace (48 + (v - 52) <=? 90) with true by (symmetry; apply N.leb_le; lia).
    replace (65 <=? 48 + (v - 52)) with false by (symmetry; apply N.leb_gt; lia).
    replace (97 <=? 48 + (v - 52)) with false by (symmetry; apply N.leb_gt; lia).
    replace (48 <=? 48 + (v - 52)) with true by (symmetry; apply N.leb_le; lia).
    replace (48 + (v - 52) <=? 57) with true by (symmetry; apply N.leb_le; lia).
    simpl. f_equal. lia.
  - subst v. reflexivity.
  - assert (v = 63) by lia. subst v. reflexivity.
Qed.

Lemma until_padding_encoded (vs : list N) (n : nat) :
  until_padding (map b64_char vs ++ b64_padding n) = map b64_char vs.
Proof.
  induction vs as [|v vs IH]; simpl.
  - unfold b64_padding. destruct (n mod 3)%nat as [|[|[|k]]]; reflexivity.
  - destruct (N.eqb_spec (b64_char v) 61) as [Heq|_].
    + now apply b64_char_not_padding in Heq.
    + now rewrite IH.
Qed.

Lemma omap_unbase64_encoded (vs : list N) :
  Forall (fun v => v < 64) vs -> omap unbase64 (map b64_char vs) = vs.
Proof.
  induction 1 as [|v vs Hv _ IH]; simpl; [reflexivity|].
  rewrite unbase64_b64_char by assumption. f_equal. exact IH.
Qed.

Ltac byte_bounds :=
  repeat match goal with
         | b : byte |- _ =>
             lazymatch goal with
             | H : Byte.to_N b <= 255 |- _ => fail
             | _ => pose proof (Byte.to_N_bounded b)
             end
         end.

Ltac nlia :=
  zify; Z.quot_rem_to_equations; Z.to_euclidean_division_equations; lia.

Lemma sextets_bounded (bs : bytes) :
  Forall (fun v => v < 64) (sextets_of_bytes bs).
Proof.
  induction bs as [|a|a b|a b c l IH] using list_ind3; simpl;
    byte_bounds; repeat constructor; try assumption;
    nlia.
Qed.

Lemma byte_of_N_eq (b : byte) (n : N) : n = Byte.to_N b -> byte_of_N n = b.
Proof. intros ->. apply byte_of_to_N. Qed.

Lemma bytes_of_sextets_of_bytes (bs : bytes) :
  bytes_of_sextets (sextets_of_bytes bs) = bs.
Proof.
  induction bs as [|a|a b|a b c l IH] using list_ind3.
  - reflexivity.
  - cbn [sextets_of_bytes bytes_of_sextets]. byte_bounds.
    f_equal. apply byte_of_N_eq. nlia.
  - cbn [sextets_of_bytes bytes_of_sextets]. byte_bounds.
    f_equal; [|f_equal]; apply byte_of_N_eq; nlia.
  - cbn [sextets_of_bytes bytes_of_sextets]. byte_bounds.
    rewrite IH. f_equal; [|f_equal; [|f_equal]]; apply byte_of_N_eq; nlia.
Qed.

(** Decoding what [toString('base64')] produced gives the bytes back. *)
Lemma base64_decode_encode (bs : bytes) :
  base64_decode (base64_encode bs) = bs.
Proof.
  unfold base64_decode, base64_encode.
  rewrite until_padding_encoded, omap_unbase64_encoded by apply sextets_bounded.
  apply bytes_of_sextets_of_bytes.
Qed.

Lemma base64_encode_nonempty (bs : bytes) : bs <> [] -> base64_encode bs <> [].
Proof.
  intros Hne. unfold base64_encode.
  destruct bs as [|a [|b [|c l]]]; [congruence|discriminate..].
Qed.

End Base64.

(** ** UTF-8 round trip *)

Section Utf8.

Local Open Scope N_scope.

Ltac nlia :=
  zify; Z.quot_rem_to_equations; Z.to_euclidean_division_equations; lia.

(** Settles one comparison of the goal from the hypotheses. *)
Ltac cmp_step :=
  match goal with
  | |- context [N.eqb ?a ?b] =>
      destruct (N.eqb_spec a b); try (exfalso; nlia)
  | |- context [N.leb ?a ?b] =>
      destruct (N.leb_spec a b); try (exfalso; nlia)
  | |- context [N.ltb ?a ?b] =>
      destruct (N.ltb_spec a b); try (exfalso; nlia)
  end.

Ltac cmp_solve := repeat cmp_step; cbn [andb orb negb]; try reflexivity.

Lemma list_ind2 {A} (P : list A -> Prop) :
  P [] -> (forall a, P [a]) ->
  (forall a b l, P l -> P (b :: l) -> P (a :: b :: l)) ->
  forall l, P l.
Proof.
  intros H0 H1 H2 l.
  assert (H : P l /\ forall a, P (a :: l)).
  { induction l as [|x l [IH0 IH1]]; [auto|].
    split; [apply IH1|]. intros a. apply H2; [exact IH0 | apply IH1]. }
  apply H.
Qed.

Lemma utf16_scalars_scalar (s : jsstring) : Forall is_scalar (utf16_scalars s).
Proof.
  assert (Hfffd : is_scalar 65533) by (right; lia).
  induction s as [|c|c d rest IH IHd] using list_ind2.
  - constructor.
  - cbn [utf16_scalars]. unfold is_high_surrogate, is_low_surrogate.
    repeat cmp_step; cbn [andb]; repeat constructor; auto;
      unfold is_scalar; lia.
  - change (utf16_scalars (c :: d :: rest)) with
      (if is_high_surrogate c then
         if is_low_surrogate d
         then (65536 + (c - 55296) * 1024 + (d - 56320)) :: utf16_scalars rest
         else 65533 :: utf16_scalars (d :: rest)
       else if is_low_surrogate c then 65533 :: utf16_scalars (d :: rest)
       else if 65536 <=? c then 65533 :: utf16_scalars (d :: rest)
       else c :: utf16_scalars (d :: rest)).
    unfold is_high_surrogate, is_low_surrogate.
    repeat cmp_step; cbn [andb]; constructor; auto; unfold is_scalar; lia.
Qed.

Lemma utf16_of_scalar_scalars (cps : list N) :
  Forall is_scalar cps ->
  utf16_scalars (flat_map utf16_of_scalar cps) = cps.
Proof.
  induction 1 as [|cp cps Hcp _ IH]; [reflexivity|].
  cbn [flat_map]. unfold utf16_of_scalar at 1.
  destruct (N.ltb_spec cp 65536) as [Hlt|Hge].
  - cbn [app]. cbn [utf16_scalars].
    unfold is_high_surrogate, is_low_surrogate.
    destruct Hcp as [Hcp|Hcp]; cmp_solve; now rewrite IH.
  - cbn [app].
    change (utf16_scalars (?c :: ?d :: ?rest)) with
      (if is_high_surrogate c then
         if is_low_surrogate d
         then (65536 + (c - 55296) * 1024 + (d - 56320)) :: utf16_scalars rest
         else 65533 :: utf16_scalars (d :: rest)
       else if is_low_surrogate c then 65533 :: utf16_scalars (d :: rest)
       else if 65536 <=? c then 65533 :: utf16_scalars (d :: rest)
       else c :: utf16_scalars (d :: rest)).
    unfold is_high_surrogate, is_low_surrogate.
    destruct Hcp as [Hcp|Hcp]; [lia|].
    cmp_solve. rewrite IH. f_equal. nlia.
Qed.

Lemma well_formed_utf16_roundtrip (s : jsstring) :
  well_formed_utf16 s = true ->
  flat_map utf16_of_scalar (utf16_scalars s) = s.
Proof.
  induction s as [|c|c d rest IH IHd] using list_ind2.
  - reflexivity.
  - cbn [well_formed_utf16 utf16_scalars].
    destruct (is_high_surrogate c); [discriminate|].
    destruct (is_low_surrogate c); [discriminate|].
    cbn [negb andb]. rewrite andb_true_r. intros Hc.
    apply N.ltb_lt in Hc.
    replace (65536 <=? c) with false by (symmetry; apply N.leb_gt; lia).
    cbn [flat_map]. unfold utf16_of_scalar.
    replace (c <? 65536) with true by (symmetry; apply N.ltb_lt; lia).
    reflexivity.
  - change (well_formed_utf16 (c :: d :: rest)) with
      (if is_high_surrogate c
       then is_low_surrogate d && well_formed_utf16 rest
       else negb (is_low_surrogate c) && (c <? 65536)
            && well_formed_utf16 (d :: rest)).
    change (utf16_scalars (c :: d :: rest)) with
      (if is_high_surrogate c then
         if is_low_surrogate d
         then (65536 + (c - 55296) * 1024 + (d - 56320)) :: utf16_scalars rest
         else 65533 :: utf16_scalars (d :: rest)
       else if is_low_surrogate c then 65533 :: utf16_scalars (d :: rest)
       else if 65536 <=? c then 65533 :: utf16_scalars (d :: rest)
       else c :: utf16_scalars (d :: rest)).
    destruct (is_high_surrogate c) eqn:Hhigh.
    + intros H. apply andb_true_iff in H. destruct H as [Hlow Hrest].
      rewrite Hlow. cbn [flat_map]. rewrite (IH Hrest).
      unfold is_high_surrogate, is_low_surrogate in *.
      apply andb_true_iff in Hhigh, Hlow.
      destruct Hhigh as [H1 H2], Hlow as [H3 H4].
      apply N.leb_le in H1, H2, H3, H4.
      unfold utf16_of_scalar.
      replace (65536 + (c - 55296) * 1024 + (d - 56320) <? 65536) with false
        by (symmetry; apply N.ltb_ge; lia).
      cbn [app]. f_equal; [|f_equal]; nlia.
    + intros H. apply andb_true_iff in H. destruct H as [H Hrest].
      apply andb_true_iff in H. destruct H as [Hlow Hc].
      apply negb_true_iff in Hlow. rewrite Hlow. apply N.ltb_lt in Hc.
      replace (65536 <=? c) with false by (symmetry; apply N.leb_gt; lia).
      cbn [flat_map]. rewrite (IHd Hrest). unfold utf16_of_scalar.
      replace (c <? 65536) with true by (symmetry; apply N.ltb_lt; lia).
      reflexivity.
Qed.

Lemma utf8_scalars_eq (bs : list N) :
  utf8_scalars bs =
  match bs with
  | [] => []
  | b1 :: r1 =>
      if b1 <? 128 then b1 :: utf8_scalars r1
      else if (194 <=? b1) && (b1 <=? 223) then
        match r1 with
        | b2 :: r2 =>
            if is_continuation b2
            then ((b1 - 192) * 64 + (b2 - 128)) :: utf8_scalars r2
            else 65533 :: utf8_scalars r1
        | [] => [65533]
        end
      else if (224 <=? b1) && (b1 <=? 239) then
        match r1 with
        | b2 :: r2 =>
            if second_byte_ok b1 b2 then
              match r2 with
              | b3 :: r3 =>
                  if is_continuation b3
                  then ((b1 - 224) * 4096 + (b2 - 128) * 64 + (b3 - 128))
                         :: utf8_scalars r3
                  else 65533 :: utf8_scalars r2
              | [] => [65533]
              end
            else 65533 :: utf8_scalars r1
        | [] => [65533]
        end
      else if (240 <=? b1) && (b1 <=? 244) then
        match r1 with
        | b2 :: r2 =>
            if second_byte_ok b1 b2 then
              match r2 with
              | b3 :: r3 =>
                  if is_continuation b3 then
                    match r3 with
                    | b4 :: r4 =>
                        if is_continuation b4
                        then ((b1 - 240) * 262144 + (b2 - 128) * 4096
                              + (b3 - 128) * 64 + (b4 - 128))
                               :: utf8_scalars r4
                        else 65533 :: utf8_scalars r3
                    | [] => [65533]
                    end
                  else 65533 :: utf8_scalars r2
              | [] => [65533]
              end
            else 65533 :: utf8_scalars r1
        | [] => [65533]
        end
      else 65533 :: utf8_scalars r1
  end.
Proof. destruct bs; reflexivity. Qed.

Lemma utf8_of_scalar_bounded (cp : N) :
  is_scalar cp -> Forall (fun b => b < 256) (utf8_of_scalar cp).
Proof.
  intros Hcp. unfold utf8_of_scalar.
  assert (cp < 1114112) by (destruct Hcp; lia).
  repeat cmp_step; repeat constructor; nlia.
Qed.

Lemma utf8_scalars_of_scalar (cp : N) (rest : list N) :
  is_scalar cp ->
  utf8_scalars (utf8_of_scalar cp ++ rest) = cp :: utf8_scalars rest.
Proof.
  intros Hcp.
  assert (Hmax : cp < 1114112) by (destruct Hcp; lia).
  assert (Hsur : cp < 55296 \/ 57344 <= cp) by (destruct Hcp; lia).
  unfold utf8_of_scalar.
  destruct (N.ltb_spec cp 128) as [H1|H1];
    [|destruct (N.ltb_spec cp 2048) as [H2|H2];
      [|destruct (N.ltb_spec cp 65536) as [H3|H3]]];
    cbn [app]; rewrite utf8_scalars_eq; cbv beta iota.
  - replace (cp <? 128) with true by (symmetry; apply N.ltb_lt; lia).
    reflexivity.
  - unfold is_continuation. cmp_solve. f_equal. nlia.
  - unfold second_byte_ok, is_continuation. cmp_solve; f_equal; nlia.
  - unfold second_byte_ok, is_continuation. cmp_solve; f_equal; nlia.
Qed.

Lemma utf8_scalars_of_scalars (cps : list N) :
  Forall is_scalar cps ->
  utf8_scalars (flat_map utf8_of_scalar cps) = cps.
Proof.
  induction 1 as [|cp cps Hcp _ IH]; [reflexivity|].
  cbn [flat_map]. rewrite utf8_scalars_of_scalar by assumption.
  now rewrite IH.
Qed.

Lemma map_to_N_byte_of_N (l : list N) :
  Forall (fun b => b < 256) l -> map Byte.to_N (map byte_of_N l) = l.
Proof.
  induction 1 as [|b l Hb _ IH]; [reflexivity|].
  cbn [map]. rewrite to_N_byte_of_N by assumption. now rewrite IH.
Qed.

Lemma utf8_bytes_bounded (cps : list N) :
  Forall is_scalar cps ->
  Forall (fun b => b < 256) (flat_map utf8_of_scalar cps).
Proof.
  induction 1 as [|cp cps Hcp _ IH]; [constructor|].
  cbn [flat_map]. apply Forall_app. split; [|exact IH].
  now apply utf8_of_scalar_bounded.
Qed.

(** Reading back the bytes that [Buffer.from(s, 'utf8')] wrote gives the
    scalar values of [s], as UTF-16. *)
Lemma utf8_decode_encode (s : jsstring) :
  utf8_decode (utf8_encode s) = flat_map utf16_of_scalar (utf16_scalars s).
Proof.
  unfold utf8_decode, utf8_encode.
  pose proof (utf16_scalars_scalar s) as Hs.
  rewrite map_to_N_byte_of_N by now apply utf8_bytes_bounded.
  now rewrite utf8_scalars_of_scalars.
Qed.

(** The bytes survive: encoding the decoded text gives the same bytes. *)
Lemma utf8_encode_decode_encode (s : jsstring) :
  utf8_encode (utf8_decode (utf8_encode s)) = utf8_encode s.
Proof.
  rewrite utf8_decode_encode. unfold utf8_encode.
  now rewrite utf16_of_scalar_scalars by apply utf16_scalars_scalar.
Qed.

(** A well-formed string survives as it is. *)
Lemma utf8_decode_encode_well_formed (s : jsstring) :
  well_formed_utf16 s = true -> utf8_decode (utf8_encode s) = s.
Proof.
  intros H. rewrite utf8_decode_encode. now apply well_formed_utf16_roundtrip.
Qed.

End Utf8.

(** ** The key store *)

Lemma js_inj (a b : string) : js a = js b -> a = b.
Proof.
  unfold js. intros H.
  rewrite <- (string_of_list_ascii_of_string a),
          <- (string_of_list_ascii_of_string b).
  f_equal. revert H.
  generalize (list_ascii_of_string a) (list_ascii_of_string b).
  induction l as [|x l IH]; intros [|y l']; simpl; try discriminate; auto.
  intros H. injection H as Hxy Hl.
  f_equal; [|now apply IH].
  rewrite <- (ascii_N_embedding x), <- (ascii_N_embedding y). now f_equal.
Qed.

Lemma getKey_inj (userId a b : jsstring) :
  getKey userId a = getKey userId b -> a = b.
Proof.
  unfold getKey. intros H.
  repeat apply app_inv_head in H. exact H.
Qed.

Lemma signed_prekey_key_inj (i j : Z) :
  signed_prekey_key i = signed_prekey_key j -> i = j.
Proof.
  unfold signed_prekey_key. intros H. apply app_inv_head in H.
  apply js_inj in H. now apply (inj pretty) in H.
Qed.

Lemma getIdentityKeyPair_reads_only (L : SignalLib) (userId : jsstring) :
  reads_only (getIdentityKeyPair L userId).
Proof.
  intros w. unfold getIdentityKeyPair, getItemAsync. async_unfold. simpl.
  destruct (truthy _); [destruct (truthy _)|]; eauto.
  destruct (PrivateKey_deserialize L _); [|eauto].
  destruct (PublicKey_deserialize L _); eauto.
Qed.

Lemma getLocalRegistrationId_reads_only (L : SignalLib) (userId : jsstring) :
  reads_only (getLocalRegistrationId userId).
Proof.
  intros w. unfold getLocalRegistrationId, getItemAsync, random_registrationId,
    floor_random_times, draw. async_unfold. simpl.
  destruct (truthy _); eauto.
Qed.

Lemma getSignedPreKey_reads_only (L : SignalLib) (userId : jsstring) (id : Z) :
  reads_only (getSignedPreKey L userId id).
Proof.
  intros w. unfold getSignedPreKey, getItemAsync. async_unfold. simpl.
  destruct (truthy _); [|eauto].
  destruct (SignedPreKeyRecord_deserialize L _); eauto.
Qed.

Lemma getPreKey_reads_only (L : SignalLib) (userId : jsstring) (id : Z) :
  reads_only (getPreKey L userId id).
Proof.
  intros w. unfold getPreKey, getItemAsync. async_unfold. simpl.
  destruct (truthy _); [|eauto].
  destruct (PreKeyRecord_deserialize L _); eauto.
Qed.

Lemma getSignedPreKey_absent (L : SignalLib) (userId : jsstring) (id : Z)
    (w : World) :
  secure w !! getKey userId (signed_prekey_key id) = None ->
  getSignedPreKey L userId id w = (Ok None, w).
Proof.
  intros H. unfold getSignedPreKey, getItemAsync. async_unfold. simpl.
  now rewrite H.
Qed.

(** [getUserBundle] writes nothing to the key store and never throws. *)
Lemma getUserBundle_reads_only (L : SignalLib) (userId : jsstring) :
  reads_only (getUserBundle L userId).
Proof.
  intros w. unfold getUserBundle, ensureSignalLoaded, loadSignal.
  unfold try_catch at 1.
  destruct (load_error L) as [e|].
  { async_unfold. simpl. eauto. }
  unfold mbind at 1, Async_bind at 1, mret at 1, Async_ret at 1.
  unfold mbind at 1, Async_bind at 1.
  destruct (getIdentityKeyPair_reads_only L userId w) as (kp & w1 & -> & E1).
  unfold mbind at 1, Async_bind at 1.
  destruct (getLocalRegistrationId_reads_only L userId w1) as (reg & w2 & -> & E2).
  destruct kp as [kp|]; [|exists None, w2; split; [reflexivity|congruence]].
  unfold mbind at 1, Async_bind at 1.
  destruct (getSignedPreKey_reads_only L userId 1 w2) as (spk & w3 & -> & E3).
  unfold mbind at 1, Async_bind at 1.
  destruct (getPreKey_reads_only L userId 1 w3) as (pk & w4 & -> & E4).
  destruct spk, pk; eexists _, w4; (split; [reflexivity|congruence]).
Qed.

(** ** Sessions in the key store *)

Lemma storeSession_run (userId : jsstring) (address : ProtocolAddress)
    (record : bytes) (w : World) :
  storeSession userId address record w
  = (Ok tt,
     set_secure (insert (getKey userId (session_key address))
                        (base64_encode record)) w).
Proof. reflexivity. Qed.

Lemma loadSession_stored (userId : jsstring) (address : ProtocolAddress)
    (record : bytes) (w : World) :
  record <> [] ->
  secure w !! getKey userId (session_key address) = Some (base64_encode record) ->
  loadSession userId address w = (Ok (Some record), w).
Proof.
  intros Hne Hstored. unfold loadSession, getItemAsync. async_unfold. simpl.
  rewrite Hstored.
  destruct (base64_encode record) as [|c s] eqn:Henc.
  - now apply base64_encode_nonempty in Henc.
  - simpl. rewrite <- Henc, base64_decode_encode. reflexivity.
Qed.

(** ** Failures of decryption and of encryption *)

(** C2 (as the code has it). When both decryption attempts of the library
    fail, [SignalProtocol.decryptMessage] logs the error of the second
    attempt and throws it to its caller; [CryptoService.decryptMessage]
    catches that error, logs it, and returns the envelope text itself. *)
Theorem decrypt_failure_propagates_then_falls_back
    (L : SignalLib) (this : CryptoService) (envelope senderId : jsstring)
    (w w1 w2 : World) (e1 e : exn) :
  load_error L = None ->
  envelope <> [] ->
  looksEncrypted envelope = true ->
  (preKeyMessage ← lift_result
     (PreKeySignalMessage_deserialize L (base64_decode envelope));
   decryptPreKeySignalMessage L (cs_userId this) (sender_address senderId)
     preKeyMessage) w = (Throw e1, w1) ->
  (signalMessage ← lift_result
     (SignalMessage_deserialize L (base64_decode envelope));
   decryptSignalMessage L (cs_userId this) (sender_address senderId)
     signalMessage) w1 = (Throw e, w2) ->
  decryptMessage L (cs_userId this) (sender_address senderId) envelope w
    = (Throw e, logged "Error decrypting message:" e w2)
  /\ CryptoService_decryptMessage L this envelope senderId w
     = (Ok envelope,
        logged "Decryption error:" e (logged "Error decrypting message:" e w2)).
Proof.
  intros Hload Hne Hlooks Hpre Hnormal.
  assert (Hsignal :
    decryptMessage L (cs_userId this) (sender_address senderId) envelope w
    = (Throw e, logged "Error decrypting message:" e w2)).
  { unfold decryptMessage, ensureSignalLoaded, loadSignal. rewrite Hload.
    async_unfold. simpl.
    unfold mbind, Async_bind, lift_result in Hpre, Hnormal.
    rewrite Hpre, Hnormal. reflexivity. }
  split; [exact Hsignal|].
  unfold CryptoService_decryptMessage.
  destruct envelope as [|c s]; [congruence|].
  rewrite Hlooks. simpl negb. cbv iota.
  fold (sender_address senderId).
  unfold loadSignal. rewrite Hload.
  unfold try_catch at 1. unfold mbind at 1, Async_bind at 1, mret at 1, Async_ret at 1.
  rewrite Hsignal. reflexivity.
Qed.

(** The theorem applies: the demo library rejects the envelope
    ["AAAAAAAAAAAA"] (nine zero bytes) on both paths. *)
Lemma decrypt_failure_witness :
  let alice := js "a1b2c3d4-0000-4000-8000-00000000000a" in
  looksEncrypted (js "AAAAAAAAAAAA") = true
  /\ decryptMessage Demo.lib (cs_userId bob_service) (sender_address alice)
       (js "AAAAAAAAAAAA") bob_device
     = (Throw Demo.InvalidMessage,
        logged "Error decrypting message:" Demo.InvalidMessage bob_device)
  /\ CryptoService_decryptMessage Demo.lib bob_service (js "AAAAAAAAAAAA")
       alice bob_device
     = (Ok (js "AAAAAAAAAAAA"),
        logged "Decryption error:" Demo.InvalidMessage
          (logged "Error decrypting message:" Demo.InvalidMessage bob_device)).
Proof.
  cbv zeta. split; [reflexivity|].
  apply (decrypt_failure_propagates_then_falls_back Demo.lib bob_service
           (js "AAAAAAAAAAAA") (js "a1b2c3d4-0000-4000-8000-00000000000a")
           bob_device bob_device bob_device
           Demo.InvalidMessage Demo.InvalidMessage);
    [reflexivity | discriminate | reflexivity | reflexivity | reflexivity].
Defined.

(** C2, refuted as stated. Bob receives an envelope that the library
    rejects.  The signal layer throws, yet [CryptoService.decryptMessage]
    returns normally, and what it returns as the message text is the
    envelope. *)
Lemma decrypt_failure_returns_envelope :
  let alice := js "a1b2c3d4-0000-4000-8000-00000000000a" in
  fst (decryptMessage Demo.lib (cs_userId bob_service) (sender_address alice)
         (js "AAAAAAAAAAAA") bob_device)
    = Throw Demo.InvalidMessage
  /\ fst (CryptoService_decryptMessage Demo.lib bob_service
            (js "AAAAAAAAAAAA") alice bob_device)
     = Ok (js "AAAAAAAAAAAA").
Proof. cbv zeta. split; vm_compute; reflexivity. Qed.

(** C3 (the code at the failing input). Alice and Bob are registered, and
    Alice opens her chat with Bob.  [initializeCrypto] fails on the
    unbound [supabase] of [CryptoService] and leaves the screen without a
    crypto service; she types "hello" and sends.  No encryption is
    attempted: the row the backend stores has "hello" itself as its
    [ciphertext], the screen lists the message as sent and shows no
    error, and the console says "Message sent successfully".  The second
    part is the same send from a screen that does hold a crypto service:
    the encryption throws, [sendMessage] catches the exception, the row
    again holds "hello" and no error is shown; the failure is on the
    console only. *)
Theorem sendMessage_transmits_plaintext_unnoticed :
  let typed := alice_chat (js "hello") in
  let sent := sendMessage Demo.lib typed alice_device in
  let held := sendMessage Demo.lib (with_cryptoService typed alice_service)
                alice_device in
  (cryptoServiceRef typed = None
   /\ last (console alice_device)
      = Some (Log LogError (js "Crypto initialization error:")
                (Some unbound_supabase))
   /\ map ciphertext (messages (snd sent)) = [js "hello"]
   /\ error (fst sent) = None
   /\ map decryptedText (chat_messages (fst sent)) = [Some (js "hello")]
   /\ console (snd sent)
      = console alice_device
          ++ [Log LogInfo (js "Message sent successfully") None])
  /\ (map ciphertext (messages (snd held)) = [js "hello"]
      /\ error (fst held) = None
      /\ map decryptedText (chat_messages (fst held)) = [Some (js "hello")]
      /\ console (snd held)
         = console alice_device
             ++ [Log LogError (js "Encryption error:") (Some unbound_supabase);
                 Log LogInfo (js "Encryption failed, sending plain:")
                   (Some unbound_supabase);
                 Log LogInfo (js "Message sent successfully") None]).
Proof.
  cbv zeta. repeat split; vm_compute; reflexivity.
Qed.

(** ** Replay *)

(** C5 (as the code has it). [SignalProtocol.decryptMessage] keeps no
    record of the envelopes it has decrypted.  When an envelope that was
    decrypted once (and that [CryptoService] takes for encrypted) is
    presented again, in whatever state the device is by then, the copy
    goes to the library as the original did, as a pre-key message and
    then as a normal message.  If the library rejects it on both
    attempts, [SignalProtocol.decryptMessage] logs the error and throws
    it, and [CryptoService.decryptMessage] does not fail: it logs the
    error and returns the envelope text.  If the library decrypts the
    copy, both return that text. *)
Theorem replay_is_left_to_the_library
    (L : SignalLib) (this : CryptoService)
    (envelope senderId plaintext : jsstring) (w0 w1 w : World) :
  decryptMessage L (cs_userId this) (sender_address senderId) envelope w0
    = (Ok plaintext, w1) ->
  looksEncrypted envelope = true ->
  match library_decrypt L (cs_userId this) (sender_address senderId)
          envelope w with
  | (Ok buffer, w') =>
      decryptMessage L (cs_userId this) (sender_address senderId) envelope w
        = (Ok (utf8_decode buffer), w')
      /\ CryptoService_decryptMessage L this envelope senderId w
         = (Ok (utf8_decode buffer), w')
  | (Throw e, w') =>
      decryptMessage L (cs_userId this) (sender_address senderId) envelope w
        = (Throw e, logged "Error decrypting message:" e w')
      /\ CryptoService_decryptMessage L this envelope senderId w
         = (Ok envelope,
            logged "Decryption error:" e
              (logged "Error decrypting message:" e w'))
  end.
Proof.
  intros Hfirst Hlooks.
  assert (Hload : load_error L = None).
  { unfold decryptMessage, ensureSignalLoaded, loadSignal in Hfirst.
    destruct (load_error L) as [e0|]; [|reflexivity].
    async_unfold. discriminate. }
  assert (Hsignal :
    decryptMessage L (cs_userId this) (sender_address senderId) envelope w
    = match library_decrypt L (cs_userId this) (sender_address senderId)
              envelope w with
      | (Ok buffer, w') => (Ok (utf8_decode buffer), w')
      | (Throw e, w') => (Throw e, logged "Error decrypting message:" e w')
      end).
  { unfold decryptMessage, library_decrypt, ensureSignalLoaded, loadSignal.
    rewrite Hload. async_unfold.
    destruct (PreKeySignalMessage_deserialize L (base64_decode envelope))
      as [m|e1].
    - destruct (decryptPreKeySignalMessage L (cs_userId this)
                  (sender_address senderId) m w) as [[b|e2] wa];
        [reflexivity|].
      destruct (SignalMessage_deserialize L (base64_decode envelope))
        as [m'|e3]; [|reflexivity].
      destruct (decryptSignalMessage L (cs_userId this)
                  (sender_address senderId) m' wa) as [[b|e4] wb];
        reflexivity.
    - destruct (SignalMessage_deserialize L (base64_decode envelope))
        as [m'|e3]; [|reflexivity].
      destruct (decryptSignalMessage L (cs_userId this)
                  (sender_address senderId) m' w) as [[b|e4] wb];
        reflexivity. }
  assert (Hservice :
    CryptoService_decryptMessage L this envelope senderId w
    = match decryptMessage L (cs_userId this) (sender_address senderId)
              envelope w with
      | (Ok text, w') => (Ok text, w')
      | (Throw e, w') => (Ok envelope, logged "Decryption error:" e w')
      end).
  { unfold CryptoService_decryptMessage.
    destruct envelope as [|c s]; [discriminate|].
    rewrite Hlooks. cbn [negb]. fold (sender_address senderId).
    unfold loadSignal. rewrite Hload.
    unfold try_catch at 1.
    unfold mbind at 1, Async_bind at 1, mret at 1, Async_ret at 1.
    destruct (decryptMessage L (cs_userId this) (sender_address senderId)
                (c :: s) w) as [[text|e] w']; reflexivity. }
  rewrite Hservice, Hsignal.
  destruct (library_decrypt L (cs_userId this) (sender_address senderId)
              envelope w) as [[buffer|e] w']; split; reflexivity.
Qed.

(** The theorem applies: Bob decrypts Alice's first envelope, then an
    identical copy of it, which the demo library rejects. *)
Lemma replay_is_left_to_the_library_witness :
  let alice := js "a1b2c3d4-0000-4000-8000-00000000000a" in
  let first :=
    decryptMessage Demo.lib (cs_userId bob_service) (sender_address alice)
      hello_envelope bob_device in
  fst first = Ok (js "hello")
  /\ looksEncrypted hello_envelope = true
  /\ exists w',
       decryptMessage Demo.lib (cs_userId bob_service) (sender_address alice)
         hello_envelope (snd first)
       = (Throw Demo.InvalidMessage,
          logged "Error decrypting message:" Demo.InvalidMessage w')
       /\ CryptoService_decryptMessage Demo.lib bob_service hello_envelope
            alice (snd first)
          = (Ok hello_envelope,
             logged "Decryption error:" Demo.InvalidMessage
               (logged "Error decrypting message:" Demo.InvalidMessage w')).
Proof.
  cbv zeta.
  destruct (decryptMessage Demo.lib (cs_userId bob_service)
              (sender_address (js "a1b2c3d4-0000-4000-8000-00000000000a")) hello_envelope bob_device)
    as [r w1] eqn:Hfirst.
  assert (Hr : r = Ok (js "hello")).
  { apply (f_equal fst) in Hfirst. vm_compute in Hfirst.
    rewrite <- Hfirst. reflexivity. }
  subst r. split; [reflexivity|]. split; [reflexivity|]. cbn [snd].
  pose proof (replay_is_left_to_the_library Demo.lib bob_service hello_envelope
                (js "a1b2c3d4-0000-4000-8000-00000000000a") (js "hello") bob_device w1 w1 Hfirst eq_refl) as H.
  destruct (library_decrypt Demo.lib (cs_userId bob_service)
              (sender_address (js "a1b2c3d4-0000-4000-8000-00000000000a")) hello_envelope w1)
    as [[buffer|e] w'] eqn:Hcopy.
  - exfalso. apply (f_equal fst) in Hcopy. cbn [fst] in Hcopy.
    apply (f_equal snd) in Hfirst. cbn [snd] in Hfirst.
    rewrite <- Hfirst in Hcopy. vm_compute in Hcopy. discriminate.
  - assert (He : e = Demo.InvalidMessage).
    { apply (f_equal fst) in Hcopy. cbn [fst] in Hcopy.
      apply (f_equal snd) in Hfirst. cbn [snd] in Hfirst.
      rewrite <- Hfirst in Hcopy. vm_compute in Hcopy.
      injection Hcopy as <-. reflexivity. }
    subst e. exists w'. exact H.
Defined.

(** C5, refuted as stated. Bob's crypto service decrypts Alice's envelope
    to "hello".  Presented with an identical copy, the library rejects
    it on both attempts, yet the second [CryptoService.decryptMessage]
    does not fail: it returns normally, with the envelope text as the
    message. *)
Lemma replay_returns_envelope :
  let alice := js "a1b2c3d4-0000-4000-8000-00000000000a" in
  let first :=
    CryptoService_decryptMessage Demo.lib bob_service hello_envelope alice
      bob_device in
  fst first = Ok (js "hello")
  /\ fst (decryptMessage Demo.lib (cs_userId bob_service)
            (sender_address alice) hello_envelope (snd first))
     = Throw Demo.InvalidMessage
  /\ fst (CryptoService_decryptMessage Demo.lib bob_service hello_envelope
            alice (snd first))
     = Ok hello_envelope.
Proof. cbv zeta. repeat split; vm_compute; reflexivity. Qed.

(** ** The safety number *)

(** What [getSafetyNumber] returns once the local identity is loaded: the
    formatted digest of the local key followed by the remote key. *)
Lemma getSafetyNumber_digest
    (L : SignalLib) (userId : jsstring) (other : UserBundle)
    (w w1 : World) (identityKeyPair : IdentityKeyPair (PublicKey L) (PrivateKey L)) :
  load_error L = None ->
  getIdentityKeyPair L userId w = (Ok (Some identityKeyPair), w1) ->
  getSafetyNumber L userId other w
  = (Ok (format_safety_number
           (SHA256.digest_hex
              (PublicKey_serialize L (kp_publicKey identityKeyPair)
                 ++ base64_decode (identityKey other)))), w1).
Proof.
  intros Hload Hkp.
  unfold getSafetyNumber, ensureSignalLoaded, loadSignal. rewrite Hload.
  async_unfold. rewrite Hkp. reflexivity.
Qed.

(** The rendering: a digest of at least 60 hex digits is shown as twelve
    groups of five digits, separated by single spaces. *)
Lemma format_safety_number_groups (hash : jsstring) :
  (60 <= length hash)%nat ->
  let groups := groups_of_5 60 (take 60 hash) in
  format_safety_number hash = join_with_space groups
  /\ length groups = 12%nat
  /\ Forall (fun g => length g = 5%nat) groups
  /\ concat groups = take 60 hash.
Proof.
  intros Hlen.
  do 60 (destruct hash as [|? hash]; [simpl in Hlen; lia|]).
  cbv zeta. split; [reflexivity|].
  split; [reflexivity|]. split; [repeat constructor|reflexivity].
Qed.

Lemma digest_hex_length (data : bytes) : length (SHA256.digest_hex data) = 64%nat.
Proof.
  unfold SHA256.digest_hex, SHA256.digest_words.
  assert (Hcompress : forall h block, length h = 8%nat ->
                        length (SHA256.compress h block) = 8%nat).
  { intros h block Hh. unfold SHA256.compress.
    rewrite length_map, length_combine, Hh. reflexivity. }
  assert (Hfold : forall blocks h, length h = 8%nat ->
                    length (fold_left SHA256.compress blocks h) = 8%nat).
  { induction blocks as [|b blocks IH]; intros h Hh; [exact Hh|].
    simpl. apply IH, Hcompress, Hh. }
  match goal with
  | |- context [fold_left SHA256.compress ?bs SHA256.H0] =>
      pose proof (Hfold bs SHA256.H0 eq_refl) as H8;
      destruct (fold_left SHA256.compress bs SHA256.H0)
        as [|a [|b [|c [|d [|e [|f [|g [|h [|x l]]]]]]]]]; try discriminate
  end.
  reflexivity.
Qed.

(** C6 (the code at the failing input). With identity keys
    [A = 05 01..01] and [B = 05 02..02], the safety number that the owner
    of [A] computes for [B] is not the one that the owner of [B] computes
    for [A]: each side hashes its own key first. *)
Theorem safety_number_depends_on_side :
  let alice := js "a1b2c3d4-0000-4000-8000-00000000000a" in
  let bob := js "0b0b0b0b-1111-4111-8111-11111111111b" in
  fst (getSafetyNumber Demo.lib alice (bundle_with_identity key_B)
         (device_of alice key_A))
    = Ok (js "58f3c 6ceb7 653ea e7f80 4f099 c0097 b1734 87832 efd47 0fdc0 fd824 9c69b")
  /\ fst (getSafetyNumber Demo.lib bob (bundle_with_identity key_A)
            (device_of bob key_B))
     = Ok (js "63213 925bf 439e0 43e76 50af3 5c985 0edce 5ec72 56717 b39a4 59499 df99e")
  /\ fst (getSafetyNumber Demo.lib alice (bundle_with_identity key_B)
            (device_of alice key_A))
     <> fst (getSafetyNumber Demo.lib bob (bundle_with_identity key_A)
               (device_of bob key_B)).
Proof.
  cbv zeta.
  assert (Ha : fst (getSafetyNumber Demo.lib (js "a1b2c3d4-0000-4000-8000-00000000000a")
                      (bundle_with_identity key_B)
                      (device_of (js "a1b2c3d4-0000-4000-8000-00000000000a") key_A))
               = Ok (js "58f3c 6ceb7 653ea e7f80 4f099 c0097 b1734 87832 efd47 0fdc0 fd824 9c69b"))
    by (vm_compute; reflexivity).
  assert (Hb : fst (getSafetyNumber Demo.lib (js "0b0b0b0b-1111-4111-8111-11111111111b")
                      (bundle_with_identity key_A)
                      (device_of (js "0b0b0b0b-1111-4111-8111-11111111111b") key_B))
               = Ok (js "63213 925bf 439e0 43e76 50af3 5c985 0edce 5ec72 56717 b39a4 59499 df99e"))
    by (vm_compute; reflexivity).
  split; [exact Ha|]. split; [exact Hb|].
  rewrite Ha, Hb. vm_compute. discriminate.
Qed.

(** ** Trust in identity keys *)

(** C7 (as the code has it). The trust check reports every presented
    identity key as trusted and leaves the world as it is, whatever key is
    stored for the peer; saving the presented key then replaces whatever
    was stored for that peer and never throws.  No change of identity key
    is surfaced. *)
Theorem isTrustedIdentity_always
    (L : SignalLib) (userId : jsstring) (address : ProtocolAddress)
    (identityKey : PublicKey L) (w : World) :
  isTrustedIdentity L userId address identityKey w = (Ok true, w)
  /\ exists (r : bool) (w' : World),
       saveIdentity L userId address identityKey w = (Ok r, w')
       /\ secure w' =
            <[getKey userId (identity_key address) :=
                base64_encode (PublicKey_serialize L identityKey)]> (secure w).
Proof.
  split; [reflexivity|].
  unfold saveIdentity, setItemAsync. async_unfold.
  eexists _, _. split; reflexivity.
Qed.

(** C7, refuted as stated. On a device that has stored the key [05 01 01]
    for peer 13, presenting the different key [05 09 09] for the same peer
    is reported as trusted, and saving it silently replaces the stored
    key. *)
Lemma changed_identity_key_is_trusted :
  let bob := js "0b0b0b0b-1111-4111-8111-11111111111b" in
  let peer := {| addr_name := js "13"; addr_deviceId := 1 |} in
  let stored := ["005"; "001"; "001"]%byte in
  let presented := ["005"; "009"; "009"]%byte in
  let w := snd (saveIdentity Demo.lib bob peer stored (Demo.fresh (fun _ => 0%N) 0)) in
  fst (getIdentity Demo.lib bob peer w) = Ok (Some stored)
  /\ presented <> stored
  /\ isTrustedIdentity Demo.lib bob peer presented w = (Ok true, w)
  /\ fst (getIdentity Demo.lib bob peer
            (snd (saveIdentity Demo.lib bob peer presented w)))
     = Ok (Some presented).
Proof.
  cbv zeta. split; [vm_compute; reflexivity|].
  split; [discriminate|].
  split; [reflexivity|].
  vm_compute; reflexivity.
Qed.

(** ** One-time pre-keys *)

(** C8 (the code at the failing input). [CryptoService.encryptMessage]
    is where a session with a recipient is established.  Whatever the
    recipient's profile row holds, and so also when it holds an identity
    key and a signed pre-key and no one-time pre-key, the call throws: it
    stops at the unbound [supabase], before the row is read, before the
    substitute for a missing one-time pre-key is built and before
    [createSession] is called.  The error is logged under "Encryption
    error:" and nothing else changes. *)
Theorem CryptoService_encryptMessage_never_establishes
    (L : SignalLib) (this : CryptoService) (recipientId message : jsstring)
    (w : World) :
  CryptoService_encryptMessage L this recipientId message w
  = (Throw unbound_supabase, logged "Encryption error:" unbound_supabase w).
Proof. reflexivity. Qed.

(** ** The local bundle *)

(** C9 (the code at the failing input). Right after [generateIdentity]
    has stored an identity on a device with no signed pre-key under id 1,
    and unless the signed pre-key id it drew is 1, the identity is in the
    key store (the public half is the bundle's [identityKey]) and yet
    [getUserBundle] reports absent.  It does so without writing to the
    key store. *)
Theorem getUserBundle_absent_after_generateIdentity
    (L : SignalLib) (userId : jsstring) (w0 w1 : World)
    (bundle : UserBundle) (spk : SignedPreKeyPublic) :
  generateIdentity L userId w0 = (Ok bundle, w1) ->
  signedPreKey bundle = Some spk ->
  spk_keyId spk <> 1 ->
  secure w0 !! getKey userId (signed_prekey_key 1) = None ->
  secure w1 !! getKey userId (js "identity_public") = Some (identityKey bundle)
  /\ is_Some (secure w1 !! getKey userId (js "identity_private"))
  /\ exists w2, getUserBundle L userId w1 = (Ok None, w2)
                /\ secure w2 = secure w1.
Proof.
  intros Hgen Hspk Hid Hfree.
  unfold generateIdentity, ensureSignalLoaded, loadSignal in Hgen.
  destruct (load_error L) as [e|] eqn:Hload.
  { async_unfold. simpl in Hgen. discriminate. }
  unfold saveIdentityKeyPair, saveRegistrationId, saveSignedPreKey, savePreKey,
    random_registrationId, floor_random_times, draw, Date_now, setItemAsync in Hgen.
  async_unfold. simpl in Hgen.
  injection Hgen as Hbundle Hw1. subst bundle.
  cbn [signedPreKey identityKey] in *.
  injection Hspk as Hspk. subst spk. cbn [spk_keyId] in Hid.
  assert (Hne : forall a b : jsstring,
             a <> b -> getKey userId a <> getKey userId b).
  { intros a b Hab H. now apply getKey_inj in H. }
  apply (f_equal secure) in Hw1. cbn [secure set_secure set_drawn] in Hw1.
  assert (Hsecure : secure w1 !! getKey userId (signed_prekey_key 1) = None).
  { rewrite <- Hw1.
    rewrite !lookup_insert_ne; [exact Hfree|..]; apply Hne; try discriminate.
    intros H. apply signed_prekey_key_inj in H. congruence. }
  split; [|split].
  - rewrite <- Hw1.
    rewrite !lookup_insert_ne by (apply Hne; discriminate).
    apply lookup_insert_eq.
  - rewrite <- Hw1.
    rewrite !lookup_insert_ne by (apply Hne; discriminate).
    rewrite lookup_insert_eq. eauto.
  - clear Hw1.
    unfold getUserBundle, ensureSignalLoaded, loadSignal. rewrite Hload.
    unfold try_catch at 1.
    unfold mbind at 1, Async_bind at 1, mret at 1, Async_ret at 1.
    unfold mbind at 1, Async_bind at 1.
    destruct (getIdentityKeyPair_reads_only L userId w1) as (kp & wa & -> & Ea).
    unfold mbind at 1, Async_bind at 1.
    destruct (getLocalRegistrationId_reads_only L userId wa) as (reg & wb & -> & Eb).
    destruct kp as [kp|]; [|exists wb; split; [reflexivity|congruence]].
    unfold mbind at 1, Async_bind at 1.
    rewrite getSignedPreKey_absent by (rewrite Eb, Ea; exact Hsecure).
    unfold mbind at 1, Async_bind at 1.
    destruct (getPreKey_reads_only L userId 1 wb) as (pk & wc & -> & Ec).
    exists wc. split; [reflexivity|congruence].
Qed.

(** The theorem applies: a fresh device on which [generateIdentity] draws
    14336 as the signed pre-key id. *)
Lemma getUserBundle_absent_witness :
  let bob := js "0b0b0b0b-1111-4111-8111-11111111111b" in
  fst (generateIdentity Demo.lib bob bob_fresh) = Ok bob_bundle
  /\ secure bob_fresh !! getKey bob (signed_prekey_key 1) = None
  /\ is_Some (secure bob_device !! getKey bob (js "identity_private"))
  /\ fst (getUserBundle Demo.lib bob bob_device) = Ok None.
Proof.
  cbv zeta.
  assert (Hfst : fst (generateIdentity Demo.lib (js "0b0b0b0b-1111-4111-8111-11111111111b") bob_fresh)
                 = Ok bob_bundle) by (vm_compute; reflexivity).
  pose proof (surjective_pairing
                (generateIdentity Demo.lib (js "0b0b0b0b-1111-4111-8111-11111111111b") bob_fresh))
    as Hgen.
  rewrite Hfst in Hgen. fold bob_device in Hgen.
  destruct (getUserBundle_absent_after_generateIdentity Demo.lib
              (js "0b0b0b0b-1111-4111-8111-11111111111b") bob_fresh bob_device bob_bundle
              {| spk_keyId := 14336; spk_publicKey := js "BQoA";
                 spk_signature := js "AAoFAQA=" |}
              Hgen eq_refl ltac:(discriminate) eq_refl)
    as (_ & Hpriv & w2 & Hget & _).
  rewrite Hget.
  split; [exact Hfst|]. split; [reflexivity|]. split; [exact Hpriv|reflexivity].
Defined.

(** ** The shape test of [CryptoService] *)

Lemma base64Regex_test_spec (s : jsstring) :
  base64Regex_test s = true <-> s <> [] /\ Forall (fun c => base64_class c = true) s.
Proof.
  unfold base64Regex_test. destruct s as [|c s].
  - split; [discriminate | intros [H _]; congruence].
  - rewrite forallb_forall, Forall_forall.
    split.
    + intros H. split; [discriminate|]. intros x Hx. apply H.
      now apply list_elem_of_In.
    + intros [_ H] x Hx. apply H. now apply list_elem_of_In.
Qed.

Lemma forallb_false_exists {A} (f : A -> bool) (l : list A) :
  forallb f l = false -> exists x, In x l /\ f x = false.
Proof.
  induction l as [|a l IH]; simpl; [discriminate|].
  destruct (f a) eqn:Ha; simpl.
  - intros H. destruct (IH H) as [x [Hin Hx]]. exists x. auto.
  - intros _. exists a. auto.
Qed.

Lemma looksEncrypted_false_iff (s : jsstring) :
  looksEncrypted s = false <->
  (length s < 10)%nat
  \/ (exists c, In c s /\ base64_class c = false)
  \/ (length s mod 4 <> 0)%nat.
Proof.
  unfold looksEncrypted.
  destruct (Nat.ltb_spec (length s) 10) as [Hlt|Hge].
  - split; [auto | reflexivity].
  - rewrite andb_false_iff. split.
    + intros [Hre|Hmod].
      * right; left. unfold base64Regex_test in Hre.
        destruct s as [|c s]; [simpl in Hge; lia|].
        now apply forallb_false_exists.
      * right; right. apply Nat.eqb_neq. exact Hmod.
    + intros [Hlt|[[c [Hin Hc]]|Hmod]].
      * lia.
      * left. destruct (base64Regex_test s) eqn:Hre; [|reflexivity].
        apply base64Regex_test_spec in Hre. destruct Hre as [_ Hall].
        rewrite Forall_forall in Hall.
        apply list_elem_of_In in Hin. specialize (Hall c Hin). congruence.
      * right. apply Nat.eqb_neq. exact Hmod.
Qed.

(** C10. [CryptoService.decryptMessage] returns a string for every pair of
    strings and never throws: [""] gives ["[Empty message]"]; a string
    shorter than 10 characters, or with a character outside
    [A-Za-z0-9+/=], or whose length is not a multiple of 4, is returned
    unchanged and the world is untouched (nothing was attempted); when the
    decryption throws, the input is returned unchanged; and otherwise the
    decrypted text is returned. *)
Theorem CryptoService_decryptMessage_total
    (L : SignalLib) (this : CryptoService)
    (encryptedMessage senderId : jsstring) (w : World) :
  exists (text : jsstring) (w' : World),
    CryptoService_decryptMessage L this encryptedMessage senderId w
      = (Ok text, w')
    /\ (encryptedMessage = [] -> text = js "[Empty message]" /\ w' = w)
    /\ (encryptedMessage <> [] ->
        ((length encryptedMessage < 10)%nat
         \/ (exists c, In c encryptedMessage /\ base64_class c = false)
         \/ (length encryptedMessage mod 4 <> 0)%nat) ->
        text = encryptedMessage /\ w' = w)
    /\ (forall e w1,
          encryptedMessage <> [] -> looksEncrypted encryptedMessage = true ->
          (loadSignal L;;
           decryptMessage L (cs_userId this) (sender_address senderId)
             encryptedMessage) w = (Throw e, w1) ->
          text = encryptedMessage)
    /\ (forall plaintext w1,
          encryptedMessage <> [] -> looksEncrypted encryptedMessage = true ->
          (loadSignal L;;
           decryptMessage L (cs_userId this) (sender_address senderId)
             encryptedMessage) w = (Ok plaintext, w1) ->
          text = plaintext /\ w' = w1).
Proof.
  unfold CryptoService_decryptMessage.
  destruct encryptedMessage as [|c s].
  - exists (js "[Empty message]"), w. async_unfold.
    split; [reflexivity|]. split; [auto|].
    split; [congruence|]. split; intros; congruence.
  - destruct (looksEncrypted (c :: s)) eqn:Hlooks.
    + fold (sender_address senderId). simpl negb. cbv iota.
      unfold try_catch at 1.
      destruct ((loadSignal L;;
                 decryptMessage L (cs_userId this) (sender_address senderId)
                   (c :: s)) w) as [[plaintext|e] w1] eqn:Hrun.
      * exists plaintext, w1.
        split; [reflexivity|]. split; [congruence|].
        split; [intros _ Hshape; apply looksEncrypted_false_iff in Hshape;
                congruence|].
        split; intros; [congruence|]. split; congruence.
      * eexists (c :: s), _. async_unfold.
        split; [reflexivity|]. split; [congruence|].
        split; [intros _ Hshape; apply looksEncrypted_false_iff in Hshape;
                congruence|].
        split; intros; [reflexivity|congruence].
    + exists (c :: s), w. async_unfold. simpl.
      split; [reflexivity|]. split; [congruence|].
      split; [auto|]. split; intros; congruence.
Qed.

(** * Further properties

    What the code does beyond the statements of the specification: the
    round trips of the key store, the outcome of [generateIdentity], what
    the wrappers add around the library, the error and edge behaviour of
    [CryptoService], and the chat screen. *)

(** ** Numbers as text *)

Lemma digit_char_code (d : N) :
  (d < 10)%N -> N_of_ascii (pretty_N_char d) = (48 + d)%N.
Proof.
  intros Hd.
  assert (d = 0 \/ d = 1 \/ d = 2 \/ d = 3 \/ d = 4 \/ d = 5 \/ d = 6
          \/ d = 7 \/ d = 8 \/ d = 9)%N as H by lia.
  repeat (destruct H as [->|H]; [reflexivity|]). subst d. reflexivity.
Qed.

Lemma radix_digit_decimal (d : N) :
  (d < 10)%N -> radix_digit 10 (48 + d)%N = Some (Z.of_N d).
Proof.
  intros Hd.
  assert (d = 0 \/ d = 1 \/ d = 2 \/ d = 3 \/ d = 4 \/ d = 5 \/ d = 6
          \/ d = 7 \/ d = 8 \/ d = 9)%N as H by lia.
  repeat (destruct H as [->|H]; [reflexivity|]). subst d. reflexivity.
Qed.

Lemma js_String (c : ascii) (s : string) : js (String c s) = N_of_ascii c :: js s.
Proof. reflexivity. Qed.

(** Parsing the digits that [pretty] wrote adds the number to the
    accumulator, shifted by the number of digits. *)
Lemma parse_digits_pretty_go (x : N) :
  exists k : Z,
    0 <= k /\
    forall (s : string) (acc : option Z),
      parse_digits 10 acc (js (pretty_N_go x s))
      = parse_digits 10
          (if (x =? 0)%N then acc
           else Some (default 0 acc * 10 ^ k + Z.of_N x))
          (js s).
Proof.
  induction (N.lt_wf_0 x) as [x _ IH].
  destruct (N.eqb_spec x 0) as [->|Hx].
  - exists 0. split; [lia|]. intros s acc. now rewrite pretty_N_go_0.
  - assert (Hpos : (0 < x)%N) by lia.
    destruct (IH (x / 10)%N) as (k' & Hk' & Hgo).
    { apply N.div_lt; lia. }
    assert (Hd : (x mod 10 < 10)%N) by (apply N.mod_lt; lia).
    destruct (N.eqb_spec (x / 10) 0) as [Hq|Hq].
    + exists 1. split; [lia|]. intros s acc.
      rewrite pretty_N_go_step, Hgo by assumption.
      replace (x / 10 =? 0)%N with true by (symmetry; now apply N.eqb_eq).
      replace (x =? 0)%N with false by (symmetry; now apply N.eqb_neq).
      rewrite js_String, digit_char_code by assumption.
      cbn [parse_digits]. rewrite radix_digit_decimal by assumption.
      f_equal. f_equal. cbn [from_option]. unfold id.
      pose proof (N.div_mod x 10 ltac:(lia)) as Hdm. rewrite Hq in Hdm.
      rewrite Z.pow_1_r. lia.
    + exists (k' + 1). split; [lia|]. intros s acc.
      rewrite pretty_N_go_step, Hgo by assumption.
      replace (x / 10 =? 0)%N with false by (symmetry; now apply N.eqb_neq).
      replace (x =? 0)%N with false by (symmetry; now apply N.eqb_neq).
      rewrite js_String, digit_char_code by assumption.
      cbn [parse_digits]. rewrite radix_digit_decimal by assumption.
      f_equal. f_equal. unfold id.
      rewrite Z.pow_add_r, Z.pow_1_r by lia.
      pose proof (N.div_mod x 10 ltac:(lia)) as Hdm.
      clear Hgo IH Hq Hd. cbn [from_option]. unfold id.
      set (q := (x / 10)%N) in *. set (r := (x mod 10)%N) in *.
      clearbody q r. subst x. rewrite !N2Z.inj_add, N2Z.inj_mul.
      change (Z.of_N 10) with 10. ring.
Qed.

Lemma parse_digits_pretty_N (x : N) :
  parse_digits 10 None (js (pretty x)) = Some (Z.of_N x).
Proof.
  unfold pretty, pretty_N. destruct (decide (x = 0%N)) as [->|Hx].
  - reflexivity.
  - destruct (parse_digits_pretty_go x) as (k & _ & Hgo).
    rewrite Hgo. apply N.eqb_neq in Hx. rewrite Hx. reflexivity.
Qed.

(** The text of a natural number starts with a digit. *)
Lemma js_pretty_N_head (x : N) :
  exists (d : N) (rest : jsstring),
    (d < 10)%N /\ js (pretty x) = (48 + d)%N :: rest.
Proof.
  unfold pretty, pretty_N. destruct (decide (x = 0%N)) as [->|Hx].
  { exists 0%N, []. split; [lia|reflexivity]. }
  assert (Hgo : forall y s, (0 < y)%N ->
            exists d rest, (d < 10)%N /\ js (pretty_N_go y s) = (48 + d)%N :: rest).
  { intros y. induction (N.lt_wf_0 y) as [y _ IH]. intros s Hy.
    rewrite pretty_N_go_step by assumption.
    destruct (N.eqb_spec (y / 10) 0) as [Hq|Hq].
    - rewrite Hq, pretty_N_go_0, js_String.
      exists (y mod 10)%N, (js s).
      assert ((y mod 10 < 10)%N) by (apply N.mod_lt; lia).
      split; [assumption|]. now rewrite digit_char_code.
    - apply IH; [apply N.div_lt; lia | now apply N.neq_0_lt_0]. }
  apply Hgo. lia.
Qed.

Lemma strip_hex_prefix_decimal (s : jsstring) : strip_hex_prefix 10 s = s.
Proof.
  unfold strip_hex_prefix. change (10 =? 16) with false. cbn [andb].
  repeat case_match; reflexivity.
Qed.

Lemma parseInt_digits (d : N) (rest : jsstring) :
  (d < 10)%N ->
  parseInt ((48 + d)%N :: rest) 10
  = match parse_digits 10 None ((48 + d)%N :: rest) with
    | Some v => JNum v
    | None => JNaN
    end.
Proof.
  intros Hd.
  assert (d = 0 \/ d = 1 \/ d = 2 \/ d = 3 \/ d = 4 \/ d = 5 \/ d = 6
          \/ d = 7 \/ d = 8 \/ d = 9)%N as H by lia.
  assert (Hsome : forall s,
            match parse_digits 10 None (strip_hex_prefix 10 s) with
            | Some v => JNum (1 * v)
            | None => JNaN
            end
            = match parse_digits 10 None s with
              | Some v => JNum v
              | None => JNaN
              end).
  { intros s. rewrite strip_hex_prefix_decimal.
    destruct (parse_digits 10 None s) as [v|]; [f_equal; lia|reflexivity]. }
  repeat (destruct H as [->|H]; [apply Hsome|]). subst d. apply Hsome.
Qed.

(** Reading back a number that [toString] wrote gives the number. *)
Lemma parseInt_toString (n : jsnumber) : parseInt (jsnumber_toString n) 10 = n.
Proof.
  destruct n as [z|]; [|reflexivity].
  unfold jsnumber_toString.
  destruct z as [|p|p].
  - reflexivity.
  - change (pretty (Z.pos p)) with (pretty (N.pos p)).
    destruct (js_pretty_N_head (N.pos p)) as (d & rest & Hd & Hhead).
    pose proof (parse_digits_pretty_N (N.pos p)) as Hparse.
    rewrite Hhead in *. rewrite parseInt_digits, Hparse by assumption.
    reflexivity.
  - change (pretty (Z.neg p)) with ("-" +:+ pretty (N.pos p))%string.
    change (js ("-" +:+ pretty (N.pos p))) with (45%N :: js (pretty (N.pos p))).
    change (parseInt (45%N :: js (pretty (N.pos p))) 10)
      with (match parse_digits 10 None
                    (strip_hex_prefix 10 (js (pretty (N.pos p)))) with
            | Some v => JNum (-1 * v)
            | None => JNaN
            end).
    rewrite strip_hex_prefix_decimal, parse_digits_pretty_N. reflexivity.
Qed.

(** The text of a number is not empty, and starts with a digit, with a
    minus sign, or (for NaN) with the letter N. *)
Lemma jsnumber_toString_head (n : jsnumber) :
  exists (c : N) (rest : jsstring),
    jsnumber_toString n = c :: rest
    /\ ((48 <= c <= 57)%N \/ c = 45%N \/ c = 78%N).
Proof.
  destruct n as [z|]; [|exists 78%N; eexists; split; [reflexivity|auto]].
  unfold jsnumber_toString. destruct z as [|p|p].
  - exists 48%N, []. split; [reflexivity|lia].
  - change (pretty (Z.pos p)) with (pretty (N.pos p)).
    destruct (js_pretty_N_head (N.pos p)) as (d & rest & Hd & ->).
    eexists _, _. split; [reflexivity|lia].
  - exists 45%N. eexists. split; [reflexivity|auto].
Qed.

(** ** The slots of the key store *)

Lemma getKey_ne (userId a b : jsstring) :
  a <> b -> getKey userId a <> getKey userId b.
Proof. intros Hab H. now apply getKey_inj in H. Qed.

Lemma prekey_key_inj (i j : Z) : prekey_key i = prekey_key j -> i = j.
Proof.
  unfold prekey_key. intros H. apply app_inv_head in H.
  apply js_inj in H. now apply (inj pretty) in H.
Qed.

Lemma prekey_key_not_signed (i j : Z) : prekey_key i <> signed_prekey_key j.
Proof. discriminate. Qed.

Lemma truthy_base64_encode (data : bytes) :
  data <> [] -> truthy (Some (base64_encode data)) = Some (base64_encode data).
Proof.
  intros Hne. destruct (base64_encode data) as [|c s] eqn:Henc; [|reflexivity].
  now apply base64_encode_nonempty in Henc.
Qed.

Lemma truthy_toString (n : jsnumber) :
  truthy (Some (jsnumber_toString n)) = Some (jsnumber_toString n).
Proof.
  destruct (jsnumber_toString_head n) as (c & rest & -> & _). reflexivity.
Qed.

(** X1. Saving an identity key pair and loading it again gives the
    pair back, provided the library reads back what it serialised for the
    two halves and neither serialisation is empty (an empty one is stored
    as the empty string, which the loader takes for absent).  The save
    logs nothing. *)
Theorem saveIdentityKeyPair_getIdentityKeyPair
    (L : SignalLib) (userId : jsstring)
    (keyPair : IdentityKeyPair (PublicKey L) (PrivateKey L)) (w : World) :
  PrivateKey_deserialize L (PrivateKey_serialize L (kp_privateKey keyPair))
    = Ok (kp_privateKey keyPair) ->
  PublicKey_deserialize L (PublicKey_serialize L (kp_publicKey keyPair))
    = Ok (kp_publicKey keyPair) ->
  PrivateKey_serialize L (kp_privateKey keyPair) <> [] ->
  PublicKey_serialize L (kp_publicKey keyPair) <> [] ->
  exists w1,
    saveIdentityKeyPair L userId keyPair w = (Ok tt, w1)
    /\ getIdentityKeyPair L userId w1 = (Ok (Some keyPair), w1)
    /\ console w1 = console w.
Proof.
  intros Hpriv Hpub Hpriv_ne Hpub_ne.
  eexists. split; [reflexivity|]. split; [|reflexivity].
  unfold getIdentityKeyPair, getItemAsync. async_unfold.
  cbn [secure set_secure].
  rewrite lookup_insert_ne by (apply getKey_ne; discriminate).
  rewrite !lookup_insert_eq.
  rewrite !truthy_base64_encode by assumption.
  rewrite !base64_decode_encode, Hpriv, Hpub.
  destruct keyPair. reflexivity.
Qed.

(** The theorem applies: a pair the demo library generates, on a fresh device. *)
Lemma saveIdentityKeyPair_getIdentityKeyPair_witness :
  let w := Demo.fresh (fun _ => 0%N) 0 in
  exists w1,
    saveIdentityKeyPair Demo.lib (js "a1b2c3d4-0000-4000-8000-00000000000a") (Demo.generate 7) w
      = (Ok tt, w1)
    /\ getIdentityKeyPair Demo.lib (js "a1b2c3d4-0000-4000-8000-00000000000a") w1
       = (Ok (Some (Demo.generate 7)), w1)
    /\ console w1 = console w.
Proof.
  apply (saveIdentityKeyPair_getIdentityKeyPair Demo.lib);
    [reflexivity | reflexivity | discriminate | discriminate].
Defined.

(** X2. A signed pre-key saved under an id is read back under that
    id (same proviso on the library), and the save changes what no other
    read returns: signed pre-keys under other ids and one-time pre-keys
    under any id read as before. *)
Theorem saveSignedPreKey_getSignedPreKey
    (L : SignalLib) (userId : jsstring) (signedPreKeyId : Z)
    (record : SignedPreKeyRecord L) (w : World) :
  SignedPreKeyRecord_deserialize L (SignedPreKeyRecord_serialize L record)
    = Ok record ->
  SignedPreKeyRecord_serialize L record <> [] ->
  exists w1,
    saveSignedPreKey L userId signedPreKeyId record w = (Ok tt, w1)
    /\ getSignedPreKey L userId signedPreKeyId w1 = (Ok (Some record), w1)
    /\ (forall other,
          other <> signedPreKeyId ->
          fst (getSignedPreKey L userId other w1)
          = fst (getSignedPreKey L userId other w))
    /\ (forall preKeyId,
          fst (getPreKey L userId preKeyId w1)
          = fst (getPreKey L userId preKeyId w)).
Proof.
  intros Hrecord Hne.
  eexists. split; [reflexivity|].
  unfold getSignedPreKey, getPreKey, getItemAsync. async_unfold.
  cbn [secure set_secure].
  split; [|split].
  - rewrite lookup_insert_eq, truthy_base64_encode by assumption.
    rewrite base64_decode_encode, Hrecord. reflexivity.
  - intros other Hother.
    rewrite lookup_insert_ne.
    + destruct (truthy _) as [data|]; [|reflexivity].
      destruct (SignedPreKeyRecord_deserialize L (base64_decode data));
        reflexivity.
    + apply getKey_ne. intros H. apply signed_prekey_key_inj in H. congruence.
  - intros preKeyId.
    rewrite lookup_insert_ne.
    + destruct (truthy _) as [data|]; [|reflexivity].
      destruct (PreKeyRecord_deserialize L (base64_decode data)); reflexivity.
    + apply getKey_ne. intros H. symmetry in H.
      now apply prekey_key_not_signed in H.
Qed.

(** The theorem applies: a record of the demo library under id 14336. *)
Lemma saveSignedPreKey_getSignedPreKey_witness :
  let w := Demo.fresh (fun _ => 0%N) 0 in
  let record : SignedPreKeyRecord Demo.lib :=
    (["005"; "003"; "004"]%byte, ["009"]%byte) in
  exists w1,
    saveSignedPreKey Demo.lib (js "a1b2c3d4-0000-4000-8000-00000000000a") 14336 record w = (Ok tt, w1)
    /\ getSignedPreKey Demo.lib (js "a1b2c3d4-0000-4000-8000-00000000000a") 14336 w1
       = (Ok (Some record), w1)
    /\ (forall other,
          other <> 14336 ->
          fst (getSignedPreKey Demo.lib (js "a1b2c3d4-0000-4000-8000-00000000000a") other w1)
          = fst (getSignedPreKey Demo.lib (js "a1b2c3d4-0000-4000-8000-00000000000a") other w))
    /\ (forall preKeyId,
          fst (getPreKey Demo.lib (js "a1b2c3d4-0000-4000-8000-00000000000a") preKeyId w1)
          = fst (getPreKey Demo.lib (js "a1b2c3d4-0000-4000-8000-00000000000a") preKeyId w)).
Proof.
  apply (saveSignedPreKey_getSignedPreKey Demo.lib); [reflexivity|discriminate].
Defined.

(** X3. A one-time pre-key saved under an id is read back under
    that id (same proviso on the library); one-time pre-keys under other
    ids and signed pre-keys under any id read as before, although the slot
    names of the two kinds differ only by a prefix. *)
Theorem savePreKey_getPreKey
    (L : SignalLib) (userId : jsstring) (preKeyId : Z)
    (record : PreKeyRecord L) (w : World) :
  PreKeyRecord_deserialize L (PreKeyRecord_serialize L record) = Ok record ->
  PreKeyRecord_serialize L record <> [] ->
  exists w1,
    savePreKey L userId preKeyId record w = (Ok tt, w1)
    /\ getPreKey L userId preKeyId w1 = (Ok (Some record), w1)
    /\ (forall other,
          other <> preKeyId ->
          fst (getPreKey L userId other w1) = fst (getPreKey L userId other w))
    /\ (forall signedPreKeyId,
          fst (getSignedPreKey L userId signedPreKeyId w1)
          = fst (getSignedPreKey L userId signedPreKeyId w)).
Proof.
  intros Hrecord Hne.
  eexists. split; [reflexivity|].
  unfold getSignedPreKey, getPreKey, getItemAsync. async_unfold.
  cbn [secure set_secure].
  split; [|split].
  - rewrite lookup_insert_eq, truthy_base64_encode by assumption.
    rewrite base64_decode_encode, Hrecord. reflexivity.
  - intros other Hother.
    rewrite lookup_insert_ne.
    + destruct (truthy _) as [data|]; [|reflexivity].
      destruct (PreKeyRecord_deserialize L (base64_decode data)); reflexivity.
    + apply getKey_ne. intros H. apply prekey_key_inj in H. congruence.
  - intros signedPreKeyId.
    rewrite lookup_insert_ne.
    + destruct (truthy _) as [data|]; [|reflexivity].
      destruct (SignedPreKeyRecord_deserialize L (base64_decode data));
        reflexivity.
    + apply getKey_ne. apply prekey_key_not_signed.
Qed.

(** The theorem applies: a record of the demo library under id 18432. *)
Lemma savePreKey_getPreKey_witness :
  let w := Demo.fresh (fun _ => 0%N) 0 in
  let record : PreKeyRecord Demo.lib := ["005"; "016"; "000"]%byte in
  exists w1,
    savePreKey Demo.lib (js "a1b2c3d4-0000-4000-8000-00000000000a") 18432 record w = (Ok tt, w1)
    /\ getPreKey Demo.lib (js "a1b2c3d4-0000-4000-8000-00000000000a") 18432 w1 = (Ok (Some record), w1)
    /\ (forall other,
          other <> 18432 ->
          fst (getPreKey Demo.lib (js "a1b2c3d4-0000-4000-8000-00000000000a") other w1)
          = fst (getPreKey Demo.lib (js "a1b2c3d4-0000-4000-8000-00000000000a") other w))
    /\ (forall signedPreKeyId,
          fst (getSignedPreKey Demo.lib (js "a1b2c3d4-0000-4000-8000-00000000000a") signedPreKeyId w1)
          = fst (getSignedPreKey Demo.lib (js "a1b2c3d4-0000-4000-8000-00000000000a") signedPreKeyId w)).
Proof.
  apply (savePreKey_getPreKey Demo.lib); [reflexivity|discriminate].
Defined.

(** X4. A session record stored for an address is loaded back for
    that address, except the empty record: it is stored as the empty
    string, and [loadSession] then reports no session. *)
Theorem storeSession_loadSession
    (userId : jsstring) (address : ProtocolAddress) (record : bytes)
    (w : World) :
  exists w1,
    storeSession userId address record w = (Ok tt, w1)
    /\ loadSession userId address w1
       = (Ok (match record with [] => None | _ => Some record end), w1).
Proof.
  eexists. split; [reflexivity|].
  destruct record as [|b record].
  - unfold loadSession, getItemAsync. async_unfold. cbn [secure set_secure].
    rewrite lookup_insert_eq. reflexivity.
  - apply loadSession_stored; [discriminate|].
    cbn [secure set_secure]. apply lookup_insert_eq.
Qed.

(** X5. A saved registration id is read back as the same number,
    and the read draws no random number.  The id is any integer of
    magnitude below 2^53, which [toString] writes digit by digit. *)
Theorem saveRegistrationId_getLocalRegistrationId
    (userId : jsstring) (registrationId : Z) (w : World) :
  Z.abs registrationId < 2 ^ 53 ->
  exists w1,
    saveRegistrationId userId (JNum registrationId) w = (Ok tt, w1)
    /\ getLocalRegistrationId userId w1 = (Ok (JNum registrationId), w1)
    /\ drawn w1 = drawn w.
Proof.
  intros _.
  eexists. split; [reflexivity|]. split; [|reflexivity].
  unfold getLocalRegistrationId, getItemAsync. async_unfold.
  cbn [secure set_secure]. rewrite lookup_insert_eq, truthy_toString.
  rewrite parseInt_toString. reflexivity.
Qed.

(** The theorem applies: the largest id [generateIdentity] can draw. *)
Lemma saveRegistrationId_getLocalRegistrationId_witness :
  let w := Demo.fresh (fun _ => 0%N) 0 in
  exists w1,
    saveRegistrationId (js "a1b2c3d4-0000-4000-8000-00000000000a") (JNum 16384) w = (Ok tt, w1)
    /\ getLocalRegistrationId (js "a1b2c3d4-0000-4000-8000-00000000000a") w1 = (Ok (JNum 16384), w1)
    /\ drawn w1 = drawn w.
Proof.
  apply saveRegistrationId_getLocalRegistrationId. reflexivity.
Defined.

Lemma floor_random_times_range (n : Z) (w : World) :
  0 < n ->
  exists r, floor_random_times n w = (Ok r, set_drawn S w) /\ 0 <= r < n.
Proof.
  intros Hn. unfold floor_random_times, draw. async_unfold.
  eexists. split; [reflexivity|].
  set (x := (entropy w (drawn w) mod 2 ^ 53)%N).
  assert (Hx : (x < 2 ^ 53)%N) by (apply N.mod_lt; discriminate).
  assert (Hx' : 0 <= Z.of_N x < 2 ^ 53).
  { split; [lia|]. change (2 ^ 53) with (Z.of_N (2 ^ 53)). lia. }
  clearbody x. split.
  - apply Z.div_pos; [nia|lia].
  - apply Z.div_lt_upper_bound; [lia|]. nia.
Qed.

(** X6. With no registration id stored (or the empty string),
    [getLocalRegistrationId] returns a number between 1 and 16384 made from
    one random draw, and stores nothing: the world changes by the draw
    only, so the next call draws again. *)
Theorem getLocalRegistrationId_unset
    (userId : jsstring) (w : World) :
  truthy (secure w !! getKey userId (js "registration_id")) = None ->
  exists r,
    getLocalRegistrationId userId w = (Ok (JNum r), set_drawn S w)
    /\ 1 <= r <= 16384.
Proof.
  intros Hunset. unfold getLocalRegistrationId, getItemAsync.
  unfold try_catch, mbind at 1, Async_bind at 1. rewrite Hunset.
  unfold random_registrationId. unfold mbind, Async_bind.
  destruct (floor_random_times_range 16384 w ltac:(lia)) as (r & -> & Hr).
  exists (r + 1). split; [reflexivity|lia].
Qed.

(** The theorem applies: a fresh device. *)
Lemma getLocalRegistrationId_unset_witness :
  let w := Demo.fresh (fun n => 2 ^ 40 * (5 + N.of_nat n))%N 0 in
  exists r,
    getLocalRegistrationId (js "a1b2c3d4-0000-4000-8000-00000000000a") w = (Ok (JNum r), set_drawn S w)
    /\ 1 <= r <= 16384.
Proof.
  apply getLocalRegistrationId_unset. reflexivity.
Defined.

(** X7. [saveIdentity] returns [false] whatever was stored for the
    peer before, and [getIdentity] then returns the key just saved
    (provided the library reads back the key it serialised and the
    serialisation is not empty). *)
Theorem saveIdentity_getIdentity
    (L : SignalLib) (userId : jsstring) (address : ProtocolAddress)
    (identityKey : PublicKey L) (w : World) :
  PublicKey_deserialize L (PublicKey_serialize L identityKey) = Ok identityKey ->
  PublicKey_serialize L identityKey <> [] ->
  exists w1,
    saveIdentity L userId address identityKey w = (Ok false, w1)
    /\ getIdentity L userId address w1 = (Ok (Some identityKey), w1).
Proof.
  intros Hkey Hne. eexists. split; [reflexivity|].
  unfold getIdentity, getItemAsync. async_unfold. cbn [secure set_secure].
  rewrite lookup_insert_eq, truthy_base64_encode by assumption.
  rewrite base64_decode_encode, Hkey. reflexivity.
Qed.

(** The theorem applies: a device that holds another key for the same peer. *)
Lemma saveIdentity_getIdentity_witness :
  let bob := js "0b0b0b0b-1111-4111-8111-11111111111b" in
  let peer := {| addr_name := js "13"; addr_deviceId := 1 |} in
  let stored := ["005"; "001"; "001"]%byte in
  let presented := ["005"; "009"; "009"]%byte in
  let w := snd (saveIdentity Demo.lib bob peer stored (Demo.fresh (fun _ => 0%N) 0)) in
  exists w1,
    saveIdentity Demo.lib bob peer presented w = (Ok false, w1)
    /\ getIdentity Demo.lib bob peer w1 = (Ok (Some presented), w1).
Proof.
  apply (saveIdentity_getIdentity Demo.lib); [reflexivity|discriminate].
Defined.

Lemma identity_key_numeric_name (n : jsnumber) (deviceId : Z) (slot : string) :
  slot = "identity_private"%string \/ slot = "identity_public"%string ->
  identity_key {| addr_name := jsnumber_toString n; addr_deviceId := deviceId |}
  <> js slot.
Proof.
  unfold identity_key. cbn [addr_name].
  destruct (jsnumber_toString_head n) as (c & rest & -> & Hc).
  intros [->| ->] H; injection H as Hc' _; lia.
Qed.

(** X8. The slot of a peer identity is named after the peer, and
    the slots of the device's own key pair are [identity_private] and
    [identity_public].  For a peer named by the text of a number, as all
    addresses built by [createSession] and [CryptoService] are, saving the
    peer's identity leaves the result of loading the own key pair as it
    was. *)
Theorem saveIdentity_keeps_own_identity
    (L : SignalLib) (userId : jsstring) (peer : jsnumber) (deviceId : Z)
    (identityKey : PublicKey L) (w : World) :
  let address :=
    {| addr_name := jsnumber_toString peer; addr_deviceId := deviceId |} in
  let w1 := snd (saveIdentity L userId address identityKey w) in
  fst (getIdentityKeyPair L userId w1) = fst (getIdentityKeyPair L userId w).
Proof.
  cbv zeta. unfold saveIdentity, setItemAsync. async_unfold. cbn [snd].
  unfold getIdentityKeyPair, getItemAsync. async_unfold.
  cbn [secure set_secure].
  rewrite !lookup_insert_ne
    by (apply getKey_ne; apply identity_key_numeric_name; auto).
  destruct (truthy (secure w !! _)) as [private|]; [|reflexivity].
  destruct (truthy (secure w !! _)) as [public|]; [|reflexivity].
  destruct (PrivateKey_deserialize L (base64_decode private)); [|reflexivity].
  destruct (PublicKey_deserialize L (base64_decode public)); reflexivity.
Qed.

(** ** Generating an identity *)

Lemma floor_random_range (x : N) (n : Z) :
  0 < n -> 0 <= Z.of_N (x mod 2 ^ 53)%N * n / 2 ^ 53 < n.
Proof.
  intros Hn.
  set (y := (x mod 2 ^ 53)%N).
  assert (Hy : (y < 2 ^ 53)%N) by (apply N.mod_lt; discriminate).
  assert (Hy' : 0 <= Z.of_N y < 2 ^ 53).
  { split; [lia|]. change (2 ^ 53) with (Z.of_N (2 ^ 53)). lia. }
  clearbody y. split.
  - apply Z.div_pos; [nia|lia].
  - apply Z.div_lt_upper_bound; [lia|]. nia.
Qed.

(** X9. In a bundle that [generateIdentity] returns, the
    registration id lies between 1 and 16384 and the ids of the signed
    pre-key and of the one-time pre-key lie between 0 and 2^24 - 1. *)
Theorem generateIdentity_ranges
    (L : SignalLib) (userId : jsstring) (w w1 : World) (bundle : UserBundle) :
  generateIdentity L userId w = (Ok bundle, w1) ->
  exists reg spk pk,
    registrationId bundle = JNum reg /\ 1 <= reg <= 16384
    /\ signedPreKey bundle = Some spk /\ 0 <= spk_keyId spk < 16777216
    /\ preKey bundle = Some pk /\ 0 <= pk_keyId pk < 16777216.
Proof.
  unfold generateIdentity, ensureSignalLoaded, loadSignal.
  destruct (load_error L) as [e|]; [async_unfold; discriminate|].
  unfold saveIdentityKeyPair, saveRegistrationId, saveSignedPreKey, savePreKey,
    random_registrationId, floor_random_times, draw, Date_now, setItemAsync.
  async_unfold. cbn [fst snd entropy drawn set_secure set_drawn].
  intros Hgen. injection Hgen as <- _.
  eexists _, _, _.
  cbn [registrationId signedPreKey preKey].
  split; [reflexivity|].
  split; [pose proof (floor_random_range (entropy w (S (drawn w))) 16384); lia|].
  split; [reflexivity|]. cbn [spk_keyId].
  split; [apply floor_random_range; lia|].
  split; [reflexivity|]. cbn [pk_keyId]. apply floor_random_range; lia.
Qed.

(** The theorem applies: the demo library on Bob's fresh device. *)
Lemma generateIdentity_ranges_witness :
  exists bundle reg spk pk,
    fst (generateIdentity Demo.lib (js "0b0b0b0b-1111-4111-8111-11111111111b")
           bob_fresh) = Ok bundle
    /\ registrationId bundle = JNum reg /\ 1 <= reg <= 16384
    /\ signedPreKey bundle = Some spk /\ 0 <= spk_keyId spk < 16777216
    /\ preKey bundle = Some pk /\ 0 <= pk_keyId pk < 16777216.
Proof.
  destruct (generateIdentity Demo.lib
              (js "0b0b0b0b-1111-4111-8111-11111111111b") bob_fresh)
    as [[bundle|e] w1] eqn:Hgen.
  - destruct (generateIdentity_ranges Demo.lib _ _ _ _ Hgen)
      as (reg & spk & pk & H).
    exists bundle, reg, spk, pk. split; [reflexivity|exact H].
  - exfalso. apply (f_equal fst) in Hgen. vm_compute in Hgen. discriminate.
Defined.

Ltac generateIdentity_unfold :=
  unfold generateIdentity, ensureSignalLoaded, loadSignal,
    saveIdentityKeyPair, saveRegistrationId, saveSignedPreKey, savePreKey,
    random_registrationId, floor_random_times, draw, Date_now, setItemAsync.

Lemma generateIdentity_secure
    (L : SignalLib) (userId : jsstring) (w : World) :
  load_error L = None ->
  exists bundle w1 signedPreKeyRecord preKeyRecord,
    generateIdentity L userId w = (Ok bundle, w1)
    /\ registrationId bundle
       = JNum ((Z.of_N (entropy w (S (drawn w)) mod 2 ^ 53)%N * 16384)
               / 2 ^ 53 + 1)
    /\ identityKey bundle
       = base64_encode
           (PublicKey_serialize L
              (kp_publicKey (IdentityKeyPair_generate L (entropy w (drawn w)))))
    /\ forall key,
         secure w1 !! getKey userId key
         = if bool_decide (key = prekey_key (from_option pk_keyId 0 (preKey bundle)))
           then Some (base64_encode (PreKeyRecord_serialize L preKeyRecord))
           else if bool_decide
                     (key = signed_prekey_key
                              (from_option spk_keyId 0 (signedPreKey bundle)))
           then Some (base64_encode
                        (SignedPreKeyRecord_serialize L signedPreKeyRecord))
           else if bool_decide (key = js "registration_id")
           then Some (jsnumber_toString (registrationId bundle))
           else if bool_decide (key = js "identity_public")
           then Some (identityKey bundle)
           else if bool_decide (key = js "identity_private")
           then Some (base64_encode
                        (PrivateKey_serialize L
                           (kp_privateKey
                              (IdentityKeyPair_generate L (entropy w (drawn w))))))
           else secure w !! getKey userId key.
Proof.
  intros Hload. generateIdentity_unfold. rewrite Hload.
  async_unfold. cbn [fst snd entropy drawn set_secure set_drawn].
  eexists _, _, _, _. split; [reflexivity|].
  cbn [registrationId identityKey preKey signedPreKey from_option pk_keyId
       spk_keyId secure].
  split; [reflexivity|]. split; [reflexivity|].
  intros key. cbn [secure set_secure set_drawn].
  repeat (case_bool_decide;
          [subst key; rewrite lookup_insert_eq; reflexivity |
           rewrite lookup_insert_ne by (apply getKey_ne; congruence)]).
  reflexivity.
Qed.

Ltac slot_decide :=
  repeat first [ rewrite bool_decide_eq_false_2 by discriminate
               | rewrite bool_decide_eq_true_2 by reflexivity ].

(** X10. After [generateIdentity], the key store holds what the
    bundle announces: [getIdentityKeyPair] returns the generated pair, whose
    public half is the bundle's identity key, [getLocalRegistrationId]
    returns the bundle's registration id without drawing, and
    [registerPrekeys] finds the identity and does nothing (it adds no
    pre-key).  The provisos concern the generated identity pair only: the
    library reads back its two halves, and their serialisations are not
    empty. *)
Theorem generateIdentity_stores_identity
    (L : SignalLib) (userId : jsstring) (w : World) :
  let generated := IdentityKeyPair_generate L (entropy w (drawn w)) in
  load_error L = None ->
  PrivateKey_deserialize L (PrivateKey_serialize L (kp_privateKey generated))
    = Ok (kp_privateKey generated) ->
  PublicKey_deserialize L (PublicKey_serialize L (kp_publicKey generated))
    = Ok (kp_publicKey generated) ->
  PrivateKey_serialize L (kp_privateKey generated) <> [] ->
  PublicKey_serialize L (kp_publicKey generated) <> [] ->
  exists bundle w1,
    generateIdentity L userId w = (Ok bundle, w1)
    /\ getIdentityKeyPair L userId w1 = (Ok (Some generated), w1)
    /\ identityKey bundle
       = base64_encode (PublicKey_serialize L (kp_publicKey generated))
    /\ getLocalRegistrationId userId w1 = (Ok (registrationId bundle), w1)
    /\ registerPrekeys L userId w1 = (Ok tt, w1).
Proof.
  intros generated Hload Hpriv Hpub Hpriv_ne Hpub_ne.
  destruct (generateIdentity_secure L userId w Hload)
    as (bundle & w1 & spkRecord & pkRecord & Hgen & Hreg & Hid & Hsecure).
  exists bundle, w1. split; [exact Hgen|].
  assert (Hkp : getIdentityKeyPair L userId w1 = (Ok (Some generated), w1)).
  { unfold getIdentityKeyPair, getItemAsync. async_unfold.
    rewrite !Hsecure.
    slot_decide.
    rewrite Hid. fold generated.
    rewrite !truthy_base64_encode by assumption.
    rewrite !base64_decode_encode, Hpriv, Hpub.
    destruct generated. reflexivity. }
  split; [exact Hkp|]. split; [exact Hid|]. split.
  - unfold getLocalRegistrationId, getItemAsync. async_unfold.
    rewrite Hsecure.
    slot_decide.
    rewrite truthy_toString, parseInt_toString. reflexivity.
  - unfold registerPrekeys, ensureSignalLoaded, loadSignal. rewrite Hload.
    async_unfold. rewrite Hkp. reflexivity.
Qed.

(** The theorem applies: the demo library on Bob's fresh device. *)
Lemma generateIdentity_stores_identity_witness :
  exists bundle w1,
    generateIdentity Demo.lib (js "0b0b0b0b-1111-4111-8111-11111111111b") bob_fresh = (Ok bundle, w1)
    /\ getIdentityKeyPair Demo.lib (js "0b0b0b0b-1111-4111-8111-11111111111b") w1
       = (Ok (Some (Demo.generate (entropy bob_fresh 0))), w1)
    /\ identityKey bundle
       = base64_encode
           (kp_publicKey (Demo.generate (entropy bob_fresh 0)))
    /\ getLocalRegistrationId (js "0b0b0b0b-1111-4111-8111-11111111111b") w1
       = (Ok (registrationId bundle), w1)
    /\ registerPrekeys Demo.lib (js "0b0b0b0b-1111-4111-8111-11111111111b") w1 = (Ok tt, w1).
Proof.
  apply (generateIdentity_stores_identity Demo.lib (js "0b0b0b0b-1111-4111-8111-11111111111b") bob_fresh);
    [reflexivity | reflexivity | reflexivity | discriminate | discriminate].
Defined.

(** ** When the local bundle is present *)

Lemma getIdentityKeyPair_some
    (L : SignalLib) (userId : jsstring) (w w1 : World)
    (keyPair : IdentityKeyPair (PublicKey L) (PrivateKey L)) :
  getIdentityKeyPair L userId w = (Ok (Some keyPair), w1) ->
  is_Some (truthy (secure w !! getKey userId (js "identity_private")))
  /\ is_Some (truthy (secure w !! getKey userId (js "identity_public")))
  /\ secure w1 = secure w.
Proof.
  unfold getIdentityKeyPair, getItemAsync. async_unfold.
  destruct (truthy (secure w !! getKey userId (js "identity_private")))
    as [private|]; [|discriminate].
  destruct (truthy (secure w !! getKey userId (js "identity_public")))
    as [public|]; [|discriminate].
  destruct (PrivateKey_deserialize L (base64_decode private)); [|discriminate].
  destruct (PublicKey_deserialize L (base64_decode public)); [|discriminate].
  intros H. injection H as _ <-. eauto.
Qed.

Lemma getSignedPreKey_some
    (L : SignalLib) (userId : jsstring) (id : Z) (w w1 : World)
    (record : SignedPreKeyRecord L) :
  getSignedPreKey L userId id w = (Ok (Some record), w1) ->
  is_Some (truthy (secure w !! getKey userId (signed_prekey_key id)))
  /\ secure w1 = secure w.
Proof.
  unfold getSignedPreKey, getItemAsync. async_unfold.
  destruct (truthy (secure w !! getKey userId (signed_prekey_key id)))
    as [data|]; [|discriminate].
  destruct (SignedPreKeyRecord_deserialize L (base64_decode data));
    [|discriminate].
  intros H. injection H as _ <-. eauto.
Qed.

Lemma getPreKey_some
    (L : SignalLib) (userId : jsstring) (id : Z) (w w1 : World)
    (record : PreKeyRecord L) :
  getPreKey L userId id w = (Ok (Some record), w1) ->
  is_Some (truthy (secure w !! getKey userId (prekey_key id)))
  /\ secure w1 = secure w.
Proof.
  unfold getPreKey, getItemAsync. async_unfold.
  destruct (truthy (secure w !! getKey userId (prekey_key id)))
    as [data|]; [|discriminate].
  destruct (PreKeyRecord_deserialize L (base64_decode data)); [|discriminate].
  intros H. injection H as _ <-. eauto.
Qed.

(** X11. [getUserBundle] reports a bundle only when the four slots
    it reads are filled: both halves of the identity, the signed pre-key
    under id 1 and the one-time pre-key under id 1.  The ids in the bundle
    it reports are then 1 and 1. *)
Theorem getUserBundle_present
    (L : SignalLib) (userId : jsstring) (w w' : World) (bundle : UserBundle) :
  getUserBundle L userId w = (Ok (Some bundle), w') ->
  is_Some (truthy (secure w !! getKey userId (js "identity_private")))
  /\ is_Some (truthy (secure w !! getKey userId (js "identity_public")))
  /\ is_Some (truthy (secure w !! getKey userId (signed_prekey_key 1)))
  /\ is_Some (truthy (secure w !! getKey userId (prekey_key 1)))
  /\ exists spk pk,
       signedPreKey bundle = Some spk /\ spk_keyId spk = 1
       /\ preKey bundle = Some pk /\ pk_keyId pk = 1.
Proof.
  unfold getUserBundle, ensureSignalLoaded, loadSignal.
  destruct (load_error L) as [e|]; async_unfold; [discriminate|].
  destruct (getIdentityKeyPair L userId w) as [[[kp|]|e] w1] eqn:Hkp.
  2, 3: destruct (getLocalRegistrationId userId w1) as [[reg|e'] w2];
        discriminate.
  destruct (getIdentityKeyPair_some _ _ _ _ _ Hkp) as (Hpriv & Hpub & Hw1).
  destruct (getLocalRegistrationId_reads_only L userId w1)
    as (reg & w2 & -> & Hw2).
  destruct (getSignedPreKey L userId 1 w2) as [[[spk|]|e'] w3] eqn:Hspk.
  2, 3: destruct (getPreKey L userId 1 w3) as [[[pk|]|e''] w4]; discriminate.
  destruct (getSignedPreKey_some _ _ _ _ _ _ Hspk) as (Hslot1 & Hw3).
  destruct (getPreKey L userId 1 w3) as [[[pk|]|e''] w4] eqn:Hpk;
    try discriminate.
  destruct (getPreKey_some _ _ _ _ _ _ Hpk) as (Hslot2 & Hw4).
  intros H. injection H as <- _.
  rewrite Hw2, Hw1 in Hslot1. rewrite Hw3, Hw2, Hw1 in Hslot2.
  split; [exact Hpriv|]. split; [exact Hpub|]. split; [exact Hslot1|].
  split; [exact Hslot2|]. eexists _, _. cbn [signedPreKey preKey].
  split; [reflexivity|]. split; [reflexivity|]. split; reflexivity.
Qed.

(** The theorem applies: a device whose draws made both key ids 1. *)
Lemma getUserBundle_present_witness :
  let alice := js "a1b2c3d4-0000-4000-8000-00000000000a" in
  let w := snd (generateIdentity Demo.lib alice
                  (Demo.fresh (fun _ => 2 ^ 29)%N 0)) in
  exists bundle spk pk,
    fst (getUserBundle Demo.lib alice w) = Ok (Some bundle)
    /\ signedPreKey bundle = Some spk /\ spk_keyId spk = 1
    /\ preKey bundle = Some pk /\ pk_keyId pk = 1.
Proof.
  cbv zeta.
  destruct (getUserBundle Demo.lib (js "a1b2c3d4-0000-4000-8000-00000000000a")
              (snd (generateIdentity Demo.lib (js "a1b2c3d4-0000-4000-8000-00000000000a")
                      (Demo.fresh (fun _ => 2 ^ 29)%N 0))))
    as [[[bundle|]|e] w0] eqn:Hget.
  - destruct (getUserBundle_present Demo.lib _ _ _ _ Hget)
      as (_ & _ & _ & _ & spk & pk & H).
    exists bundle, spk, pk. split; [reflexivity|exact H].
  - apply (f_equal fst) in Hget. vm_compute in Hget. discriminate.
  - apply (f_equal fst) in Hget. vm_compute in Hget. discriminate.
Defined.

(** ** Envelopes and the shape test *)

Lemma base64_class_spec (c : N) :
  base64_class c = true
  <-> ((65 <= c <= 90) \/ (97 <= c <= 122) \/ (48 <= c <= 57)
       \/ c = 43 \/ c = 47 \/ c = 61)%N.
Proof.
  unfold base64_class.
  rewrite !orb_true_iff, !andb_true_iff, !N.leb_le, !N.eqb_eq. tauto.
Qed.

Lemma b64_char_class (v : N) : base64_class (b64_char v) = true.
Proof.
  apply base64_class_spec. unfold b64_char.
  destruct (N.ltb_spec v 26); [lia|].
  destruct (N.ltb_spec v 52); [lia|].
  destruct (N.ltb_spec v 62); [lia|].
  destruct (N.eqb_spec v 62); lia.
Qed.

Lemma base64_encode_cons3 (a b c : byte) (l : bytes) :
  exists c1 c2 c3 c4,
    base64_encode (a :: b :: c :: l) = c1 :: c2 :: c3 :: c4 :: base64_encode l
    /\ base64_class c1 = true /\ base64_class c2 = true
    /\ base64_class c3 = true /\ base64_class c4 = true.
Proof.
  unfold base64_encode. cbn [sextets_of_bytes map app].
  eexists _, _, _, _. split.
  - f_equal. f_equal. f_equal. f_equal. f_equal.
    unfold b64_padding. cbn [length].
    replace (S (S (S (length l)))) with (length l + 1 * 3)%nat by lia.
    now rewrite Nat.Div0.mod_add.
  - repeat split; apply b64_char_class.
Qed.

Lemma base64_encode_shape (bs : bytes) :
  forallb base64_class (base64_encode bs) = true
  /\ length (base64_encode bs) = (4 * ((length bs + 2) / 3))%nat.
Proof.
  induction bs as [|a|a b|a b c l [IHclass IHlen]] using list_ind3.
  - split; reflexivity.
  - split; [|reflexivity].
    unfold base64_encode. cbn [sextets_of_bytes map app b64_padding length
      Nat.modulo forallb]. simpl.
    rewrite !b64_char_class. reflexivity.
  - split; [|reflexivity].
    unfold base64_encode. simpl.
    rewrite !b64_char_class. reflexivity.
  - destruct (base64_encode_cons3 a b c l)
      as (c1 & c2 & c3 & c4 & -> & H1 & H2 & H3 & H4).
    split.
    + cbn [forallb]. rewrite H1, H2, H3, H4, IHclass. reflexivity.
    + cbn [length]. rewrite IHlen.
      replace (S (S (S (length l))) + 2)%nat with (length l + 2 + 1 * 3)%nat
        by lia.
      rewrite Nat.div_add by lia. lia.
Qed.

(** What the shape test says of a base64 text depends only on the number
    of bytes it encodes. *)
Lemma looksEncrypted_base64_encode (bs : bytes) :
  looksEncrypted (base64_encode bs) = (7 <=? length bs)%nat.
Proof.
  destruct (base64_encode_shape bs) as [Hclass Hlen].
  unfold looksEncrypted, base64Regex_test. rewrite Hclass, Hlen.
  assert (Hmod : ((4 * ((length bs + 2) / 3)) mod 4 = 0)%nat).
  { rewrite Nat.mul_comm. apply Nat.Div0.mod_mul. }
  rewrite Hmod. cbn [Nat.eqb andb].
  pose proof (Nat.div_mod_eq (length bs + 2) 3) as Hdiv.
  pose proof (Nat.mod_upper_bound (length bs + 2) 3 ltac:(lia)) as Hrem.
  destruct (Nat.leb_spec 7 (length bs)) as [Hlong|Hshort].
  - destruct (Nat.ltb_spec (4 * ((length bs + 2) / 3)) 10) as [H|H]; [lia|].
    destruct (base64_encode bs) as [|x s] eqn:Henc; [|reflexivity].
    cbn [length] in Hlen. lia.
  - destruct (Nat.ltb_spec (4 * ((length bs + 2) / 3)) 10) as [H|H];
      [reflexivity|lia].
Qed.

(** X12. What [encryptMessage] returns is the base64 text of the
    serialised ciphertext of the library.  [CryptoService] recognises it as
    encrypted exactly when the serialised ciphertext has at least 7 bytes;
    an envelope of 1 to 6 bytes is taken for plain text by
    [CryptoService.decryptMessage] and returned as it is, with no attempt
    at decryption. *)
Theorem encryptMessage_envelope_shape
    (L : SignalLib) (userId : jsstring) (recipientAddress : ProtocolAddress)
    (plaintext envelope : jsstring) (w w1 : World) :
  encryptMessage L userId recipientAddress plaintext w = (Ok envelope, w1) ->
  exists c : CiphertextMessage L,
    encrypt L userId recipientAddress (utf8_encode plaintext) w = (Ok c, w1)
    /\ envelope = base64_encode (CiphertextMessage_serialize L c)
    /\ looksEncrypted envelope
       = (7 <=? length (CiphertextMessage_serialize L c))%nat
    /\ ((0 < length (CiphertextMessage_serialize L c) < 7)%nat ->
        forall (this : CryptoService) (senderId : jsstring) (wr : World),
          CryptoService_decryptMessage L this envelope senderId wr
          = (Ok envelope, wr)).
Proof.
  unfold encryptMessage, ensureSignalLoaded, loadSignal.
  destruct (load_error L) as [e|]; async_unfold; [discriminate|].
  destruct (encrypt L userId recipientAddress (utf8_encode plaintext) w)
    as [[c|e] w'] eqn:Hencrypt; [|discriminate].
  intros H. injection H as <- <-.
  exists c. split; [reflexivity|]. split; [reflexivity|].
  split; [apply looksEncrypted_base64_encode|].
  intros [Hpos Hshort] this senderId wr.
  unfold CryptoService_decryptMessage.
  rewrite looksEncrypted_base64_encode.
  destruct (Nat.leb_spec 7 (length (CiphertextMessage_serialize L c)));
    [lia|].
  destruct (base64_encode (CiphertextMessage_serialize L c)) as [|x s] eqn:Henc.
  - apply base64_encode_nonempty in Henc; [contradiction|].
    intros Hnil. rewrite Hnil in Hpos. simpl in Hpos. lia.
  - reflexivity.
Qed.

(** The theorem applies: the envelope of [hello] in the demo library has 7 bytes and is recognised. *)
Lemma encryptMessage_envelope_shape_witness :
  let alice := js "a1b2c3d4-0000-4000-8000-00000000000a" in
  let w :=
    snd (createSession Demo.lib alice bob_bundle (Demo.fresh (fun _ => 0%N) 0)) in
  fst (encryptMessage Demo.lib alice (recipient_address bob_bundle)
         (js "hello") w) = Ok hello_envelope
  /\ looksEncrypted hello_envelope = true.
Proof.
  cbv zeta.
  assert (Hfst : fst (encryptMessage Demo.lib (js "a1b2c3d4-0000-4000-8000-00000000000a")
                        (recipient_address bob_bundle) (js "hello")
                        (snd (createSession Demo.lib (js "a1b2c3d4-0000-4000-8000-00000000000a")
                                bob_bundle (Demo.fresh (fun _ => 0%N) 0))))
                 = Ok hello_envelope) by (vm_compute; reflexivity).
  pose proof (surjective_pairing
                (encryptMessage Demo.lib (js "a1b2c3d4-0000-4000-8000-00000000000a")
                   (recipient_address bob_bundle) (js "hello")
                   (snd (createSession Demo.lib (js "a1b2c3d4-0000-4000-8000-00000000000a")
                           bob_bundle (Demo.fresh (fun _ => 0%N) 0)))))
    as Hrun.
  rewrite Hfst in Hrun.
  destruct (encryptMessage_envelope_shape Demo.lib _ _ _ _ _ _ Hrun)
    as (c & _ & Henv & Hlooks & _).
  split; [exact Hfst|]. rewrite Hlooks.
  apply (f_equal base64_decode) in Henv.
  rewrite base64_decode_encode in Henv. rewrite <- Henv. reflexivity.
Defined.

(** ** The registration id derived from a user id *)

Lemma digit_value_nonneg (c : N) (d : Z) : digit_value c = Some d -> 0 <= d.
Proof.
  unfold digit_value.
  destruct (N.leb_spec 48 c); cbn [andb];
    [destruct (N.leb_spec c 57); [intros [= <-]; lia|]|];
  (destruct (N.leb_spec 97 c); cbn [andb];
    [destruct (N.leb_spec c 122); [intros [= <-]; lia|]|]);
  (destruct (N.leb_spec 65 c); cbn [andb];
    [destruct (N.leb_spec c 90); [intros [= <-]; lia|]|]);
  discriminate.
Qed.

Lemma parse_digits_nonneg (radix : Z) (s : jsstring) :
  0 <= radix ->
  forall (acc : option Z) (v : Z),
    (forall a, acc = Some a -> 0 <= a) ->
    parse_digits radix acc s = Some v -> 0 <= v.
Proof.
  intros Hradix. induction s as [|c s IH]; intros acc v Hacc; simpl.
  - intros ->. now apply Hacc.
  - unfold radix_digit. destruct (digit_value c) as [d|] eqn:Hd;
      [|intros ->; now apply Hacc].
    destruct (d <? radix); [|intros ->; now apply Hacc].
    apply IH. intros a [= <-]. apply digit_value_nonneg in Hd.
    destruct acc as [a0|]; simpl; [specialize (Hacc a0 eq_refl); nia|lia].
Qed.

Lemma drop_whitespace_no_dash (s : jsstring) :
  Forall (fun c => c <> 45%N) s -> Forall (fun c => c <> 45%N) (drop_whitespace s).
Proof.
  induction 1 as [|c s Hc Hs IH]; simpl; [constructor|].
  destruct (is_js_whitespace c); [exact IH|now constructor].
Qed.

Lemma parseInt_no_dash_nonneg (s : jsstring) (radix : Z) :
  0 <= radix ->
  Forall (fun c => c <> 45%N) s ->
  parseInt s radix = JNaN \/ exists z, parseInt s radix = JNum z /\ 0 <= z.
Proof.
  intros Hradix Hs. unfold parseInt.
  apply drop_whitespace_no_dash in Hs.
  destruct (drop_whitespace s) as [|c rest] eqn:Hdrop.
  - destruct (parse_digits radix None (strip_hex_prefix radix []))
      as [v|] eqn:Hv; [|now left].
    right. exists (1 * v). split; [reflexivity|].
    apply parse_digits_nonneg in Hv; [lia|assumption|discriminate].
  - assert (Hsign : exists s2,
               (match c :: rest with
                | 45%N :: r => (-1, r)
                | 43%N :: r => (1, r)
                | _ => (1, c :: rest)
                end) = (1, s2)).
    { inversion Hs as [|? ? Hc _]; subst.
      destruct (N.eq_dec c 43%N) as [->|H43]; [eauto|].
      exists (c :: rest).
      destruct c as [|p]; [reflexivity|].
      do 6 (destruct p as [p|p|]; try reflexivity); congruence. }
    destruct Hsign as [s2 ->].
    destruct (parse_digits radix None (strip_hex_prefix radix s2))
      as [v|] eqn:Hv; [|now left].
    right. exists (1 * v). split; [reflexivity|].
    apply parse_digits_nonneg in Hv; [lia|assumption|discriminate].
Qed.

(** X14. The registration id that [CryptoService] derives from a
    user id is NaN or a number between 1 and 16384, the range of the ids
    [generateIdentity] draws; it is never zero or negative. *)
Theorem registrationId_of_userId_range (id : jsstring) :
  registrationId_of_userId id = JNaN
  \/ exists z, registrationId_of_userId id = JNum z /\ 1 <= z <= 16384.
Proof.
  unfold registrationId_of_userId.
  destruct (parseInt_no_dash_nonneg (substring0 8 (remove_dashes id)) 16)
    as [->|(z & -> & Hz)].
  - lia.
  - unfold substring0, remove_dashes.
    apply Forall_take. apply list.Forall_forall. intros c Hc.
    apply list_elem_of_filter in Hc. tauto.
  - now left.
  - right. exists (Z.rem z 16384 + 1). split; [reflexivity|].
    pose proof (Z.rem_bound_pos z 16384 Hz ltac:(lia)). lia.
Qed.

(** ** What a session rests on *)

(** X15. [createSession] returns only if the library loads, the
    bundle carries a signed pre-key and a one-time pre-key, its three public
    keys deserialise, and the library accepts the pre-key bundle built from
    them with device id 1; the address returned is the text of the bundle's
    registration id with device id 1, and the world is the one the library
    left. *)
Theorem createSession_success
    (L : SignalLib) (userId : jsstring) (recipientBundle : UserBundle)
    (address : ProtocolAddress) (w w' : World) :
  createSession L userId recipientBundle w = (Ok address, w') ->
  address = recipient_address recipientBundle
  /\ load_error L = None
  /\ exists spk pk identity signedKey oneTimeKey,
       signedPreKey recipientBundle = Some spk
       /\ preKey recipientBundle = Some pk
       /\ PublicKey_deserialize L (base64_decode (identityKey recipientBundle))
          = Ok identity
       /\ PublicKey_deserialize L (base64_decode (spk_publicKey spk))
          = Ok signedKey
       /\ PublicKey_deserialize L (base64_decode (pk_publicKey pk))
          = Ok oneTimeKey
       /\ processPreKeyBundle L userId (recipient_address recipientBundle)
            (Build_PreKeyBundle (registrationId recipientBundle) 1
               (pk_keyId pk) oneTimeKey (spk_keyId spk) signedKey
               (base64_decode (spk_signature spk)) identity)
            w = (Ok tt, w').
Proof.
  unfold createSession, ensureSignalLoaded, loadSignal.
  fold (recipient_address recipientBundle).
  destruct (load_error L) as [e|]; async_unfold; [discriminate|].
  destruct (PublicKey_deserialize L (base64_decode (identityKey recipientBundle)))
    as [identity|e] eqn:Hidentity; [|discriminate].
  destruct (signedPreKey recipientBundle) as [spk|] eqn:Hspk; [|discriminate].
  destruct (PublicKey_deserialize L (base64_decode (spk_publicKey spk)))
    as [signedKey|e] eqn:Hsigned; [|discriminate].
  destruct (preKey recipientBundle) as [pk|] eqn:Hpk; [|discriminate].
  destruct (PublicKey_deserialize L (base64_decode (pk_publicKey pk)))
    as [oneTimeKey|e] eqn:Hone; [|discriminate].
  destruct (processPreKeyBundle L userId (recipient_address recipientBundle) _ w)
    as [[[]|e] w1] eqn:Hprocess; [|discriminate].
  intros H. injection H as <- <-.
  split; [reflexivity|]. split; [reflexivity|].
  exists spk, pk, identity, signedKey, oneTimeKey.
  repeat (split; [first [reflexivity | assumption]|]).
  first [reflexivity | assumption].
Qed.

(** The theorem applies: Alice's fresh device and the bundle Bob generated. *)
Lemma createSession_success_witness :
  let alice := js "a1b2c3d4-0000-4000-8000-00000000000a" in
  let w := Demo.fresh (fun _ => 0%N) 0 in
  exists address w',
    createSession Demo.lib alice bob_bundle w = (Ok address, w')
    /\ address = {| addr_name := js "13"; addr_deviceId := 1 |}.
Proof.
  cbv zeta.
  destruct (createSession Demo.lib (js "a1b2c3d4-0000-4000-8000-00000000000a") bob_bundle
              (Demo.fresh (fun _ => 0%N) 0)) as [[address|e] w'] eqn:Hrun.
  - destruct (createSession_success Demo.lib _ _ _ _ _ Hrun) as (-> & _).
    eexists _, w'. split; reflexivity.
  - apply (f_equal fst) in Hrun. vm_compute in Hrun. discriminate.
Defined.

(** ** The wrappers around the library *)

(** The bundle [generateIdentity] returns is valid in the sense of the
    round trip below, as soon as the library reads back the public keys it
    serialises: its three keys deserialise, and its signature field decodes
    to the signature of the signed pre-key under the identity key. *)
Lemma generateIdentity_bundle_valid
    (L : SignalLib) (userId : jsstring) (w0 w1 : World) (bundle : UserBundle) :
  (forall k, PublicKey_deserialize L (PublicKey_serialize L k) = Ok k) ->
  generateIdentity L userId w0 = (Ok bundle, w1) ->
  exists spk pk (identityPair signedPair oneTimePair :
                   IdentityKeyPair (PublicKey L) (PrivateKey L)),
    signedPreKey bundle = Some spk
    /\ preKey bundle = Some pk
    /\ PublicKey_deserialize L (base64_decode (identityKey bundle))
       = Ok (kp_publicKey identityPair)
    /\ PublicKey_deserialize L (base64_decode (spk_publicKey spk))
       = Ok (kp_publicKey signedPair)
    /\ PublicKey_deserialize L (base64_decode (pk_publicKey pk))
       = Ok (kp_publicKey oneTimePair)
    /\ base64_decode (spk_signature spk)
       = PrivateKey_sign L (kp_privateKey identityPair)
           (PublicKey_serialize L (kp_publicKey signedPair)).
Proof.
  intros Hser Hgen.
  unfold generateIdentity, ensureSignalLoaded, loadSignal in Hgen.
  destruct (load_error L) as [e|] eqn:Hload.
  { async_unfold. simpl in Hgen. discriminate. }
  unfold saveIdentityKeyPair, saveRegistrationId, saveSignedPreKey, savePreKey,
    random_registrationId, floor_random_times, draw, Date_now, setItemAsync in Hgen.
  async_unfold. simpl in Hgen.
  injection Hgen as Hbundle _. subst bundle.
  cbn [signedPreKey preKey identityKey].
  eexists _, _, _, _, _.
  split; [reflexivity|]. split; [reflexivity|].
  cbn [spk_publicKey spk_signature pk_publicKey].
  rewrite !base64_decode_encode, !Hser. repeat split; reflexivity.
Qed.

(** X27. The wrappers are transparent around the library.  Whether
    a message survives the way from sender to receiver is decided by the
    library; what the wrappers add on that way (the base64 text of the
    bundle and of the envelope, the UTF-8 bytes of the text, the choice of
    the pre-key format first) loses nothing.  Let the three keys of the
    receiver's bundle deserialise, and suppose the library establishes
    the session from the decoded bundle, encrypts the UTF-8 bytes of the
    plaintext into a pre-key message, and on the receiver's side decrypts
    that message to the same bytes.  Then [createSession],
    [encryptMessage] and the receiver's [decryptMessage] all return, and
    the text the receiver obtains has the bytes of the plaintext; it is
    the plaintext itself when that is well-formed UTF-16. *)
Theorem wrappers_transparent_around_library
    (L : SignalLib) (sender receiver : jsstring)
    (bundle : UserBundle) (spk : SignedPreKeyPublic) (pk : PreKeyPublic)
    (identity signedKey oneTimeKey : PublicKey L)
    (senderAddress : ProtocolAddress) (plaintext : jsstring)
    (c : CiphertextMessage L) (m : PreKeySignalMessage L)
    (wS wS1 wS2 wR wR1 : World) :
  load_error L = None ->
  signedPreKey bundle = Some spk ->
  preKey bundle = Some pk ->
  PublicKey_deserialize L (base64_decode (identityKey bundle)) = Ok identity ->
  PublicKey_deserialize L (base64_decode (spk_publicKey spk)) = Ok signedKey ->
  PublicKey_deserialize L (base64_decode (pk_publicKey pk)) = Ok oneTimeKey ->
  processPreKeyBundle L sender (recipient_address bundle)
    (Build_PreKeyBundle (registrationId bundle) 1 (pk_keyId pk) oneTimeKey
       (spk_keyId spk) signedKey (base64_decode (spk_signature spk)) identity)
    wS = (Ok tt, wS1) ->
  encrypt L sender (recipient_address bundle) (utf8_encode plaintext) wS1
    = (Ok c, wS2) ->
  PreKeySignalMessage_deserialize L (CiphertextMessage_serialize L c) = Ok m ->
  decryptPreKeySignalMessage L receiver senderAddress m wR
    = (Ok (utf8_encode plaintext), wR1) ->
  exists (envelope decrypted : jsstring),
    createSession L sender bundle wS = (Ok (recipient_address bundle), wS1)
    /\ encryptMessage L sender (recipient_address bundle) plaintext wS1
       = (Ok envelope, wS2)
    /\ decryptMessage L receiver senderAddress envelope wR = (Ok decrypted, wR1)
    /\ utf8_encode decrypted = utf8_encode plaintext
    /\ (well_formed_utf16 plaintext = true -> decrypted = plaintext).
Proof.
  intros Hload Hspk Hpk Hid Hsk Hok Hprocess Hencrypt Hparse Hdecrypt.
  exists (base64_encode (CiphertextMessage_serialize L c)),
         (utf8_decode (utf8_encode plaintext)).
  split; [|split; [|split; [|split]]].
  - unfold createSession, ensureSignalLoaded, loadSignal.
    rewrite Hload, Hspk, Hpk. fold (recipient_address bundle).
    async_unfold. rewrite Hid, Hsk, Hok, Hprocess. reflexivity.
  - unfold encryptMessage, ensureSignalLoaded, loadSignal. rewrite Hload.
    async_unfold. rewrite Hencrypt. reflexivity.
  - unfold decryptMessage, ensureSignalLoaded, loadSignal. rewrite Hload.
    async_unfold. rewrite base64_decode_encode, Hparse, Hdecrypt. reflexivity.
  - apply utf8_encode_decode_encode.
  - apply utf8_decode_encode_well_formed.
Qed.

(** The theorem applies: Alice establishes a session from the bundle Bob
    generated, encrypts "hello", and Bob decrypts the envelope. *)
Lemma wrappers_transparent_around_library_witness :
  let alice := js "a1b2c3d4-0000-4000-8000-00000000000a" in
  let bob := js "0b0b0b0b-1111-4111-8111-11111111111b" in
  let alice_device := Demo.fresh (fun _ => 0%N) 0 in
  PublicKey_deserialize Demo.lib (base64_decode (identityKey bob_bundle))
    = Ok ["005"; "001"; "000"]%byte
  /\ exists (envelope decrypted : jsstring) (w1 w2 w3 : World),
       createSession Demo.lib alice bob_bundle alice_device
         = (Ok (recipient_address bob_bundle), w1)
       /\ encryptMessage Demo.lib alice (recipient_address bob_bundle)
            (js "hello") w1 = (Ok envelope, w2)
       /\ decryptMessage Demo.lib bob (sender_address alice) envelope bob_device
          = (Ok decrypted, w3)
       /\ decrypted = js "hello".
Proof.
  cbv zeta. split; [vm_compute; reflexivity|].
  destruct (processPreKeyBundle Demo.lib (js "a1b2c3d4-0000-4000-8000-00000000000a")
              (recipient_address bob_bundle)
              (Build_PreKeyBundle (registrationId bob_bundle) 1 18432
                 ["005"; "016"; "000"]%byte 14336 ["005"; "010"; "000"]%byte
                 (base64_decode (js "AAoFAQA=")) ["005"; "001"; "000"]%byte)
              (Demo.fresh (fun _ => 0%N) 0)) as [r1 w1] eqn:Hprocess.
  assert (Hr1 : r1 = Ok tt).
  { apply (f_equal fst) in Hprocess. vm_compute in Hprocess.
    rewrite <- Hprocess. reflexivity. }
  subst r1.
  destruct (encrypt Demo.lib (js "a1b2c3d4-0000-4000-8000-00000000000a") (recipient_address bob_bundle)
              (utf8_encode (js "hello")) w1) as [r2 w2] eqn:Hencrypt.
  assert (Hr2 : r2 = Ok (true, "000"%byte, utf8_encode (js "hello"))).
  { apply (f_equal fst) in Hencrypt. cbn [fst] in Hencrypt.
    rewrite <- Hencrypt.
    apply (f_equal snd) in Hprocess. cbn [snd] in Hprocess.
    rewrite <- Hprocess. vm_compute. reflexivity. }
  subst r2.
  destruct (decryptPreKeySignalMessage Demo.lib (js "0b0b0b0b-1111-4111-8111-11111111111b")
              (sender_address (js "a1b2c3d4-0000-4000-8000-00000000000a"))
              ("000"%byte, utf8_encode (js "hello")) bob_device)
    as [r3 w3] eqn:Hdecrypt.
  assert (Hr3 : r3 = Ok (utf8_encode (js "hello"))).
  { apply (f_equal fst) in Hdecrypt. cbn [fst] in Hdecrypt.
    rewrite <- Hdecrypt. vm_compute. reflexivity. }
  subst r3.
  destruct (wrappers_transparent_around_library Demo.lib
              (js "a1b2c3d4-0000-4000-8000-00000000000a") (js "0b0b0b0b-1111-4111-8111-11111111111b") bob_bundle
              {| spk_keyId := 14336; spk_publicKey := js "BQoA";
                 spk_signature := js "AAoFAQA=" |}
              {| pk_keyId := 18432; pk_publicKey := js "BRAA" |}
              ["005"; "001"; "000"]%byte ["005"; "010"; "000"]%byte
              ["005"; "016"; "000"]%byte
              (sender_address (js "a1b2c3d4-0000-4000-8000-00000000000a")) (js "hello")
              (true, "000"%byte, utf8_encode (js "hello"))
              ("000"%byte, utf8_encode (js "hello"))
              (Demo.fresh (fun _ => 0%N) 0) w1 w2 bob_device w3
              eq_refl eq_refl eq_refl eq_refl eq_refl eq_refl
              Hprocess Hencrypt eq_refl Hdecrypt)
    as (envelope & decrypted & H1 & H2 & H3 & _ & H5).
  exists envelope, decrypted, w1, w2, w3.
  split; [exact H1|]. split; [exact H2|]. split; [exact H3|].
  apply H5. reflexivity.
Defined.

(** ** A bundle the library refuses *)

(** X28. [createSession] verifies nothing of a bundle itself.  Once the
    three keys of the bundle deserialise, the bundle goes to the library
    with its signature field decoded as it came; when the library refuses
    it ([processPreKeyBundle] throws [e]), [createSession] logs "Error
    creating session:" with [e] and throws [e] to its caller.  No address
    is returned. *)
Theorem createSession_rethrows_library_rejection
    (L : SignalLib) (userId : jsstring) (bundle : UserBundle)
    (spk : SignedPreKeyPublic) (pk : PreKeyPublic)
    (identity signedKey oneTimeKey : PublicKey L) (e : exn) (w w' : World) :
  load_error L = None ->
  signedPreKey bundle = Some spk ->
  preKey bundle = Some pk ->
  PublicKey_deserialize L (base64_decode (identityKey bundle)) = Ok identity ->
  PublicKey_deserialize L (base64_decode (spk_publicKey spk)) = Ok signedKey ->
  PublicKey_deserialize L (base64_decode (pk_publicKey pk)) = Ok oneTimeKey ->
  processPreKeyBundle L userId (recipient_address bundle)
    (Build_PreKeyBundle (registrationId bundle) 1 (pk_keyId pk) oneTimeKey
       (spk_keyId spk) signedKey (base64_decode (spk_signature spk)) identity)
    w = (Throw e, w') ->
  createSession L userId bundle w
  = (Throw e, logged "Error creating session:" e w').
Proof.
  intros Hload Hspk Hpk Hid Hsk Hok Hprocess.
  unfold createSession, ensureSignalLoaded, loadSignal.
  rewrite Hload, Hspk, Hpk. fold (recipient_address bundle).
  async_unfold. rewrite Hid, Hsk, Hok, Hprocess. reflexivity.
Qed.

(** The theorem applies: the demo library, a bundle signed by the
    identity [05 01 02], and the same bundle with the first byte of its
    signature replaced. *)
Lemma createSession_rethrows_library_rejection_witness :
  let alice := js "a1b2c3d4-0000-4000-8000-00000000000a" in
  let signed := ["005"; "003"; "004"]%byte in
  let signature := Demo.sign ["001"; "002"]%byte signed in
  let tampered := <[0%nat := "009"%byte]> signature in
  let bundle :=
    {| identityKey := base64_encode ["005"; "001"; "002"]%byte;
       signedPreKey := Some {| spk_keyId := 7;
                               spk_publicKey := base64_encode signed;
                               spk_signature := base64_encode signature |};
       preKey := Some {| pk_keyId := 3;
                         pk_publicKey := base64_encode ["005"; "005"; "006"]%byte |};
       registrationId := JNum 13 |} in
  let w := Demo.fresh (fun _ => 0%N) 0 in
  fst (createSession Demo.lib alice bundle w)
    = Ok {| addr_name := js "13"; addr_deviceId := 1 |}
  /\ createSession Demo.lib alice
       (with_signature bundle (base64_encode tampered)) w
     = (Throw Demo.InvalidSignedPreKeySignature,
        logged "Error creating session:" Demo.InvalidSignedPreKeySignature w).
Proof.
  cbv zeta. split; [vm_compute; reflexivity|].
  eapply (createSession_rethrows_library_rejection Demo.lib);
    [reflexivity | reflexivity | reflexivity | vm_compute; reflexivity
    | vm_compute; reflexivity | vm_compute; reflexivity | vm_compute; reflexivity].
Defined.

(** ** The safety number never fails *)

Lemma format_safety_number_length (hash : jsstring) :
  length hash = 64%nat -> length (format_safety_number hash) = 71%nat.
Proof.
  intros Hlen.
  do 64 (destruct hash as [|? hash]; [discriminate|]).
  destruct hash; [reflexivity|discriminate].
Qed.

(** X16. [SignalProtocol.getSafetyNumber] never throws and never
    writes to the key store.  It returns either the text
    [Error generating safety number] or a text of 71 characters. *)
Theorem getSafetyNumber_never_throws
    (L : SignalLib) (userId : jsstring) (otherUserBundle : UserBundle)
    (w : World) :
  exists (text : jsstring) (w' : World),
    getSafetyNumber L userId otherUserBundle w = (Ok text, w')
    /\ secure w' = secure w
    /\ (text = js "Error generating safety number" \/ length text = 71%nat).
Proof.
  unfold getSafetyNumber, ensureSignalLoaded, loadSignal.
  destruct (load_error L) as [e|].
  - (* the library does not load: caught and turned into the error text *)
    async_unfold. eexists _, _. split; [reflexivity|].
    split; [reflexivity|]. now left.
  - unfold try_catch, mbind at 1, Async_bind at 1, mret at 1, Async_ret at 1.
    unfold mbind at 1, Async_bind at 1.
    destruct (getIdentityKeyPair_reads_only L userId w) as (kp & w1 & -> & Hw1).
    destruct kp as [kp|]; async_unfold.
    + (* the digest of the two keys, formatted *)
      eexists _, _. split; [reflexivity|]. split; [exact Hw1|]. right.
      apply format_safety_number_length, digest_hex_length.
    + (* no identity on the device *)
      eexists _, _. split; [reflexivity|]. split; [exact Hw1|]. now left.
Qed.

(** X17. [CryptoService.getSafetyNumber] never throws and, as the
    file stands, never computes a safety number: whatever its arguments
    and the state, it stops at the unbound [supabase], logs that error
    under [Error getting safety number:] and returns the text
    [Error generating safety number]; nothing else changes. *)
Theorem CryptoService_getSafetyNumber_error_text
    (L : SignalLib) (this : CryptoService) (otherUserId : jsstring) (w : World) :
  CryptoService_getSafetyNumber L this otherUserId w
  = (Ok (js "Error generating safety number"),
     logged "Error getting safety number:" unbound_supabase w).
Proof. reflexivity. Qed.

(** ** The backend is left to [CryptoService] *)

Lemma keeps_backend_ret {A} (a : A) : keeps_backend (mret a).
Proof. intros w. split; reflexivity. Qed.

Lemma keeps_backend_throw {A} (e : exn) : keeps_backend (@throw A e).
Proof. intros w. split; reflexivity. Qed.

Lemma keeps_backend_lift_result {A} (r : result A) :
  keeps_backend (lift_result r).
Proof. intros w. split; reflexivity. Qed.

Lemma keeps_backend_bind {A B} (m : Async A) (k : A -> Async B) :
  keeps_backend m -> (forall a, keeps_backend (k a)) -> keeps_backend (m ≫= k).
Proof.
  intros Hm Hk w. unfold mbind, Async_bind.
  specialize (Hm w). destruct (m w) as [[a|e] w1]; cbn [snd] in *.
  - specialize (Hk a w1). destruct Hk as [-> ->]. exact Hm.
  - exact Hm.
Qed.

Lemma keeps_backend_try_catch {A} (body : Async A) (handler : exn -> Async A) :
  keeps_backend body -> (forall e, keeps_backend (handler e)) ->
  keeps_backend (try_catch body handler).
Proof.
  intros Hm Hk w. unfold try_catch.
  specialize (Hm w). destruct (body w) as [[a|e] w1]; cbn [snd] in *.
  - exact Hm.
  - specialize (Hk e w1). destruct Hk as [-> ->]. exact Hm.
Qed.

Lemma keeps_backend_console_log (lvl : LogLevel) (label : string)
    (e : option exn) :
  keeps_backend (console_log lvl label e).
Proof. intros w. split; reflexivity. Qed.

Lemma keeps_backend_console_error (label : string) (e : exn) :
  keeps_backend (console_error label e).
Proof. intros w. split; reflexivity. Qed.

Lemma keeps_backend_getItemAsync (key : jsstring) :
  keeps_backend (getItemAsync key).
Proof. intros w. split; reflexivity. Qed.

Lemma keeps_backend_setItemAsync (key value : jsstring) :
  keeps_backend (setItemAsync key value).
Proof. intros w. split; reflexivity. Qed.

Lemma keeps_backend_draw : keeps_backend draw.
Proof. intros w. split; reflexivity. Qed.

Lemma keeps_backend_Date_now : keeps_backend Date_now.
Proof. intros w. split; reflexivity. Qed.

Create HintDb backend.

#[local] Hint Resolve keeps_backend_ret keeps_backend_throw
  keeps_backend_lift_result keeps_backend_console_log
  keeps_backend_console_error keeps_backend_getItemAsync
  keeps_backend_setItemAsync keeps_backend_draw keeps_backend_Date_now
  : backend.

Ltac keeps_backend_step :=
  match goal with
  | |- keeps_backend (try_catch _ _) => apply keeps_backend_try_catch
  | |- keeps_backend (_ ≫= _) => apply keeps_backend_bind
  | |- keeps_backend (mbind _ _) => apply keeps_backend_bind
  | |- keeps_backend (match ?x with _ => _ end) => destruct x
  | |- keeps_backend (let _ := _ in _) => cbv zeta
  | |- forall _, _ => intro
  | |- keeps_backend _ => solve [auto with backend]
  end.

Ltac keeps_backend_solve := repeat keeps_backend_step.

Lemma keeps_backend_getIdentityKeyPair (L : SignalLib) (userId : jsstring) :
  keeps_backend (getIdentityKeyPair L userId).
Proof. unfold getIdentityKeyPair. keeps_backend_solve. Qed.

Lemma keeps_backend_getLocalRegistrationId (userId : jsstring) :
  keeps_backend (getLocalRegistrationId userId).
Proof.
  unfold getLocalRegistrationId, random_registrationId, floor_random_times.
  keeps_backend_solve.
Qed.

Lemma keeps_backend_getSignedPreKey (L : SignalLib) (userId : jsstring) (id : Z) :
  keeps_backend (getSignedPreKey L userId id).
Proof. unfold getSignedPreKey. keeps_backend_solve. Qed.

Lemma keeps_backend_getPreKey (L : SignalLib) (userId : jsstring) (id : Z) :
  keeps_backend (getPreKey L userId id).
Proof. unfold getPreKey. keeps_backend_solve. Qed.

Lemma keeps_backend_loadSignal (L : SignalLib) : keeps_backend (loadSignal L).
Proof. unfold loadSignal. keeps_backend_solve. Qed.

#[local] Hint Resolve keeps_backend_getIdentityKeyPair
  keeps_backend_getLocalRegistrationId keeps_backend_getSignedPreKey
  keeps_backend_getPreKey keeps_backend_loadSignal : backend.

Lemma keeps_backend_getUserBundle (L : SignalLib) (userId : jsstring) :
  keeps_backend (getUserBundle L userId).
Proof. unfold getUserBundle, ensureSignalLoaded. keeps_backend_solve. Qed.

Lemma keeps_backend_generateIdentity (L : SignalLib) (userId : jsstring) :
  keeps_backend (generateIdentity L userId).
Proof.
  unfold generateIdentity, ensureSignalLoaded, saveIdentityKeyPair,
    saveRegistrationId, saveSignedPreKey, savePreKey, random_registrationId,
    floor_random_times.
  keeps_backend_solve.
Qed.

#[local] Hint Resolve keeps_backend_getUserBundle
  keeps_backend_generateIdentity : backend.

Lemma keeps_backend_registerPrekeys (L : SignalLib) (userId : jsstring) :
  keeps_backend (registerPrekeys L userId).
Proof. unfold registerPrekeys, ensureSignalLoaded. keeps_backend_solve. Qed.

Lemma keeps_backend_getSafetyNumber (L : SignalLib) (userId : jsstring)
    (other : UserBundle) :
  keeps_backend (getSafetyNumber L userId other).
Proof. unfold getSafetyNumber, ensureSignalLoaded. keeps_backend_solve. Qed.

(** X18. The key management of [SignalProtocol] works on the
    device only: whatever their outcome, [getUserBundle],
    [generateIdentity], [registerPrekeys] and [getSafetyNumber] leave the
    [profiles] and [messages] tables as they were. *)
Theorem key_management_keeps_backend
    (L : SignalLib) (userId : jsstring) (other : UserBundle) :
  keeps_backend (getUserBundle L userId)
  /\ keeps_backend (generateIdentity L userId)
  /\ keeps_backend (registerPrekeys L userId)
  /\ keeps_backend (getSafetyNumber L userId other).
Proof.
  split; [apply keeps_backend_getUserBundle|].
  split; [apply keeps_backend_generateIdentity|].
  split; [apply keeps_backend_registerPrekeys|].
  apply keeps_backend_getSafetyNumber.
Qed.

(** ** Initialising the crypto service *)

Lemma keeps_backend_run {A} (m : Async A) (w w' : World) (r : result A) :
  keeps_backend m -> m w = (r, w') ->
  profiles w' = profiles w /\ messages w' = messages w.
Proof. intros Hm Hrun. specialize (Hm w). now rewrite Hrun in Hm. Qed.

Lemma CryptoService_initialize_throws
    (L : SignalLib) (this : CryptoService) (w : World) :
  exists (e : exn) (w' : World),
    CryptoService_initialize L this w = (Throw e, w').
Proof.
  unfold CryptoService_initialize.
  unfold try_catch at 1. unfold mbind at 1, Async_bind at 1.
  destruct (getUserBundle L (cs_userId this) w) as [[[b|]|e] w0];
    [async_unfold; eauto| |async_unfold; eauto].
  unfold mbind at 1, Async_bind at 1. unfold mbind at 1, Async_bind at 1.
  destruct (generateIdentity L (cs_userId this) w0) as [[b|e] w1];
    [|async_unfold; eauto].
  unfold mbind at 1, Async_bind at 1.
  destruct (registerPrekeys L (cs_userId this) w1) as [[[]|e] w2];
    async_unfold; eauto.
Qed.

Lemma keeps_backend_savePublicBundle (this : CryptoService) :
  keeps_backend (savePublicBundle this).
Proof.
  intros w. unfold savePublicBundle.
  destruct (cs_userBundle this); split; reflexivity.
Qed.

Lemma keeps_backend_CryptoService_initialize
    (L : SignalLib) (this : CryptoService) :
  keeps_backend (CryptoService_initialize L this).
Proof.
  unfold CryptoService_initialize.
  apply keeps_backend_try_catch.
  - apply keeps_backend_bind; [apply keeps_backend_getUserBundle|].
    intros existing. apply keeps_backend_bind.
    + destruct existing as [b|]; [apply keeps_backend_ret|].
      apply keeps_backend_bind; [apply keeps_backend_generateIdentity|].
      intros b. apply keeps_backend_bind; [apply keeps_backend_registerPrekeys|].
      intros _. apply keeps_backend_ret.
    + intros userBundle. apply keeps_backend_bind.
      * apply keeps_backend_savePublicBundle.
      * intros _. apply keeps_backend_ret.
  - intros e. apply keeps_backend_bind; [apply keeps_backend_console_error|].
    intros _. apply keeps_backend_throw.
Qed.

(** X19. [CryptoService.initialize] never succeeds.  Whatever the
    library and the state of the device, it throws; its last console entry
    is [Error initializing crypto:] with the error it throws, and the
    backend tables are as they were: no bundle is published. *)
Theorem CryptoService_initialize_never_succeeds
    (L : SignalLib) (this : CryptoService) (w : World) :
  exists (e : exn) (w' : World),
    CryptoService_initialize L this w = (Throw e, w')
    /\ profiles w' = profiles w /\ messages w' = messages w
    /\ last (console w')
       = Some (Log LogError (js "Error initializing crypto:") (Some e)).
Proof.
  unfold CryptoService_initialize.
  unfold try_catch at 1. unfold mbind at 1, Async_bind at 1.
  destruct (getUserBundle L (cs_userId this) w) as [[[b|]|e] w0] eqn:Hget;
    destruct (keeps_backend_run _ _ _ _ (keeps_backend_getUserBundle L _) Hget)
      as [Hp0 Hm0].
  - (* a stored bundle: [savePublicBundle] throws *)
    async_unfold. unfold savePublicBundle. cbn [cs_userBundle].
    async_unfold. unfold CryptoService_supabase. async_unfold.
    eexists _, _. split; [reflexivity|].
    cbn [profiles messages console set_console].
    split; [exact Hp0|]. split; [exact Hm0|]. apply last_snoc.
  - unfold mbind at 1, Async_bind at 1. unfold mbind at 1, Async_bind at 1.
    destruct (generateIdentity L (cs_userId this) w0) as [[b|e] w1] eqn:Hgen;
      destruct (keeps_backend_run _ _ _ _
                  (keeps_backend_generateIdentity L _) Hgen) as [Hp1 Hm1].
    2: { (* no identity could be generated *)
         async_unfold. eexists _, _. split; [reflexivity|].
         cbn [profiles messages console set_console].
         split; [congruence|]. split; [congruence|]. apply last_snoc. }
    unfold mbind at 1, Async_bind at 1.
    destruct (registerPrekeys L (cs_userId this) w1) as [[[]|e] w2] eqn:Hreg;
      destruct (keeps_backend_run _ _ _ _
                  (keeps_backend_registerPrekeys L _) Hreg) as [Hp2 Hm2].
    2: { async_unfold. eexists _, _. split; [reflexivity|].
         cbn [profiles messages console set_console].
         split; [congruence|]. split; [congruence|]. apply last_snoc. }
    (* a fresh bundle: [savePublicBundle] throws *)
    async_unfold. unfold savePublicBundle. cbn [cs_userBundle].
    async_unfold. unfold CryptoService_supabase. async_unfold.
    eexists _, _. split; [reflexivity|].
    cbn [profiles messages console set_console].
    split; [congruence|]. split; [congruence|]. apply last_snoc.
  - async_unfold. eexists _, _. split; [reflexivity|].
    cbn [profiles messages console set_console].
    split; [exact Hp0|]. split; [exact Hm0|]. apply last_snoc.
Qed.

(** X20. [initializeCrypto] leaves the screen as it found it: no
    crypto service is set, whatever the library and the device.  The
    backend tables are unchanged, and with a user signed in the last
    console entry is [Crypto initialization error:]. *)
Theorem initializeCrypto_sets_no_service
    (L : SignalLib) (s : ChatState) (w : World) :
  let '(s', w') := initializeCrypto L s w in
  s' = s
  /\ profiles w' = profiles w /\ messages w' = messages w
  /\ (is_Some (user s) ->
      exists e,
        last (console w')
        = Some (Log LogError (js "Crypto initialization error:") (Some e))).
Proof.
  unfold initializeCrypto. cbv zeta.
  destruct (user s) as [userId|] eqn:Huser.
  - unfold try_catch at 1. unfold mbind at 1, Async_bind at 1.
    destruct (CryptoService_initialize_throws L
                {| cs_userId := userId; cs_userBundle := None |} w)
      as (e & w' & Hinit).
    destruct (keeps_backend_run _ _ _ _
                (keeps_backend_CryptoService_initialize L _) Hinit) as [Hp Hm].
    rewrite Hinit.
    async_unfold. cbn [profiles messages console set_console].
    split; [reflexivity|]. split; [exact Hp|]. split; [exact Hm|].
    intros _. exists e. apply last_snoc.
  - async_unfold. split; [reflexivity|]. split; [reflexivity|].
    split; [reflexivity|]. intros [x Hx]. discriminate.
Qed.

(** X21. When [getUserBundle] finds a bundle on the device,
    [initialize] generates nothing and goes straight to publishing it,
    where it stops at the unbound [supabase]: the error is logged under
    [Error saving public bundle:] and under [Error initializing crypto:]
    and thrown, and the key store is as it was. *)
Theorem CryptoService_initialize_with_stored_bundle
    (L : SignalLib) (this : CryptoService) (bundle : UserBundle)
    (w w0 : World) :
  getUserBundle L (cs_userId this) w = (Ok (Some bundle), w0) ->
  CryptoService_initialize L this w
  = (Throw unbound_supabase,
     logged "Error initializing crypto:" unbound_supabase
       (logged "Error saving public bundle:" unbound_supabase w0))
  /\ secure w0 = secure w.
Proof.
  intros Hget.
  destruct (getUserBundle_reads_only L (cs_userId this) w)
    as (r & w0' & Hget' & Hsecure).
  rewrite Hget in Hget'. injection Hget' as _ <-.
  split; [|exact Hsecure].
  unfold CryptoService_initialize.
  unfold try_catch at 1. unfold mbind at 1, Async_bind at 1. rewrite Hget.
  reflexivity.
Qed.

(** The theorem applies: a device whose draws made both key ids 1. *)
Lemma CryptoService_initialize_with_stored_bundle_witness :
  let alice := js "a1b2c3d4-0000-4000-8000-00000000000a" in
  let w := snd (generateIdentity Demo.lib alice
                  (Demo.fresh (fun _ => 2 ^ 29)%N 0)) in
  exists bundle w0,
    getUserBundle Demo.lib alice w = (Ok (Some bundle), w0)
    /\ CryptoService_initialize Demo.lib alice_service w
       = (Throw unbound_supabase,
          logged "Error initializing crypto:" unbound_supabase
            (logged "Error saving public bundle:" unbound_supabase w0))
    /\ secure w0 = secure w.
Proof.
  cbv zeta.
  destruct (getUserBundle Demo.lib (js "a1b2c3d4-0000-4000-8000-00000000000a")
              (snd (generateIdentity Demo.lib
                      (js "a1b2c3d4-0000-4000-8000-00000000000a")
                      (Demo.fresh (fun _ => 2 ^ 29)%N 0))))
    as [[[bundle|]|e] w0] eqn:Hget.
  - exists bundle, w0. split; [reflexivity|].
    exact (CryptoService_initialize_with_stored_bundle Demo.lib alice_service
             bundle _ _ Hget).
  - apply (f_equal fst) in Hget. vm_compute in Hget. discriminate.
  - apply (f_equal fst) in Hget. vm_compute in Hget. discriminate.
Defined.

(** ** The chat thread screen *)

Lemma drop_whitespace_blank (s : jsstring) :
  forallb is_js_whitespace s = true -> drop_whitespace s = [].
Proof.
  induction s as [|c s IH]; [reflexivity|]. cbn [forallb drop_whitespace].
  intros H. apply andb_true_iff in H as [-> Hs]. now apply IH.
Qed.

Lemma trim_blank (s : jsstring) :
  forallb is_js_whitespace s = true -> trim s = [].
Proof.
  intros H. unfold trim. rewrite (drop_whitespace_blank s) by assumption.
  reflexivity.
Qed.

(** A row is stored exactly when no error comes from outside the schema,
    the duration passes the check, and sender and recipient have profile
    rows. *)
Lemma insert_message_stored
    (sender recipient text type : jsstring) (expiry : option (Z * Z))
    (w w' : World) (data : Message) :
  insert_message sender recipient text type expiry w = (Ok data, w') ->
  data = {| msg_id := N.of_nat (S (length (messages w)));
            sender_id := sender; recipient_id := recipient;
            ciphertext := text; message_type := type;
            expires_at := fst <$> expiry;
            expire_duration := snd <$> expiry |}
  /\ w' = set_messages (fun ms => ms ++ [data]) w.
Proof.
  unfold insert_message.
  destruct (insert_error w); [discriminate|].
  destruct (valid_expire_duration (snd <$> expiry)); [|discriminate].
  cbn [negb].
  destruct (profiles w !! sender); [|discriminate].
  destruct (profiles w !! recipient); [|discriminate].
  intros H. injection H as <- <-. split; reflexivity.
Qed.

(** X22. [sendMessage] does nothing at all (the screen state and
    the world are unchanged) when the input consists of white space only,
    when there is no user, when there is no recipient, or while a send is in
    progress. *)
Theorem sendMessage_ignores_blank_input
    (L : SignalLib) (s : ChatState) (w : World) :
  forallb is_js_whitespace (inputText s) = true
  \/ user s = None \/ recipientId s = [] \/ sending s = true ->
  sendMessage L s w = (s, w).
Proof.
  unfold sendMessage. cbv zeta.
  intros [Hblank|[Huser|[Hrecipient|Hsending]]].
  - rewrite trim_blank by assumption. reflexivity.
  - rewrite Huser. destruct (trim (inputText s)); reflexivity.
  - rewrite Hrecipient.
    destruct (trim (inputText s)); [|destruct (user s)]; reflexivity.
  - rewrite Hsending.
    destruct (trim (inputText s)); [|destruct (user s);
      [destruct (recipientId s)|]]; reflexivity.
Qed.

(** The theorem applies: an input of a space, a tab, a no-break space and a line feed. *)
Lemma sendMessage_ignores_blank_input_witness :
  sendMessage Demo.lib (alice_chat [32; 9; 160; 10]%N) alice_device
  = (alice_chat [32; 9; 160; 10]%N, alice_device).
Proof.
  apply sendMessage_ignores_blank_input. left. reflexivity.
Defined.

(** X23. When [sendMessage] does act, it ends in one of two states,
    whatever the library does, and in both [sending] is false again.
    Either the message was sent: the input is empty, no error is shown, and
    the list has one more item, outgoing, whose text is the trimmed input
    and whose row (the last of the [messages] table) goes from the user to
    the recipient with type [whisper].  Or it was not: the input holds the
    trimmed text again, an error is shown, and list and timers are as
    before. *)
Theorem sendMessage_outcome
    (L : SignalLib) (s : ChatState) (w : World) (userId : jsstring) :
  trim (inputText s) <> [] ->
  user s = Some userId ->
  recipientId s <> [] ->
  sending s = false ->
  let '(s', w') := sendMessage L s w in
  sending s' = false
  /\ ((inputText s' = [] /\ error s' = None
       /\ exists row,
            chat_messages s'
            = chat_messages s
                ++ [{| item_row := row;
                       decryptedText := Some (trim (inputText s));
                       isOutgoing := true |}]
            /\ sender_id row = userId /\ recipient_id row = recipientId s
            /\ message_type row = js "whisper"
            /\ last (messages w') = Some row)
      \/ (inputText s' = trim (inputText s) /\ is_Some (error s')
          /\ chat_messages s' = chat_messages s /\ timers s' = timers s)).
Proof.
  intros Htext Huser Hrecipient Hsending.
  unfold sendMessage. cbv zeta. rewrite Huser, Hsending.
  destruct (trim (inputText s)) as [|c text] eqn:Htrim; [congruence|].
  destruct (recipientId s) as [|r rs] eqn:Hrid; [congruence|].
  set (encrypting :=
         match cryptoServiceRef s with
         | Some cryptoService =>
             try_catch
               (CryptoService_encryptMessage L cryptoService (r :: rs) (c :: text))
               (fun encryptError =>
                  console_log LogInfo "Encryption failed, sending plain:"
                    (Some encryptError);;
                  mret (c :: text))
         | None => mret (c :: text)
         end).
  assert (Hencrypting : exists envelope w1, encrypting w = (Ok envelope, w1)).
  { subst encrypting. destruct (cryptoServiceRef s) as [cs|].
    - unfold try_catch.
      destruct (CryptoService_encryptMessage L cs (r :: rs) (c :: text) w)
        as [[envelope|e] w1]; [eauto|].
      async_unfold. eauto.
    - async_unfold. eauto. }
  destruct Hencrypting as (envelope & w1 & Hencrypting).
  unfold try_catch at 1. unfold mbind at 1, Async_bind at 1.
  rewrite Hencrypting.
  unfold mbind at 1, Async_bind at 1.
  set (expiring := if 0 <? defaultExpireDuration s then _ else _).
  destruct (expiring w1) as [[expiry|e] w2].
  2: { (* the expiry is out of the range of dates *)
       async_unfold.
       cbn [sending with_input inputText error chat_messages timers].
       split; [reflexivity|]. right. auto. }
  unfold mbind at 1, Async_bind at 1.
  destruct (insert_message userId (r :: rs) envelope (js "whisper") expiry w2)
    as [[data|e] w3] eqn:Hinsert.
  2: { (* the backend refuses the row *)
       async_unfold.
       cbn [sending with_input inputText error chat_messages timers].
       split; [reflexivity|]. right. auto. }
  apply insert_message_stored in Hinsert as [Hdata ->].
  async_unfold.
  cbn [sending with_input with_sent inputText error chat_messages timers
       messages set_messages set_console].
  split; [reflexivity|]. left.
  split; [reflexivity|]. split; [reflexivity|].
  exists data. split; [reflexivity|].
  rewrite Hdata at 1 2 3. cbn [sender_id recipient_id message_type].
  split; [reflexivity|]. split; [reflexivity|]. split; [reflexivity|].
  apply last_snoc.
Qed.

(** The theorem applies: Alice sends [hello]. *)
Lemma sendMessage_outcome_witness :
  let s := alice_chat (js " hello ") in
  let '(s', w') := sendMessage Demo.lib s alice_device in
  sending s' = false
  /\ ((inputText s' = [] /\ error s' = None
       /\ exists row,
            chat_messages s'
            = chat_messages s
                ++ [{| item_row := row;
                       decryptedText := Some (trim (inputText s));
                       isOutgoing := true |}]
            /\ sender_id row = js "a1b2c3d4-0000-4000-8000-00000000000a"
            /\ recipient_id row = recipientId s
            /\ message_type row = js "whisper"
            /\ last (messages w') = Some row)
      \/ (inputText s' = trim (inputText s) /\ is_Some (error s')
          /\ chat_messages s' = chat_messages s /\ timers s' = timers s)).
Proof.
  cbv zeta.
  apply (sendMessage_outcome Demo.lib (alice_chat (js " hello ")) alice_device
           (js "a1b2c3d4-0000-4000-8000-00000000000a"));
    [discriminate | reflexivity | discriminate | reflexivity].
Defined.

(** X24. [sendMessage] transmits the text as typed, whether or not
    the screen holds a crypto service.  When the backend accepts the row
    (sender and recipient have profile rows, the duration is off or lies
    between 5 and 604800 seconds, the expiry is a valid date, and no error
    comes from outside the schema), the row stored has the trimmed input
    itself as its [ciphertext], and no error is shown.  Without a crypto
    service the only console entry is [Message sent successfully]; with
    one, the failed encryption leaves two entries before it.  The key
    store is untouched.  When disappearing messages are on, [expires_at]
    is the duration later in local time, and one timer is set for the
    row, with the duration in milliseconds as its delay: the timer fires
    at [expires_at] when the offset of local time is the same at both
    ends.  Otherwise no timer is set. *)
Theorem sendMessage_transmits_plaintext
    (L : SignalLib) (s : ChatState) (w : World) (userId : jsstring) :
  trim (inputText s) <> [] ->
  user s = Some userId ->
  recipientId s <> [] ->
  sending s = false ->
  insert_error w = None ->
  is_Some (profiles w !! userId) ->
  is_Some (profiles w !! recipientId s) ->
  defaultExpireDuration s <= 0
  \/ (5 <= defaultExpireDuration s <= 604800
      /\ Z.abs (local_seconds_later w (defaultExpireDuration s))
         <= 8640000000000000) ->
  let '(s', w') := sendMessage L s w in
  let row := sent_row s userId (trim (inputText s)) w in
  messages w' = messages w ++ [row]
  /\ console w'
     = console w
         ++ match cryptoServiceRef s with
            | Some _ =>
                [Log LogError (js "Encryption error:") (Some unbound_supabase);
                 Log LogInfo (js "Encryption failed, sending plain:")
                   (Some unbound_supabase)]
            | None => []
            end
         ++ [Log LogInfo (js "Message sent successfully") None]
  /\ secure w' = secure w
  /\ error s' = None
  /\ timers s'
     = timers s
         ++ (if 0 <? defaultExpireDuration s
             then [(msg_id row, defaultExpireDuration s * 1000)] else [])
  /\ (0 < defaultExpireDuration s ->
      zone w (Z.of_N (now w)) true
      = zone w (Z.of_N (now w) + zone w (Z.of_N (now w)) true
                + 1000 * defaultExpireDuration s) false ->
      expires_at row
      = Some (Z.of_N (now w) + defaultExpireDuration s * 1000)).
Proof.
  intros Htext Huser Hrecipient Hsending Hinsert [sender Hsender]
    [recipient Hrecipient_row] Hduration.
  unfold sendMessage. cbv zeta. rewrite Huser, Hsending.
  destruct (trim (inputText s)) as [|c text] eqn:Htrim; [congruence|].
  destruct (recipientId s) as [|r rs] eqn:Hrid; [congruence|].
  unfold sent_row, local_seconds_later in *. rewrite Hrid. cbv zeta in *.
  unfold CryptoService_encryptMessage, CryptoService_supabase, Date_now,
    expiry_instant, insert_message.
  destruct (Z.ltb_spec 0 (defaultExpireDuration s)) as [Hon|Hoff].
  - (* disappearing messages are on *)
    destruct Hduration as [Hoff|[Hrange Hdate]]; [lia|].
    apply Z.leb_le in Hdate.
    assert (Hvalid : (5 <=? defaultExpireDuration s)
                     && (defaultExpireDuration s <=? 604800) = true).
    { apply andb_true_iff. split; apply Z.leb_le; lia. }
    destruct (cryptoServiceRef s) as [cs|]; async_unfold;
      cbn [now zone set_console];
      rewrite Hdate;
      cbn [insert_error profiles messages set_console
           fmap option_fmap option_map fst snd valid_expire_duration];
      rewrite Hinsert, Hvalid, Hsender, Hrecipient_row;
      cbn [negb messages console secure set_messages set_console error timers
           with_input with_sent msg_id expires_at andb N.eqb Pos.of_succ_nat
           N.of_nat];
      rewrite <- ?app_assoc;
      (split; [reflexivity|]); (split; [reflexivity|]);
      (split; [reflexivity|]); (split; [reflexivity|]);
      (split; [reflexivity|]);
      intros _ Hzone; f_equal; rewrite <- Hzone; lia.
  - (* disappearing messages are off *)
    destruct (cryptoServiceRef s) as [cs|]; async_unfold;
      cbn [now zone insert_error profiles messages set_console];
      rewrite Hinsert;
      cbn [fmap option_fmap option_map fst snd valid_expire_duration negb];
      rewrite Hsender, Hrecipient_row;
      cbn [messages console secure set_messages set_console error timers
           with_input with_sent msg_id expires_at andb];
      rewrite <- ?app_assoc, ?app_nil_r;
      (split; [reflexivity|]); (split; [reflexivity|]);
      (split; [reflexivity|]); (split; [reflexivity|]);
      (split; [reflexivity|]); lia.
Qed.

(** The theorem applies: a message of one day, sent twelve hours before
    the clocks go back on 29 October 2023.  It expires 25 hours after it
    was sent; its timer is set to 24 hours. *)
Lemma sendMessage_transmits_plaintext_witness :
  let s :=
    {| inputText := js " hello "; sending := false; error := None;
       chat_messages := [];
       user := Some (js "a1b2c3d4-0000-4000-8000-00000000000a");
       recipientId := js "0b0b0b0b-1111-4111-8111-11111111111b";
       cryptoServiceRef := None;
       defaultExpireDuration := 86400; timers := [] |} in
  let w :=
    with_zone (summer_time_until 1698541200000)
      (with_profile_row (js "a1b2c3d4-0000-4000-8000-00000000000a")
         (with_profile_row (js "0b0b0b0b-1111-4111-8111-11111111111b")
            (Demo.fresh (fun _ => 0%N) 1698498000000))) in
  let '(s', w') := sendMessage Demo.lib s w in
  map ciphertext (messages w') = [js "hello"]
  /\ map expires_at (messages w') = [Some (1698498000000 + 90000000)]
  /\ timers s' = [(1%N, 86400000)]
  /\ error s' = None.
Proof.
  cbv zeta.
  pose proof (sendMessage_transmits_plaintext Demo.lib
    {| inputText := js " hello "; sending := false; error := None;
       chat_messages := [];
       user := Some (js "a1b2c3d4-0000-4000-8000-00000000000a");
       recipientId := js "0b0b0b0b-1111-4111-8111-11111111111b";
       cryptoServiceRef := None;
       defaultExpireDuration := 86400; timers := [] |}
    (with_zone (summer_time_until 1698541200000)
       (with_profile_row (js "a1b2c3d4-0000-4000-8000-00000000000a")
          (with_profile_row (js "0b0b0b0b-1111-4111-8111-11111111111b")
             (Demo.fresh (fun _ => 0%N) 1698498000000))))
    (js "a1b2c3d4-0000-4000-8000-00000000000a")
    ltac:(discriminate) eq_refl ltac:(discriminate) eq_refl eq_refl
    ltac:(vm_compute; eauto) ltac:(vm_compute; eauto)
    ltac:(right; split; [cbn; lia | apply Z.leb_le; vm_compute; reflexivity]))
    as H.
  destruct (sendMessage Demo.lib _ _) as [s' w'].
  destruct H as (Hm & _ & _ & He & Ht & _). rewrite Hm, Ht.
  split; [reflexivity|]. split; [vm_compute; reflexivity|].
  split; [reflexivity|exact He].
Defined.

(** X29. The backend stores no row that the schema refuses.  When
    the sender or the recipient has no profile row, or disappearing
    messages are on with a duration outside 5 to 604800 seconds,
    [sendMessage] leaves the [messages] table as it was, puts the trimmed
    text back into the input and shows an error; the list and the timers
    are unchanged. *)
Theorem sendMessage_refused_by_schema
    (L : SignalLib) (s : ChatState) (w : World) (userId : jsstring) :
  trim (inputText s) <> [] ->
  user s = Some userId ->
  recipientId s <> [] ->
  sending s = false ->
  profiles w !! userId = None
  \/ profiles w !! recipientId s = None
  \/ (0 < defaultExpireDuration s
      /\ ~ 5 <= defaultExpireDuration s <= 604800) ->
  let '(s', w') := sendMessage L s w in
  messages w' = messages w
  /\ inputText s' = trim (inputText s)
  /\ is_Some (error s')
  /\ sending s' = false
  /\ chat_messages s' = chat_messages s /\ timers s' = timers s.
Proof.
  intros Htext Huser Hrecipient Hsending Hrefused.
  unfold sendMessage. cbv zeta. rewrite Huser, Hsending.
  destruct (trim (inputText s)) as [|c text] eqn:Htrim; [congruence|].
  destruct (recipientId s) as [|r rs] eqn:Hrid; [congruence|].
  set (encrypting := match cryptoServiceRef s with Some _ => _ | None => _ end).
  assert (Hencrypting :
    exists envelope w1,
      encrypting w = (Ok envelope, w1)
      /\ profiles w1 = profiles w /\ messages w1 = messages w).
  { subst encrypting. destruct (cryptoServiceRef s) as [cs|].
    - eexists _, _. split; [reflexivity|]. split; reflexivity.
    - eexists _, _. split; [reflexivity|]. split; reflexivity. }
  destruct Hencrypting as (envelope & w1 & Hencrypting & Hp1 & Hm1).
  unfold try_catch at 1. unfold mbind at 1, Async_bind at 1.
  rewrite Hencrypting.
  unfold mbind at 1, Async_bind at 1.
  set (expiring := if 0 <? defaultExpireDuration s then _ else _).
  assert (Hexpiring :
    exists r, expiring w1 = (r, w1)
              /\ forall expiry, r = Ok expiry ->
                   snd <$> expiry
                   = if 0 <? defaultExpireDuration s
                     then Some (defaultExpireDuration s) else None).
  { subst expiring. destruct (0 <? defaultExpireDuration s).
    - unfold Date_now, expiry_instant. async_unfold.
      match goal with |- context [if ?b then _ else _] => destruct b end;
        eexists; (split; [reflexivity|]); intros expiry [= <-]; reflexivity.
    - eexists. split; [reflexivity|]. intros expiry [= <-]. reflexivity. }
  destruct Hexpiring as (r0 & -> & Hexpiry).
  destruct r0 as [expiry|e].
  2: { async_unfold.
       cbn [messages set_console sending with_input inputText error
            chat_messages timers].
       rewrite Hm1. repeat (split; [first [reflexivity | eauto]|]). reflexivity. }
  specialize (Hexpiry expiry eq_refl).
  unfold mbind at 1, Async_bind at 1.
  assert (Hinsert :
    exists e,
      insert_message userId (r :: rs) envelope (js "whisper") expiry w1
      = (Throw e, w1)).
  { unfold insert_message. destruct (insert_error w1) as [e|]; [eauto|].
    rewrite Hexpiry, Hp1.
    destruct Hrefused as [Hsender|[Hrow|[Hon Hrange]]].
    - destruct (negb _); [eauto|]. rewrite Hsender. eauto.
    - destruct (negb _); [eauto|]. rewrite Hrow.
      destruct (profiles w !! userId); eauto.
    - replace (0 <? defaultExpireDuration s) with true
        by (symmetry; apply Z.ltb_lt; exact Hon).
      cbn [valid_expire_duration].
      replace ((5 <=? defaultExpireDuration s)
               && (defaultExpireDuration s <=? 604800)) with false; [eauto|].
      symmetry. apply andb_false_iff.
      destruct (Z.leb_spec 5 (defaultExpireDuration s)); [|now left].
      destruct (Z.leb_spec (defaultExpireDuration s) 604800); [lia|now right]. }
  destruct Hinsert as [e ->].
  async_unfold.
  cbn [messages set_console sending with_input inputText error chat_messages
       timers].
  rewrite Hm1. repeat (split; [first [reflexivity | eauto]|]). reflexivity.
Qed.

(** The theorem applies: Alice writes to a recipient who is not
    registered. *)
Lemma sendMessage_refused_by_schema_witness :
  let stranger := js "5eed5eed-2222-4222-8222-22222222222c" in
  let s :=
    {| inputText := js "hello"; sending := false; error := None;
       chat_messages := [];
       user := Some (js "a1b2c3d4-0000-4000-8000-00000000000a");
       recipientId := stranger; cryptoServiceRef := None;
       defaultExpireDuration := 0; timers := [] |} in
  let '(s', w') := sendMessage Demo.lib s alice_device in
  messages w' = messages alice_device
  /\ inputText s' = js "hello"
  /\ error s'
     = Some (exn_message (foreign_key_violation "messages_recipient_id_fkey")).
Proof.
  cbv zeta.
  pose proof (sendMessage_refused_by_schema Demo.lib
    {| inputText := js "hello"; sending := false; error := None;
       chat_messages := [];
       user := Some (js "a1b2c3d4-0000-4000-8000-00000000000a");
       recipientId := js "5eed5eed-2222-4222-8222-22222222222c";
       cryptoServiceRef := None;
       defaultExpireDuration := 0; timers := [] |}
    alice_device (js "a1b2c3d4-0000-4000-8000-00000000000a")
    ltac:(discriminate) eq_refl ltac:(discriminate) eq_refl
    ltac:(right; left; vm_compute; reflexivity)) as H.
  destruct (sendMessage Demo.lib _ alice_device) as [s' w'] eqn:Hrun.
  destruct H as (Hm & Hi & _).
  split; [exact Hm|]. split; [exact Hi|].
  apply (f_equal (fun p => error (fst p))) in Hrun. cbn [fst] in Hrun.
  rewrite <- Hrun. vm_compute. reflexivity.
Defined.

(** X25. When the library cannot be loaded, [initializeCrypto]
    does not throw: it leaves the screen state as it was (no crypto service
    is set), the key store, the random draws and the backend are untouched,
    and the last console entry is [Crypto initialization error:] with the
    load error. *)
Theorem initializeCrypto_library_unavailable
    (L : SignalLib) (s : ChatState) (w : World) (userId : jsstring) (e : exn) :
  load_error L = Some e ->
  user s = Some userId ->
  let '(s', w') := initializeCrypto L s w in
  s' = s
  /\ secure w' = secure w /\ drawn w' = drawn w
  /\ profiles w' = profiles w /\ messages w' = messages w
  /\ last (console w')
     = Some (Log LogError (js "Crypto initialization error:") (Some e)).
Proof.
  intros Hload Huser.
  unfold initializeCrypto, CryptoService_initialize, getUserBundle,
    generateIdentity, ensureSignalLoaded, loadSignal.
  cbv zeta. rewrite Huser, Hload. async_unfold. cbn [cs_userId].
  unfold set_console. cbn [secure console drawn profiles messages].
  repeat (split; [reflexivity|]). apply last_snoc.
Qed.

(** The theorem applies: the demo library made unavailable. *)
Lemma initializeCrypto_library_unavailable_witness :
  let e := Error "Cannot find module" in
  let s := alice_chat (js "hello") in
  let w := Demo.fresh (fun _ => 0%N) 0 in
  let '(s', w') := initializeCrypto (unavailable e Demo.lib) s w in
  s' = s
  /\ secure w' = secure w /\ drawn w' = drawn w
  /\ profiles w' = profiles w /\ messages w' = messages w
  /\ last (console w')
     = Some (Log LogError (js "Crypto initialization error:") (Some e)).
Proof.
  cbv zeta.
  apply (initializeCrypto_library_unavailable
           (unavailable (Error "Cannot find module") Demo.lib)
           (alice_chat (js "hello")) (Demo.fresh (fun _ => 0%N) 0)
           (js "a1b2c3d4-0000-4000-8000-00000000000a") (Error "Cannot find module"));
    reflexivity.
Defined.

(** ** Durations *)

(** X26. [formatDuration] shows a duration below a minute in
    seconds as it is, and otherwise rounds it down to whole minutes (1 to
    59), hours (1 to 23) or days: the number shown times the unit is at
    most the duration, and less than one unit below it. *)
Theorem formatDuration_units (seconds : Z) :
  (seconds < 60
   /\ formatDuration (JNum seconds) = js (pretty seconds) ++ js "s")
  \/ (exists n, 1 <= n < 60 /\ 60 * n <= seconds < 60 * (n + 1)
                /\ formatDuration (JNum seconds) = js (pretty n) ++ js "m")
  \/ (exists n, 1 <= n < 24 /\ 3600 * n <= seconds < 3600 * (n + 1)
                /\ formatDuration (JNum seconds) = js (pretty n) ++ js "h")
  \/ (exists n, 1 <= n /\ 86400 * n <= seconds < 86400 * (n + 1)
                /\ formatDuration (JNum seconds) = js (pretty n) ++ js "d").
Proof.
  unfold formatDuration, js_lt, js_floor_div, jsnumber_toString.
  destruct (Z.ltb_spec seconds 60) as [H60|H60]; [left; auto|].
  right.
  destruct (Z.ltb_spec seconds 3600) as [H3600|H3600].
  { left. exists (seconds / 60). split; [|split; [|reflexivity]];
      pose proof (Z.div_mod seconds 60 ltac:(lia));
      pose proof (Z.mod_pos_bound seconds 60 ltac:(lia)); lia. }
  right.
  destruct (Z.ltb_spec seconds 86400) as [H86400|H86400].
  { left. exists (seconds / 3600). split; [|split; [|reflexivity]];
      pose proof (Z.div_mod seconds 3600 ltac:(lia));
      pose proof (Z.mod_pos_bound seconds 3600 ltac:(lia)); lia. }
  right. exists (seconds / 86400). split; [|split; [|reflexivity]];
    pose proof (Z.div_mod seconds 86400 ltac:(lia));
    pose proof (Z.mod_pos_bound seconds 86400 ltac:(lia)); lia.
Qed.
